(** * Trader skills: rounds, behaviours and request encoding

    A shallow embedding of the business-rule glue of the trader service
    (staking KPI arithmetic, the two round specialisations and their
    transition tables, the subscription purchase flow and the subgraph
    request encoding), with the properties stated about it. *)

From Stdlib Require Import ZArith Lia List Bool.
From stdpp Require Import base option list gmap strings pretty.

Local Open Scope Z_scope.

(* ===================================================================== *)
(** ** Python values shared by the modules                                *)
(* ===================================================================== *)

(** Python exceptions are explicit values. *)
Inductive PyExc :=
| ValueError | TypeError | IndexError | ZeroDivisionError | OverflowError
| UnicodeEncodeError | UnicodeDecodeError | JSONDecodeError.

(** A computation that returns or raises. *)
Inductive Exc (A : Type) :=
| Ok (a : A)
| Raise (e : PyExc).
Arguments Ok {A} a.
Arguments Raise {A} e.

Definition exc_bind {A B} (m : Exc A) (k : A -> Exc B) : Exc B :=
  match m with
  | Ok a => k a
  | Raise e => Raise e
  end.

#[global] Instance exc_mret : MRet Exc := fun A a => Ok a.
#[global] Instance exc_mbind : MBind Exc := fun A B k m => exc_bind m k.

(* ===================================================================== *)
(** ** Python [float]: the finite binary64 values                         *)
(* ===================================================================== *)

Module PyFloat.

(** A finite double is the dyadic rational [mant * 2 ^ expo]. *)
Record float := mk { mant : Z; expo : Z }.

Definition MANT_DIG : Z := 53.
Definition MIN_EXP : Z := -1074.
Definition MAX_EXP : Z := 1024.

(** The fraction [n / (d * 2 ^ s)] with the power of two moved to the
    side where its exponent is not negative. *)
Definition scaled (n d s : Z) : Z * Z :=
  if 0 <=? s then (n, d * 2 ^ s) else (n * 2 ^ (- s), d).

(** Round the fraction [n / d] ([0 <= n], [0 < d]) to the nearest
    integer, a tie going to the even neighbour. *)
Definition round_half_even (n d : Z) : Z :=
  let q := n / d in
  let r := n mod d in
  if 2 * r <? d then q
  else if d <? 2 * r then q + 1
  else if Z.even q then q else q + 1.

(** [floor (log2 (a / b))] for [0 < a] and [0 < b]. *)
Definition quot_log2 (a b : Z) : Z :=
  let e0 := Z.log2 a - Z.log2 b in
  let '(n, d) := scaled a b e0 in
  if n <? d then e0 - 1 else e0.

(** [int / int]: the exact quotient rounded once to the nearest double
    (ties to even), with gradual underflow; [ZeroDivisionError] on a
    zero divisor and [OverflowError] when the rounded quotient does not
    fit a double. *)
Definition true_divide (a b : Z) : Exc float :=
  if b =? 0 then Raise ZeroDivisionError
  else if a =? 0 then Ok (mk 0 0)
  else
    let sign := Z.sgn a * Z.sgn b in
    let a' := Z.abs a in
    let b' := Z.abs b in
    let shift := Z.max (quot_log2 a' b' - (MANT_DIG - 1)) MIN_EXP in
    let '(n, d) := scaled a' b' shift in
    let m := round_half_even n d in
    let '(hi, lo) := scaled m 1 (MAX_EXP - shift) in
    if lo <=? hi then Raise OverflowError
    else Ok (mk (sign * m) shift).

(** [x < y] on doubles, compared at their common exponent. *)
Definition lt (x y : float) : bool :=
  let e := Z.min (expo x) (expo y) in
  mant x * 2 ^ (expo x - e) <? mant y * 2 ^ (expo y - e).

(** [max(x, y)]: the second argument replaces the first only when it
    is strictly greater. *)
Definition max (x y : float) : float := if lt x y then y else x.

(** [math.ceil]: the least integer not below the double, as an [int]. *)
Definition ceil (x : float) : Z :=
  if 0 <=? expo x then mant x * 2 ^ expo x
  else - ((- mant x) / 2 ^ (- expo x)).

End PyFloat.

(* ===================================================================== *)
(** ** Behaviours: suspendable procedures over an explicit state          *)
(* ===================================================================== *)

Module Generator.

(** How a run of a generator ends: it returns a value in a final state,
    it is still suspended when the scheduled steps are used up, or it
    raises. *)
Inductive outcome (St A : Type) :=
| Returned (a : A) (s : St)
| Suspended
| Raised (e : PyExc).
Arguments Returned {St A} a s.
Arguments Suspended {St A}.
Arguments Raised {St A} e.

Definition Gen (St A : Type) : Type := St -> outcome St A.

Definition gen_ret {St A} (a : A) : Gen St A := fun s => Returned a s.

Definition gen_bind {St A B} (m : Gen St A) (k : A -> Gen St B) : Gen St B :=
  fun s =>
    match m s with
    | Returned a s' => k a s'
    | Suspended => Suspended
    | Raised e => Raised e
    end.

#[global] Instance gen_mret {St} : MRet (Gen St) := fun A a => gen_ret a.
#[global] Instance gen_mbind {St} : MBind (Gen St) :=
  fun A B k m => gen_bind m k.

(** What a finished run returned, if it returned. *)
Definition returned_value {St A} (o : outcome St A) : option A :=
  match o with
  | Returned a _ => Some a
  | _ => None
  end.

Definition gets {St A} (f : St -> A) : Gen St A := fun s => Returned (f s) s.
Definition modify {St} (f : St -> St) : Gen St unit := fun s => Returned tt (f s).
Definition lift_exc {St A} (m : Exc A) : Gen St A :=
  fun s => match m with Ok a => Returned a s | Raise e => Raised e end.

(** [yield from self.sleep(...)]: time passes, the state does not change. *)
Definition sleep {St} : Gen St unit := gen_ret tt.

(** Modelled from the spec: [contract_interact] is defined with the
    base behaviours, outside the modelled files; a "blocking external
    call that may fail". One attempt of a contract call: [responses]
    are the answers the ledger gives to the successive attempts
    ([None]: the call failed), [consume] drops the answer just used. On
    an answer the value is stored under the placeholder attribute and
    the status is [True]; a failed call gives [False]. *)
Definition contract_interact {St V} (responses : St -> list (option V))
    (consume : St -> St) (placeholder : V -> St -> St) : Gen St bool :=
  fun s =>
    match responses s with
    | [] => Suspended
    | None :: _ => Returned false (consume s)
    | Some v :: _ => Returned true (placeholder v (consume s))
    end.

(** Modelled from the spec: [wait_for_condition_with_sleep] is
    defined with the staking behaviours, outside the modelled files;
    "each fetch is a blocking external call that may fail and be
    retried with backoff". The condition is re-run, with a sleep in
    between, until it holds; [fuel] bounds the attempts the runtime
    schedules. *)
Fixpoint wait_for_condition_with_sleep {St} (fuel : nat) (condition_gen : Gen St bool)
  : Gen St unit :=
  match fuel with
  | O => fun _ => Suspended
  | S fuel' =>
      condition_satisfied ← condition_gen;
      if condition_satisfied : bool then gen_ret tt
      else sleep;; wait_for_condition_with_sleep fuel' condition_gen
  end.

End Generator.

(* ===================================================================== *)
(** ** contracts/service_staking_token: the staking state enumeration     *)
(* ===================================================================== *)

Inductive StakingState := UNSTAKED | STAKED | EVICTED.

#[global] Instance StakingState_eq_dec : EqDecision StakingState.
Proof. solve_decision. Defined.

(** Python data read from a contract: an [int], a [str] or a sequence. *)
#[warnings="-register-all"]
Inductive pyval :=
| PInt (z : Z)
| PStr (s : string)
| PSeq (l : list pyval).

(** [v[i]] for an index that is not negative. *)
Definition py_getitem (v : pyval) (i : nat) : Exc pyval :=
  match v with
  | PSeq l => match l !! i with Some x => Ok x | None => Raise IndexError end
  | PStr s =>
      match String.list_ascii_of_string s !! i with
      | Some a => Ok (PStr (String a EmptyString))
      | None => Raise IndexError
      end
  | PInt _ => Raise TypeError
  end.

(** The operand of integer arithmetic must be an [int]. *)
Definition py_int (v : pyval) : Exc Z :=
  match v with
  | PInt z => Ok z
  | _ => Raise TypeError
  end.

(* ===================================================================== *)
(** ** skills/check_stop_trading_abci/behaviours.py                       *)
(* ===================================================================== *)

Module CheckStopTrading.
Import Generator.

(** Liveness ratio from the staking contract is expressed in calls per
    10**18 seconds. *)
Definition LIVENESS_RATIO_SCALE_FACTOR : Z := 10 ^ 18.

(** A safety margin in case there is a delay between the moment the KPI
    condition is satisfied, and the moment where the checkpoint is
    called. *)
Definition REQUIRED_MECH_REQUESTS_SAFETY_MARGIN : Z := 1.

(** The attributes that the contract calls fill in ([placeholder]). *)
Record Attrs := {
  service_staking_state : StakingState;
  mech_request_count : Z;
  service_info : pyval;
  ts_checkpoint : Z;
  liveness_period : Z;
  liveness_ratio : Z;
}.

(** The ledger as the behaviour meets it: per contract callable, the
    responses of the successive attempts ([None]: the call failed). *)
Record Ledger := {
  staking_state_calls : list (option StakingState);
  requests_count_calls : list (option Z);
  service_info_calls : list (option pyval);
  ts_checkpoint_calls : list (option Z);
  liveness_period_calls : list (option Z);
  liveness_ratio_calls : list (option Z);
}.

Record CheckStopTradingPayload := {
  sender : string;
  stop_trading : bool;
}.

Record State := {
  attrs : Attrs;
  ledger : Ledger;
  (** the a2a transactions sent so far *)
  outbox : list CheckStopTradingPayload;
  is_done : bool;
}.

Record CheckStopTradingParams := {
  disable_trading : bool;
  stop_trading_if_staking_kpi_met : bool;
}.

Record Context := {
  params : CheckStopTradingParams;
  agent_address : string;
  (** [synchronized_data.period_count] *)
  period_count : Z;
  synced_timestamp : Z;
}.

Definition with_attrs (f : Attrs -> Attrs) (s : State) : State :=
  {| attrs := f (attrs s); ledger := ledger s; outbox := outbox s; is_done := is_done s |}.
Definition with_ledger (f : Ledger -> Ledger) (s : State) : State :=
  {| attrs := attrs s; ledger := f (ledger s); outbox := outbox s; is_done := is_done s |}.

(** Setters of the placeholders and of the consumed responses. *)
Definition set_service_staking_state v (a : Attrs) : Attrs :=
  {| service_staking_state := v; mech_request_count := mech_request_count a;
     service_info := service_info a; ts_checkpoint := ts_checkpoint a;
     liveness_period := liveness_period a; liveness_ratio := liveness_ratio a |}.
Definition set_mech_request_count v (a : Attrs) : Attrs :=
  {| service_staking_state := service_staking_state a; mech_request_count := v;
     service_info := service_info a; ts_checkpoint := ts_checkpoint a;
     liveness_period := liveness_period a; liveness_ratio := liveness_ratio a |}.
Definition set_service_info v (a : Attrs) : Attrs :=
  {| service_staking_state := service_staking_state a;
     mech_request_count := mech_request_count a;
     service_info := v; ts_checkpoint := ts_checkpoint a;
     liveness_period := liveness_period a; liveness_ratio := liveness_ratio a |}.
Definition set_ts_checkpoint v (a : Attrs) : Attrs :=
  {| service_staking_state := service_staking_state a;
     mech_request_count := mech_request_count a;
     service_info := service_info a; ts_checkpoint := v;
     liveness_period := liveness_period a; liveness_ratio := liveness_ratio a |}.
Definition set_liveness_period v (a : Attrs) : Attrs :=
  {| service_staking_state := service_staking_state a;
     mech_request_count := mech_request_count a;
     service_info := service_info a; ts_checkpoint := ts_checkpoint a;
     liveness_period := v; liveness_ratio := liveness_ratio a |}.
Definition set_liveness_ratio v (a : Attrs) : Attrs :=
  {| service_staking_state := service_staking_state a;
     mech_request_count := mech_request_count a;
     service_info := service_info a; ts_checkpoint := ts_checkpoint a;
     liveness_period := liveness_period a; liveness_ratio := v |}.

Definition pop_staking_state (l : Ledger) : Ledger :=
  {| staking_state_calls := tail (staking_state_calls l);
     requests_count_calls := requests_count_calls l;
     service_info_calls := service_info_calls l;
     ts_checkpoint_calls := ts_checkpoint_calls l;
     liveness_period_calls := liveness_period_calls l;
     liveness_ratio_calls := liveness_ratio_calls l |}.
Definition pop_requests_count (l : Ledger) : Ledger :=
  {| staking_state_calls := staking_state_calls l;
     requests_count_calls := tail (requests_count_calls l);
     service_info_calls := service_info_calls l;
     ts_checkpoint_calls := ts_checkpoint_calls l;
     liveness_period_calls := liveness_period_calls l;
     liveness_ratio_calls := liveness_ratio_calls l |}.
Definition pop_service_info (l : Ledger) : Ledger :=
  {| staking_state_calls := staking_state_calls l;
     requests_count_calls := requests_count_calls l;
     service_info_calls := tail (service_info_calls l);
     ts_checkpoint_calls := ts_checkpoint_calls l;
     liveness_period_calls := liveness_period_calls l;
     liveness_ratio_calls := liveness_ratio_calls l |}.
Definition pop_ts_checkpoint (l : Ledger) : Ledger :=
  {| staking_state_calls := staking_state_calls l;
     requests_count_calls := requests_count_calls l;
     service_info_calls := service_info_calls l;
     ts_checkpoint_calls := tail (ts_checkpoint_calls l);
     liveness_period_calls := liveness_period_calls l;
     liveness_ratio_calls := liveness_ratio_calls l |}.
Definition pop_liveness_period (l : Ledger) : Ledger :=
  {| staking_state_calls := staking_state_calls l;
     requests_count_calls := requests_count_calls l;
     service_info_calls := service_info_calls l;
     ts_checkpoint_calls := ts_checkpoint_calls l;
     liveness_period_calls := tail (liveness_period_calls l);
     liveness_ratio_calls := liveness_ratio_calls l |}.
Definition pop_liveness_ratio (l : Ledger) : Ledger :=
  {| staking_state_calls := staking_state_calls l;
     requests_count_calls := requests_count_calls l;
     service_info_calls := service_info_calls l;
     ts_checkpoint_calls := ts_checkpoint_calls l;
     liveness_period_calls := liveness_period_calls l;
     liveness_ratio_calls := tail (liveness_ratio_calls l) |}.

(** [_get_mech_request_count]: the mech contract's [get_requests_count],
    stored under [mech_request_count]. *)
Definition _get_mech_request_count : Gen State bool :=
  status ← contract_interact (fun s => requests_count_calls (ledger s))
             (with_ledger pop_requests_count)
             (fun v => with_attrs (set_mech_request_count v));
  mret status.

(** Modelled from the spec: [_check_service_staked], inherited from
    [StakingInteractBaseBehaviour], is defined outside the modelled
    files; it fetches the "current staking status", and "each fetched
    value becomes an attribute visible to subsequent steps". It follows
    the pattern of [_get_mech_request_count]. *)
Definition _check_service_staked : Gen State bool :=
  contract_interact (fun s => staking_state_calls (ledger s))
    (with_ledger pop_staking_state)
    (fun v => with_attrs (set_service_staking_state v)).

(** Modelled from the spec: [_get_service_info], defined outside the
    modelled files, fetches the "last-checkpoint service info". *)
Definition _get_service_info : Gen State bool :=
  contract_interact (fun s => service_info_calls (ledger s))
    (with_ledger pop_service_info)
    (fun v => with_attrs (set_service_info v)).

(** Modelled from the spec: [_get_ts_checkpoint], defined outside the
    modelled files, fetches the "last-checkpoint timestamp". *)
Definition _get_ts_checkpoint : Gen State bool :=
  contract_interact (fun s => ts_checkpoint_calls (ledger s))
    (with_ledger pop_ts_checkpoint)
    (fun v => with_attrs (set_ts_checkpoint v)).

(** Modelled from the spec: [_get_liveness_period], defined outside
    the modelled files, fetches the "liveness period". *)
Definition _get_liveness_period : Gen State bool :=
  contract_interact (fun s => liveness_period_calls (ledger s))
    (with_ledger pop_liveness_period)
    (fun v => with_attrs (set_liveness_period v)).

(** Modelled from the spec: [_get_liveness_ratio], defined outside the
    modelled files, fetches the "liveness ratio". *)
Definition _get_liveness_ratio : Gen State bool :=
  contract_interact (fun s => liveness_ratio_calls (ledger s))
    (with_ledger pop_liveness_ratio)
    (fun v => with_attrs (set_liveness_ratio v)).

(** [is_first_period] *)
Definition is_first_period (ctx : Context) : bool := period_count ctx =? 0.

(** The number of mech requests the KPI asks for, from the four fetched
    integers: [math.ceil(max(a / SCALE, b / SCALE)) + MARGIN] with
    Python's true division of integers. *)
Definition required_mech_requests
    (current_timestamp last_ts_checkpoint liveness_period liveness_ratio : Z) : Exc Z :=
  x ← PyFloat.true_divide
        ((current_timestamp - last_ts_checkpoint) * liveness_ratio)
        LIVENESS_RATIO_SCALE_FACTOR;
  y ← PyFloat.true_divide
        (liveness_period * liveness_ratio)
        LIVENESS_RATIO_SCALE_FACTOR;
  mret (PyFloat.ceil (PyFloat.max x y) + REQUIRED_MECH_REQUESTS_SAFETY_MARGIN).

(** [is_staking_kpi_met]: whether the staking KPI has been met (only
    for staked services). *)
Definition is_staking_kpi_met (fuel : nat) (ctx : Context) : Gen State bool :=
  wait_for_condition_with_sleep fuel _check_service_staked;;
  staking_state ← gets (fun s => service_staking_state (attrs s));
  if bool_decide (staking_state ≠ STAKED) then mret false
  else
    wait_for_condition_with_sleep fuel _get_mech_request_count;;
    mech_request_count ← gets (fun s => mech_request_count (attrs s));
    wait_for_condition_with_sleep fuel _get_service_info;;
    info ← gets (fun s => service_info (attrs s));
    mech_request_count_on_last_checkpoint ←
      lift_exc (py_getitem info 2 ≫= fun nonces => py_getitem nonces 1);
    wait_for_condition_with_sleep fuel _get_ts_checkpoint;;
    last_ts_checkpoint ← gets (fun s => ts_checkpoint (attrs s));
    wait_for_condition_with_sleep fuel _get_liveness_period;;
    liveness_period ← gets (fun s => liveness_period (attrs s));
    wait_for_condition_with_sleep fuel _get_liveness_ratio;;
    liveness_ratio ← gets (fun s => liveness_ratio (attrs s));
    count_on_last_checkpoint ← lift_exc (py_int mech_request_count_on_last_checkpoint);
    let mech_requests_since_last_cp := mech_request_count - count_on_last_checkpoint in
    let current_timestamp := synced_timestamp ctx in
    required ← lift_exc (required_mech_requests current_timestamp last_ts_checkpoint
                           liveness_period liveness_ratio);
    if required <=? mech_requests_since_last_cp then mret true
    else mret false.

(** Modelled from the spec: [send_a2a_transaction] is defined with the
    base behaviours, outside the modelled files; "on completion it
    emits a Payload into its Round". The payload joins the ones sent. *)
Definition send_a2a_transaction (payload : CheckStopTradingPayload) : Gen State unit :=
  modify (fun s => {| attrs := attrs s; ledger := ledger s;
                      outbox := outbox s ++ [payload]; is_done := is_done s |}).

(** Modelled from the spec: [wait_until_round_end] is defined with the
    base behaviours, outside the modelled files; the behaviour
    "suspends until the round concludes", which changes nothing in its
    own state. *)
Definition wait_until_round_end : Gen State unit := gen_ret tt.

(** Modelled from the spec: [set_done] is defined with the base
    behaviours, outside the modelled files; it marks the behaviour as
    finished. *)
Definition set_done : Gen State unit :=
  modify (fun s => {| attrs := attrs s; ledger := ledger s;
                      outbox := outbox s; is_done := true |}).

(** [any(...)] over a list of booleans *)
Definition any (conditions : list bool) : bool := existsb id conditions.

(** [async_act]: do the action. *)
Definition async_act (fuel : nat) (ctx : Context) : Gen State unit :=
  stop_trading ←
    (if is_first_period ctx then mret false
     else
       let stop_trading_conditions : list bool := [] in
       let disable_trading := disable_trading (params ctx) in
       let stop_trading_conditions := stop_trading_conditions ++ [disable_trading] in
       stop_trading_conditions ←
         (if stop_trading_if_staking_kpi_met (params ctx) then
            staking_kpi_met ← is_staking_kpi_met fuel ctx;
            mret (stop_trading_conditions ++ [staking_kpi_met])
          else mret stop_trading_conditions);
       mret (any stop_trading_conditions));
  let payload := {| sender := agent_address ctx; stop_trading := stop_trading |} in
  send_a2a_transaction payload;;
  wait_until_round_end;;
  set_done.

(** The least integer not below the rational [a / b], for [0 < b]. *)
Definition ceil_div (a b : Z) : Z := - ((- a) / b).

(** The specification's formula [ceil(max(D*R/1e18, P*R/1e18)) + 1]
    read over the exact rationals; the greater of two quotients by the
    same positive divisor is the quotient of the greater dividend. *)
Definition spec_required_mech_requests (D P R : Z) : Z :=
  ceil_div (Z.max (D * R) (P * R)) (10 ^ 18) + 1.

End CheckStopTrading.

(* ===================================================================== *)
(** ** skills/abstract_round_abci: what the rounds use of the runtime     *)
(* ===================================================================== *)

Module AbstractRound.

(** The values the synchronized database holds here: [None], an [int]
    or a [str]. *)
Inductive dbval :=
| VNone
| VInt (z : Z)
| VStr (s : string).

#[global] Instance dbval_eq_dec : EqDecision dbval.
Proof. solve_decision. Defined.

(** [str(v)] *)
Definition py_str (v : dbval) : string :=
  match v with
  | VNone => "None"
  | VInt z => pretty z
  | VStr s => s
  end.

(** [db.get(key, default)] *)
Definition db_get (db : gmap string dbval) (key : string) (default : dbval) : dbval :=
  match db !! key with
  | Some v => v
  | None => default
  end.

(** Modelled from the spec: [db.get_strict] belongs to the database
    class of the runtime, outside the modelled files. The store is
    "a flat key->value mapping" and "each Round declares the keys it
    requires to already exist": the strict lookup returns the value of
    a key that exists and raises on a key that does not. *)
Definition db_get_strict (db : gmap string dbval) (key : string) : Exc dbval :=
  match db !! key with
  | Some v => Ok v
  | None => Raise ValueError
  end.

(** A collecting round during one visit of its state: the synchronized
    data it started from, the payload values received so far (at most
    one per sender), the number of participants and the quorum
    threshold derived from it. *)
Record Round := {
  synchronized_data : gmap string dbval;
  collection : gmap string (list dbval);
  nb_participants : nat;
  threshold : nat;
}.


(** The votes, one per sender. *)
Definition votes (r : Round) : list (list dbval) :=
  (map_to_list (collection r)).*2.

(** The size of the group of payloads structurally equal to [v]. *)
Definition group_size (v : list dbval) (vs : list (list dbval)) : nat :=
  length (filter (fun w => w = v) vs).

(** Writing the selected values under the declared keys. *)
Definition merge (keys : list string) (values : list dbval)
    (db : gmap string dbval) : gmap string dbval :=
  foldl (fun m kv => <[kv.1 := kv.2]> m) db (zip keys values).

(** Modelled from the spec: [CollectSameUntilThresholdRound.end_block]
    is defined by the runtime, outside the modelled files. "Group
    payloads by structural equality, and once any group's size >= the
    configured threshold, select that group's value, merge it into
    SynchronizedData under the round's declared keys, and return the
    configured done_event. If no group has reached threshold, returns
    None. If it becomes mathematically impossible for any group to
    reach threshold given remaining non-responders, returns (data,
    no_majority_event)." The first vote whose group reaches the
    threshold is the selected one. *)
Definition collect_same_until_threshold_end_block {Event : Type}
    (selection_key : list string) (done_event no_majority_event : Event)
    (r : Round) : option (gmap string dbval * Event) :=
  let vs := votes r in
  match List.find (fun v => bool_decide (threshold r ≤ group_size v vs)%nat) vs with
  | Some v => Some (merge selection_key v (synchronized_data r), done_event)
  | None =>
      let largest := max_list ((fun v => group_size v vs) <$> vs) in
      let remaining := (nb_participants r - length vs)%nat in
      if bool_decide (largest + remaining < threshold r)%nat
      then Some (synchronized_data r, no_majority_event)
      else None
  end.

End AbstractRound.

(* ===================================================================== *)
(** ** skills/staking_abci/rounds.py                                      *)
(* ===================================================================== *)

Module Staking.
Import AbstractRound.

(** Event enumeration for the staking skill. *)
Inductive Event :=
| DONE
| ROUND_TIMEOUT
| NO_MAJORITY
| SERVICE_NOT_STAKED
| SERVICE_EVICTED
| NEXT_CHECKPOINT_NOT_REACHED_YET.

#[global] Instance Event_eq_dec : EqDecision Event.
Proof. solve_decision. Defined.

#[global] Instance Event_countable : Countable Event.
Proof.
  refine (inj_countable'
    (fun e => match e with
              | DONE => 0 | ROUND_TIMEOUT => 1 | NO_MAJORITY => 2
              | SERVICE_NOT_STAKED => 3 | SERVICE_EVICTED => 4
              | NEXT_CHECKPOINT_NOT_REACHED_YET => 5
              end%nat)
    (fun n => match n with
              | 0 => DONE | 1 => ROUND_TIMEOUT | 2 => NO_MAJORITY
              | 3 => SERVICE_NOT_STAKED | 4 => SERVICE_EVICTED
              | _ => NEXT_CHECKPOINT_NOT_REACHED_YET
              end%nat) _).
  by intros [].
Defined.

(** The round classes of the application. *)
Inductive AppState :=
| CallCheckpointRound
| CheckpointCallPreparedRound
| FinishedStakingRound
| ServiceEvictedRound.

#[global] Instance AppState_eq_dec : EqDecision AppState.
Proof. solve_decision. Defined.

#[global] Instance AppState_countable : Countable AppState.
Proof.
  refine (inj_countable'
    (fun e => match e with
              | CallCheckpointRound => 0 | CheckpointCallPreparedRound => 1
              | FinishedStakingRound => 2 | ServiceEvictedRound => 3
              end%nat)
    (fun n => match n with
              | 0 => CallCheckpointRound | 1 => CheckpointCallPreparedRound
              | 2 => FinishedStakingRound | _ => ServiceEvictedRound
              end%nat) _).
  by intros [].
Defined.

Section SynchronizedData.
(** [StakingState(v)]: the member of the contract's enumeration whose
    value is [v], if any. The enumeration's values are declared with
    the contract, outside the modelled files. *)
Variable StakingState_of_value : Z -> option StakingState.

(** [tx_submitter]: the round that submitted a tx to
    transaction_settlement_abci. *)
Definition tx_submitter (db : gmap string dbval) : Exc string :=
  v ← db_get_strict db "tx_submitter";
  mret (py_str v).

(** [service_staking_state]: the service's staking state. *)
Definition service_staking_state (db : gmap string dbval) : Exc StakingState :=
  match db_get db "service_staking_state" (VInt 0) with
  | VInt z =>
      match StakingState_of_value z with
      | Some st => Ok st
      | None => Raise ValueError
      end
  | _ => Raise ValueError
  end.

(** [most_voted_tx_hash], inherited from the transaction settlement
    skill's synchronized data: the strict lookup of its key. *)
Definition most_voted_tx_hash (db : gmap string dbval) : Exc dbval :=
  db_get_strict db "most_voted_tx_hash".

(** *** [CallCheckpointRound] *)

Definition done_event : Event := DONE.
Definition no_majority_event : Event := NO_MAJORITY.
Definition selection_key : list string :=
  ["tx_submitter"; "most_voted_tx_hash"; "service_staking_state"].
Definition collection_key : string := "participant_to_checkpoint".

(** [super().end_block()], the generic quorum computation. *)
Variable super_end_block : Round -> option (gmap string dbval * Event).

(** [CallCheckpointRound.end_block]: process the end of the block. *)
Definition end_block (self : Round) : Exc (option (gmap string dbval * Event)) :=
  let res := super_end_block self in
  match res with
  | None => Ok None
  | Some (synced_data, event) =>
      if bool_decide (event ≠ DONE) then Ok res
      else
        state ← service_staking_state synced_data;
        if bool_decide (state = UNSTAKED)
        then Ok (Some (synced_data, SERVICE_NOT_STAKED))
        else
          state ← service_staking_state synced_data;
          if bool_decide (state = EVICTED)
          then Ok (Some (synced_data, SERVICE_EVICTED))
          else
            tx_hash ← most_voted_tx_hash synced_data;
            if bool_decide (tx_hash = VNone)
            then Ok (Some (synced_data, NEXT_CHECKPOINT_NOT_REACHED_YET))
            else Ok res
  end.
End SynchronizedData.

(** How a call of [end_block] ends when the generic round may raise as
    well: with an answer, with an exception of [super().end_block()],
    of a class [E] of the runtime, or with an exception of the lines
    that follow that call. *)
Inductive end_block_outcome (E : Type) :=
| Answered (res : option (gmap string dbval * Event))
| SuperRaised (e : E)
| EndBlockRaised (e : PyExc).
Arguments Answered {E} res.
Arguments SuperRaised {E} e.
Arguments EndBlockRaised {E} e.

(** [CallCheckpointRound.end_block] with a generic round that returns
    or raises: [res = super().end_block()] is the first line, so an
    exception of the call leaves [end_block] then and there, and a
    returned [res] is processed by the lines of [end_block]. *)
Definition end_block_with_super {E : Type} (StakingState_of_value : Z -> option StakingState)
    (super_end_block : Round -> E + option (gmap string dbval * Event))
    (self : Round) : end_block_outcome E :=
  match super_end_block self with
  | inl e => SuperRaised e
  | inr res =>
      match end_block StakingState_of_value (fun _ => res) self with
      | Ok answer => Answered answer
      | Raise e => EndBlockRaised e
      end
  end.

(** *** [StakingAbciApp] *)

Definition initial_round_cls : AppState := CallCheckpointRound.

Definition transition_function : gmap AppState (gmap Event AppState) :=
  {[ CallCheckpointRound :=
       {[ DONE := CheckpointCallPreparedRound;
          SERVICE_NOT_STAKED := FinishedStakingRound;
          SERVICE_EVICTED := ServiceEvictedRound;
          NEXT_CHECKPOINT_NOT_REACHED_YET := FinishedStakingRound;
          ROUND_TIMEOUT := CallCheckpointRound;
          NO_MAJORITY := CallCheckpointRound ]};
     CheckpointCallPreparedRound := ∅;
     FinishedStakingRound := ∅;
     ServiceEvictedRound := ∅ ]}.

Definition cross_period_persisted_keys : gset string :=
  {[ "service_staking_state" ]}.

Definition final_states : gset AppState :=
  {[ CheckpointCallPreparedRound; FinishedStakingRound; ServiceEvictedRound ]}.

(** Timeouts in seconds ([30.0]). *)
Definition event_to_timeout : gmap Event PyFloat.float :=
  {[ ROUND_TIMEOUT := PyFloat.mk 30 0 ]}.

Definition db_pre_conditions : gmap AppState (gset string) :=
  {[ CallCheckpointRound := ∅ ]}.

Definition db_post_conditions : gmap AppState (gset string) :=
  {[ CheckpointCallPreparedRound :=
       {[ "tx_submitter"; "most_voted_tx_hash"; "service_staking_state" ]};
     FinishedStakingRound := {[ "service_staking_state" ]};
     ServiceEvictedRound := {[ "service_staking_state" ]} ]}.

End Staking.

(* ===================================================================== *)
(** ** skills/tx_settlement_multiplexer_abci/rounds.py                    *)
(* ===================================================================== *)

Module Multiplexer.
Import AbstractRound.

(** Multiplexing events. *)
Inductive Event :=
| DECISION_REQUESTING_DONE
| BET_PLACEMENT_DONE
| ROUND_TIMEOUT
| UNRECOGNIZED.

#[global] Instance Event_eq_dec : EqDecision Event.
Proof. solve_decision. Defined.

#[global] Instance Event_countable : Countable Event.
Proof.
  refine (inj_countable'
    (fun e => match e with
              | DECISION_REQUESTING_DONE => 0 | BET_PLACEMENT_DONE => 1
              | ROUND_TIMEOUT => 2 | UNRECOGNIZED => 3
              end%nat)
    (fun n => match n with
              | 0 => DECISION_REQUESTING_DONE | 1 => BET_PLACEMENT_DONE
              | 2 => ROUND_TIMEOUT | _ => UNRECOGNIZED
              end%nat) _).
  by intros [].
Defined.

Inductive AppState :=
| PostTxSettlementRound
| FinishedDecisionRequestTxRound
| FinishedBetPlacementTxRound
| FailedMultiplexerRound.

#[global] Instance AppState_eq_dec : EqDecision AppState.
Proof. solve_decision. Defined.

#[global] Instance AppState_countable : Countable AppState.
Proof.
  refine (inj_countable'
    (fun e => match e with
              | PostTxSettlementRound => 0 | FinishedDecisionRequestTxRound => 1
              | FinishedBetPlacementTxRound => 2 | FailedMultiplexerRound => 3
              end%nat)
    (fun n => match n with
              | 0 => PostTxSettlementRound | 1 => FinishedDecisionRequestTxRound
              | 2 => FinishedBetPlacementTxRound | _ => FailedMultiplexerRound
              end%nat) _).
  by intros [].
Defined.

(** [tx_submitter] of the decision maker's synchronized data (declared
    outside the modelled files with the same body as the staking skill's):
    the round that submitted a tx to transaction_settlement_abci. *)
Definition tx_submitter (db : gmap string dbval) : Exc string :=
  v ← db_get_strict db "tx_submitter";
  mret (py_str v).

Section PostTxSettlementRound.
(** [DecisionRequestRound.auto_round_id()] and
    [BetPlacementRound.auto_round_id()]: the identifiers of two round
    classes declared outside the modelled files. *)
Variables DecisionRequestRound_auto_round_id BetPlacementRound_auto_round_id : string.

(** [PostTxSettlementRound.end_block]: no consensus is necessary
    here; the round checks which round submitted the tx and moves to
    the next state in accordance with that. *)
Definition end_block (self : Round) : Exc (option (gmap string dbval * Event)) :=
  let submitter_to_event : gmap string Event :=
    <[ BetPlacementRound_auto_round_id := BET_PLACEMENT_DONE ]>
      (<[ DecisionRequestRound_auto_round_id := DECISION_REQUESTING_DONE ]> ∅) in
  let synced_data := synchronized_data self in
  submitter ← tx_submitter synced_data;
  let event := default UNRECOGNIZED (submitter_to_event !! submitter) in
  Ok (Some (synced_data, event)).
End PostTxSettlementRound.

(** *** [TxSettlementMultiplexerAbciApp] *)

Definition initial_round_cls : AppState := PostTxSettlementRound.
Definition initial_states : gset AppState := {[ PostTxSettlementRound ]}.

Definition transition_function : gmap AppState (gmap Event AppState) :=
  {[ PostTxSettlementRound :=
       {[ DECISION_REQUESTING_DONE := FinishedDecisionRequestTxRound;
          BET_PLACEMENT_DONE := FinishedBetPlacementTxRound;
          ROUND_TIMEOUT := PostTxSettlementRound;
          UNRECOGNIZED := FailedMultiplexerRound ]};
     FinishedDecisionRequestTxRound := ∅;
     FinishedBetPlacementTxRound := ∅;
     FailedMultiplexerRound := ∅ ]}.

Definition event_to_timeout : gmap Event PyFloat.float :=
  {[ ROUND_TIMEOUT := PyFloat.mk 30 0 ]}.

Definition final_states : gset AppState :=
  {[ FinishedDecisionRequestTxRound; FinishedBetPlacementTxRound;
     FailedMultiplexerRound ]}.

(** The class declares no [cross_period_persisted_keys] of its own:
    the set of keys it declares is empty. *)
Definition cross_period_persisted_keys : gset string := ∅.

Definition db_pre_conditions : gmap AppState (gset string) :=
  {[ PostTxSettlementRound := {[ "tx_submitter" ]} ]}.

Definition db_post_conditions : gmap AppState (gset string) :=
  {[ FinishedDecisionRequestTxRound := ∅;
     FinishedBetPlacementTxRound := ∅;
     FailedMultiplexerRound := ∅ ]}.

End Multiplexer.

(* ===================================================================== *)
(** ** The synchronized data with its versions                            *)
(* ===================================================================== *)

Module Versioned.
Import AbstractRound.

(** Modelled from the spec: the database of the runtime is outside the
    modelled files; "an append-only, versioned key-value store shared
    by all participants". The store is a map from every key to its
    versions, the oldest first; nothing is ever removed or
    overwritten. These are the versions a key has. *)
Definition versions (key : string) (db : gmap string (list dbval)) : list dbval :=
  default [] (db !! key).


(** Writing a key appends a version. *)
Definition append (key : string) (value : dbval) (db : gmap string (list dbval))
  : gmap string (list dbval) :=
  <[ key := versions key db ++ [value] ]> db.

Definition update (written : list (string * dbval)) (db : gmap string (list dbval))
  : gmap string (list dbval) :=
  foldl (fun db kv => append kv.1 kv.2 db) db written.

(** Modelled from the spec: [CollectSameUntilThresholdRound.end_block]
    is defined by the runtime, outside the modelled files. "Group
    payloads by structural equality, and once any group's size >= the
    configured threshold, select that group's value, merge it into
    SynchronizedData under the round's declared keys, and return the
    configured done_event. If no group has reached threshold, returns
    None. If it becomes mathematically impossible for any group to
    reach threshold given remaining non-responders, returns (data,
    no_majority_event)." The declared keys are the selection keys,
    which receive the values of the selected payload, and the
    collection key, which receives the collected payloads in the
    runtime's serialization, [serialize]. The store is shared: what an
    invocation writes is there for the next one. *)
Definition collect_same_until_threshold_end_block {Event : Type}
    (serialize : gmap string (list dbval) -> dbval)
    (selection_key : list string) (collection_key : string)
    (done_event no_majority_event : Event)
    (db : gmap string (list dbval)) (r : Round)
    : option (gmap string (list dbval) * Event) :=
  let vs := votes r in
  match List.find (fun v => bool_decide (threshold r ≤ group_size v vs)%nat) vs with
  | Some v =>
      Some (update ((collection_key, serialize (collection r)) :: zip selection_key v) db,
            done_event)
  | None =>
      let largest := max_list ((fun v => group_size v vs) <$> vs) in
      let remaining := (nb_participants r - length vs)%nat in
      if bool_decide (largest + remaining < threshold r)%nat
      then Some (db, no_majority_event)
      else None
  end.




End Versioned.

(* ===================================================================== *)
(** ** skills/decision_maker_abci/behaviours/order_subscription.py        *)
(* ===================================================================== *)

Module OrderSubscription.
Import Generator.

Definition LOCK_CONDITION_INDEX : Z := 0.

(** The helpers of [utils.nevermined], the byte conversion and the
    properties of the base behaviour are declared outside the modelled files;
    they are taken as given, total functions. *)
Record Nevermined := {
  DidDoc : Type;
  zero_x_transformer : string -> string;
  no_did_prefixed : string -> string;
  get_agreement_id : string -> string -> string;
  (** the price terms of a document: receivers and their amounts *)
  get_price : DidDoc -> list (string * Z);
  get_lock_payment_seed :
    string -> DidDoc -> string -> string -> string -> list Z -> list string
    -> string * string;
  get_transfer_nft_condition_seed :
    string -> DidDoc -> string -> Z -> string -> string -> string -> string * string;
  get_escrow_payment_seed :
    string -> DidDoc -> list Z -> list string -> string -> string -> string
    -> string -> string -> string * string;
  get_timeouts_and_timelocks : DidDoc -> list Z * list Z;
  HexBytes : string -> list Z;
}.

(** The two sentinels of [SubscriptionRound]. *)
Record SubscriptionRound := {
  NO_TX_PAYLOAD : string;
  ERROR_PAYLOAD : string;
}.

Record MultisendBatch := {
  to : string;
  data : list Z;
}.

Section Behaviour.
Variable N : Nevermined.
Variable Round : SubscriptionRound.

(** What the behaviour reads and does not change. *)
Record Context := {
  use_nevermined : bool;
  safe_contract_address : string;
  did : string;
  token_address : string;
  payment_token : string;
  lock_payment_condition_address : string;
  escrow_payment_condition_address : string;
  transfer_nft_condition_address : string;
  order_address : string;
  purchase_amount : Z;
  price : Z;
  (** the identifier [generate_id()] draws in this run *)
  generated_id : string;
}.

(** The attributes of the behaviour and, below them, the answers of
    the outside world to the successive attempts of each call
    ([None]: the call failed). *)
Record State := {
  order_tx : string;
  approval_tx : string;
  balance : Z;
  agreement_id : string;
  multisend_batches : list MultisendBatch;
  multisend_data : string;
  tx_hex : string;
  balance_of_calls : list (option Z);
  build_approval_tx_calls : list (option string);
  resolve_did_calls : list (option (DidDoc N));
  build_order_tx_calls : list (option string);
  build_multisend_data_calls : list (option string);
  build_multisend_safe_tx_hash_calls : list (option string);
}.

(** The arguments of [_prepare_order_tx]. *)
Record PurchaseParams := {
  pp_agreement_id : string;
  pp_did : string;
  pp_condition_ids : list string;
  pp_consumer : string;
  pp_index : Z;
  pp_time_outs : list Z;
  pp_time_locks : list Z;
  pp_reward_address : string;
  pp_receivers : list string;
  pp_amounts : list Z;
  pp_contract_address : string;
  pp_token_address : string;
}.

(** The arguments of [_prepare_approval_tx]. *)
Record ApprovalParams := {
  ap_token : string;
  ap_spender : string;
  ap_amount : Z;
}.

Definition update (s : State)
    (order_tx' approval_tx' : string) (balance' : Z) (agreement_id' : string)
    (batches' : list MultisendBatch) (multisend_data' tx_hex' : string) : State :=
  {| order_tx := order_tx'; approval_tx := approval_tx'; balance := balance';
     agreement_id := agreement_id'; multisend_batches := batches';
     multisend_data := multisend_data'; tx_hex := tx_hex';
     balance_of_calls := balance_of_calls s;
     build_approval_tx_calls := build_approval_tx_calls s;
     resolve_did_calls := resolve_did_calls s;
     build_order_tx_calls := build_order_tx_calls s;
     build_multisend_data_calls := build_multisend_data_calls s;
     build_multisend_safe_tx_hash_calls := build_multisend_safe_tx_hash_calls s |}.

Definition set_order_tx v s :=
  update s v (approval_tx s) (balance s) (agreement_id s) (multisend_batches s)
    (multisend_data s) (tx_hex s).
Definition set_approval_tx v s :=
  update s (order_tx s) v (balance s) (agreement_id s) (multisend_batches s)
    (multisend_data s) (tx_hex s).
Definition set_balance v s :=
  update s (order_tx s) (approval_tx s) v (agreement_id s) (multisend_batches s)
    (multisend_data s) (tx_hex s).
Definition set_agreement_id v s :=
  update s (order_tx s) (approval_tx s) (balance s) v (multisend_batches s)
    (multisend_data s) (tx_hex s).
Definition append_batch b s :=
  update s (order_tx s) (approval_tx s) (balance s) (agreement_id s)
    (multisend_batches s ++ [b]) (multisend_data s) (tx_hex s).
Definition set_multisend_data v s :=
  update s (order_tx s) (approval_tx s) (balance s) (agreement_id s)
    (multisend_batches s) v (tx_hex s).
Definition set_tx_hex v s :=
  update s (order_tx s) (approval_tx s) (balance s) (agreement_id s)
    (multisend_batches s) (multisend_data s) v.

Definition world (s : State)
    (b : list (option Z)) (a : list (option string))
    (d : list (option (DidDoc N))) (o m h : list (option string)) : State :=
  {| order_tx := order_tx s; approval_tx := approval_tx s; balance := balance s;
     agreement_id := agreement_id s; multisend_batches := multisend_batches s;
     multisend_data := multisend_data s; tx_hex := tx_hex s;
     balance_of_calls := b; build_approval_tx_calls := a; resolve_did_calls := d;
     build_order_tx_calls := o; build_multisend_data_calls := m;
     build_multisend_safe_tx_hash_calls := h |}.

Definition pop_balance_of s :=
  world s (tail (balance_of_calls s)) (build_approval_tx_calls s) (resolve_did_calls s)
    (build_order_tx_calls s) (build_multisend_data_calls s)
    (build_multisend_safe_tx_hash_calls s).
Definition pop_build_approval_tx s :=
  world s (balance_of_calls s) (tail (build_approval_tx_calls s)) (resolve_did_calls s)
    (build_order_tx_calls s) (build_multisend_data_calls s)
    (build_multisend_safe_tx_hash_calls s).
Definition pop_resolve_did s :=
  world s (balance_of_calls s) (build_approval_tx_calls s) (tail (resolve_did_calls s))
    (build_order_tx_calls s) (build_multisend_data_calls s)
    (build_multisend_safe_tx_hash_calls s).
Definition pop_build_order_tx s :=
  world s (balance_of_calls s) (build_approval_tx_calls s) (resolve_did_calls s)
    (tail (build_order_tx_calls s)) (build_multisend_data_calls s)
    (build_multisend_safe_tx_hash_calls s).
Definition pop_build_multisend_data s :=
  world s (balance_of_calls s) (build_approval_tx_calls s) (resolve_did_calls s)
    (build_order_tx_calls s) (tail (build_multisend_data_calls s))
    (build_multisend_safe_tx_hash_calls s).
Definition pop_build_multisend_safe_tx_hash s :=
  world s (balance_of_calls s) (build_approval_tx_calls s) (resolve_did_calls s)
    (build_order_tx_calls s) (build_multisend_data_calls s)
    (tail (build_multisend_safe_tx_hash_calls s)).

Variable ctx : Context.

(** [_get_condition_ids]: get the condition ids. *)
Definition _get_condition_ids (agreement_id_seed : string) (did_doc : DidDoc N)
  : Gen State (list string) :=
  modify (set_agreement_id
            (get_agreement_id N agreement_id_seed (safe_contract_address ctx)));;
  agreement ← gets agreement_id;
  let price := get_price N did_doc in
  let receivers := price.*1 in
  let amounts := price.*2 in
  let '(lock_payment_seed, lock_payment_id) :=
    get_lock_payment_seed N agreement did_doc
      (lock_payment_condition_address ctx) (escrow_payment_condition_address ctx)
      (payment_token ctx) amounts receivers in
  let '(transfer_nft_condition_seed, transfer_nft_condition_id) :=
    get_transfer_nft_condition_seed N agreement did_doc
      (safe_contract_address ctx) (purchase_amount ctx)
      (transfer_nft_condition_address ctx) lock_payment_id (token_address ctx) in
  let '(escrow_payment_seed, _) :=
    get_escrow_payment_seed N agreement did_doc amounts receivers
      (safe_contract_address ctx) (escrow_payment_condition_address ctx)
      (payment_token ctx) lock_payment_id transfer_nft_condition_id in
  let condition_ids :=
    [lock_payment_seed; transfer_nft_condition_seed; escrow_payment_seed] in
  mret condition_ids.

(** Modelled from the spec: [_resolve_did] of the base behaviour is
    defined outside the modelled files; "document resolution" is an
    external call that yields the document or [None]. *)
Definition _resolve_did : Gen State (option (DidDoc N)) :=
  fun s =>
    match resolve_did_calls s with
    | [] => Suspended
    | r :: _ => Returned r (pop_resolve_did s)
    end.

(** [_get_purchase_params]: get purchase params. *)
Definition _get_purchase_params : Gen State (option PurchaseParams) :=
  let agreement_id := zero_x_transformer N (generated_id ctx) in
  let did := zero_x_transformer N (no_did_prefixed N (did ctx)) in
  did_doc ← _resolve_did;
  match did_doc with
  | None => mret None
  | Some did_doc =>
      condition_ids ← _get_condition_ids agreement_id did_doc;
      let '(timeouts, timelocks) := get_timeouts_and_timelocks N did_doc in
      let price := get_price N did_doc in
      let receivers := price.*1 in
      let amounts := price.*2 in
      mret (Some {|
        pp_agreement_id := agreement_id;
        pp_did := did;
        pp_condition_ids := condition_ids;
        pp_consumer := safe_contract_address ctx;
        pp_index := LOCK_CONDITION_INDEX;
        pp_time_outs := timeouts;
        pp_time_locks := timelocks;
        pp_reward_address := escrow_payment_condition_address ctx;
        pp_receivers := receivers;
        pp_amounts := amounts;
        pp_contract_address := order_address ctx;
        pp_token_address := payment_token ctx |})
  end.

(** [_get_approval_params]: get approval params. *)
Definition _get_approval_params : ApprovalParams :=
  {| ap_token := payment_token ctx;
     ap_spender := lock_payment_condition_address ctx;
     ap_amount := price ctx |}.

(** [_prepare_order_tx]: prepare a purchase tx. *)
Definition _prepare_order_tx (p : PurchaseParams) : Gen State bool :=
  result ← contract_interact build_order_tx_calls pop_build_order_tx set_order_tx;
  if negb result then mret false
  else
    tx ← gets order_tx;
    modify (append_batch {| to := pp_contract_address p; data := HexBytes N tx |});;
    mret true.

(** [_prepare_approval_tx]: prepare an approval tx. *)
Definition _prepare_approval_tx (p : ApprovalParams) : Gen State bool :=
  result ← contract_interact build_approval_tx_calls pop_build_approval_tx
             set_approval_tx;
  if negb result then mret false
  else
    tx ← gets approval_tx;
    modify (append_batch {| to := ap_token p; data := HexBytes N tx |});;
    mret true.

(** [_get_balance] *)
Definition _get_balance (token address did : string) : Gen State bool :=
  result ← contract_interact balance_of_calls pop_balance_of set_balance;
  if negb result then mret false
  else mret true.

(** [_should_purchase]: check if the subscription should be
    purchased. *)
Definition _should_purchase : Gen State bool :=
  if negb (use_nevermined ctx) then mret false
  else
    result ← _get_balance (token_address ctx) (safe_contract_address ctx)
               (zero_x_transformer N (no_did_prefixed N (did ctx)));
    if negb result then mret false
    else
      b ← gets balance;
      mret (b <=? 0).

(** Modelled from the spec: [_build_multisend_data] of the base
    behaviour is defined outside the modelled files; it is a
    "transaction-build call", retried until it succeeds, that leaves
    its result in an attribute. *)
Definition _build_multisend_data : Gen State bool :=
  contract_interact build_multisend_data_calls pop_build_multisend_data
    set_multisend_data.

(** Modelled from the spec: [_build_multisend_safe_tx_hash] of the
    base behaviour is defined outside the modelled files; it is a
    "transaction-build call", retried until it succeeds, that leaves
    the hash that [tx_hex] reads. *)
Definition _build_multisend_safe_tx_hash : Gen State bool :=
  contract_interact build_multisend_safe_tx_hash_calls
    pop_build_multisend_safe_tx_hash set_tx_hex.

(** [get_payload_content]: get the payload. *)
Definition get_payload_content (fuel : nat) : Gen State string :=
  should_purchase ← _should_purchase;
  if negb should_purchase then mret (NO_TX_PAYLOAD Round)
  else
    let approval_params := _get_approval_params in
    result ← _prepare_approval_tx approval_params;
    if negb result then mret (ERROR_PAYLOAD Round)
    else
      purchase_params ← _get_purchase_params;
      match purchase_params with
      | None => mret (ERROR_PAYLOAD Round)
      | Some purchase_params =>
          result ← _prepare_order_tx purchase_params;
          if negb result then mret (ERROR_PAYLOAD Round)
          else
            wait_for_condition_with_sleep fuel _build_multisend_data;;
            wait_for_condition_with_sleep fuel _build_multisend_safe_tx_hash;;
            gets tx_hex
      end.
End Behaviour.

End OrderSubscription.

(* ===================================================================== *)
(** ** skills/market_manager_abci/graph_tooling/requests.py               *)
(* ===================================================================== *)

Module Requests.

(** A Python [str] is the list of its code points, [bytes] the list of
    its bytes. *)
Definition code_point (c : Z) : Prop := 0 <= c <= 0x10FFFF.
Definition high_surrogate (c : Z) : bool := (0xD800 <=? c) && (c <=? 0xDBFF).
Definition low_surrogate (c : Z) : bool := (0xDC00 <=? c) && (c <=? 0xDFFF).

(** The code points of an ASCII literal. *)
Definition lit (s : string) : list Z :=
  (fun a => Z.of_N (Ascii.N_of_ascii a)) <$> String.list_ascii_of_string s.

(** *** [json.dumps], as far as a dictionary of strings needs it *)

Definition hex_digit (d : Z) : Z := if d <? 10 then 48 + d else 87 + d.

(** ['{0:04x}'.format(n)] for [n < 0x10000] *)
Definition hex4 (n : Z) : list Z :=
  [hex_digit (n / 4096 mod 16); hex_digit (n / 256 mod 16);
   hex_digit (n / 16 mod 16); hex_digit (n mod 16)].

(** ['\\u{0:04x}'.format(n)] *)
Definition u_escape (n : Z) : list Z := 92 :: 117 :: hex4 n.

(** [ESCAPE_DCT]: backslash, quote, [\b], [\f], [\n], [\r], [\t]. *)
Definition ESCAPE_DCT (c : Z) : option (list Z) :=
  if c =? 92 then Some [92; 92]
  else if c =? 34 then Some [92; 34]
  else if c =? 8 then Some [92; 98]
  else if c =? 12 then Some [92; 102]
  else if c =? 10 then Some [92; 110]
  else if c =? 13 then Some [92; 114]
  else if c =? 9 then Some [92; 116]
  else None.

(** [ESCAPE_ASCII]: a backslash, a quote, or anything outside the range
    from the space to the tilde. *)
Definition ESCAPE_ASCII (c : Z) : bool :=
  (c =? 92) || (c =? 34) || negb ((32 <=? c) && (c <=? 126)).

(** The replacement of one code point. *)
Definition replace (c : Z) : list Z :=
  if ESCAPE_ASCII c then
    match ESCAPE_DCT c with
    | Some e => e
    | None =>
        if c <? 0x10000 then u_escape c
        else
          let n := c - 0x10000 in
          let s1 := Z.lor 0xd800 (Z.land (Z.shiftr n 10) 0x3ff) in
          let s2 := Z.lor 0xdc00 (Z.land n 0x3ff) in
          u_escape s1 ++ u_escape s2
    end
  else [c].

(** [py_encode_basestring_ascii]: the ASCII-only JSON representation of
    a Python string. *)
Definition py_encode_basestring_ascii (s : list Z) : list Z :=
  34 :: concat (replace <$> s) ++ [34].

(** Keys are compared code point by code point. *)
Fixpoint str_le (a b : list Z) : bool :=
  match a, b with
  | [], _ => true
  | _ :: _, [] => false
  | x :: a', y :: b' => (x <? y) || ((x =? y) && str_le a' b')
  end.

Fixpoint insert_item (kv : list Z * list Z) (l : list (list Z * list Z))
  : list (list Z * list Z) :=
  match l with
  | [] => [kv]
  | kv' :: l' => if str_le kv.1 kv'.1 then kv :: l else kv' :: insert_item kv l'
  end.

Definition sort_items (l : list (list Z * list Z)) : list (list Z * list Z) :=
  foldr insert_item [] l.

Fixpoint join (sep : list Z) (parts : list (list Z)) : list Z :=
  match parts with
  | [] => []
  | [p] => p
  | p :: ps => p ++ sep ++ join sep ps
  end.

(** [json.dumps(d, sort_keys=...)] for a dictionary [d] from strings to
    strings, given by its items, with the default separators. *)
Definition json_dumps (d : list (list Z * list Z)) (sort_keys : bool) : list Z :=
  let items := if sort_keys then sort_items d else d in
  lit "{"
  ++ join (lit ", ")
       ((fun kv => py_encode_basestring_ascii kv.1 ++ lit ": "
                   ++ py_encode_basestring_ascii kv.2) <$> items)
  ++ lit "}".

(** *** [str.encode("utf-8")] and [bytes.decode("utf-8")] *)

Definition utf8_encode_char (c : Z) : Exc (list Z) :=
  if c <? 0x80 then Ok [c]
  else if c <? 0x800 then
    Ok [Z.lor 0xC0 (Z.shiftr c 6); Z.lor 0x80 (Z.land c 0x3F)]
  else if high_surrogate c || low_surrogate c then Raise UnicodeEncodeError
  else if c <? 0x10000 then
    Ok [Z.lor 0xE0 (Z.shiftr c 12);
        Z.lor 0x80 (Z.land (Z.shiftr c 6) 0x3F);
        Z.lor 0x80 (Z.land c 0x3F)]
  else
    Ok [Z.lor 0xF0 (Z.shiftr c 18);
        Z.lor 0x80 (Z.land (Z.shiftr c 12) 0x3F);
        Z.lor 0x80 (Z.land (Z.shiftr c 6) 0x3F);
        Z.lor 0x80 (Z.land c 0x3F)].

Fixpoint utf8_encode (s : list Z) : Exc (list Z) :=
  match s with
  | [] => Ok []
  | c :: s' =>
      b ← utf8_encode_char c;
      bs ← utf8_encode s';
      mret (b ++ bs)
  end.

Definition continuation (b : Z) : bool := (0x80 <=? b) && (b <=? 0xBF).
Definition payload6 (b : Z) : Z := Z.land b 0x3F.

Fixpoint utf8_decode (bs : list Z) : Exc (list Z) :=
  match bs with
  | [] => Ok []
  | b0 :: t0 =>
      if b0 <? 0x80 then c ← utf8_decode t0; mret (b0 :: c)
      else
        match t0 with
        | [] => Raise UnicodeDecodeError
        | b1 :: t1 =>
            if (0xC2 <=? b0) && (b0 <=? 0xDF) then
              if continuation b1 then
                c ← utf8_decode t1;
                mret (Z.lor (Z.shiftl (Z.land b0 0x1F) 6) (payload6 b1) :: c)
              else Raise UnicodeDecodeError
            else
              match t1 with
              | [] => Raise UnicodeDecodeError
              | b2 :: t2 =>
                  if (0xE0 <=? b0) && (b0 <=? 0xEF) then
                    if continuation b1 && continuation b2
                       && negb ((b0 =? 0xE0) && (b1 <? 0xA0))
                       && negb ((b0 =? 0xED) && (0x9F <? b1)) then
                      c ← utf8_decode t2;
                      mret (Z.lor (Z.shiftl (Z.land b0 0x0F) 12)
                              (Z.lor (Z.shiftl (payload6 b1) 6) (payload6 b2)) :: c)
                    else Raise UnicodeDecodeError
                  else
                    match t2 with
                    | [] => Raise UnicodeDecodeError
                    | b3 :: t3 =>
                        if (0xF0 <=? b0) && (b0 <=? 0xF4)
                           && continuation b1 && continuation b2 && continuation b3
                           && negb ((b0 =? 0xF0) && (b1 <? 0x90))
                           && negb ((b0 =? 0xF4) && (0x8F <? b1)) then
                          c ← utf8_decode t3;
                          mret (Z.lor (Z.shiftl (Z.land b0 0x07) 18)
                                  (Z.lor (Z.shiftl (payload6 b1) 12)
                                     (Z.lor (Z.shiftl (payload6 b2) 6) (payload6 b3)))
                                :: c)
                        else Raise UnicodeDecodeError
                    end
              end
        end
  end.

(** *** [to_content] *)

(** Convert the given query string to payload content, i.e., add it
    under a [query] key and convert it to bytes. *)
Definition to_content (query : list Z) : Exc (list Z) :=
  let finalized_query := [(lit "query", query)] in
  let encoded_query := utf8_encode (json_dumps finalized_query true) in
  encoded_query.

(** *** [json.loads], for documents made of objects and strings *)

#[warnings="-register-all"]
Inductive json :=
| JString (s : list Z)
| JObject (members : list (list Z * json)).

Definition hex_value (c : Z) : option Z :=
  if (48 <=? c) && (c <=? 57) then Some (c - 48)
  else if (97 <=? c) && (c <=? 102) then Some (c - 87)
  else if (65 <=? c) && (c <=? 70) then Some (c - 55)
  else None.

(** [_decode_uXXXX]: four hexadecimal digits. *)
Definition decode_uXXXX (s : list Z) : option (Z * list Z) :=
  match s with
  | h1 :: h2 :: h3 :: h4 :: rest =>
      d1 ← hex_value h1; d2 ← hex_value h2; d3 ← hex_value h3; d4 ← hex_value h4;
      Some (((d1 * 16 + d2) * 16 + d3) * 16 + d4, rest)
  | _ => None
  end.

(** [BACKSLASH]: the one-character escapes. *)
Definition BACKSLASH (esc : Z) : option Z :=
  if esc =? 34 then Some 34
  else if esc =? 92 then Some 92
  else if esc =? 47 then Some 47
  else if esc =? 98 then Some 8
  else if esc =? 102 then Some 12
  else if esc =? 110 then Some 10
  else if esc =? 114 then Some 13
  else if esc =? 116 then Some 9
  else None.

(** After a high surrogate: a following [\uXXXX] that is a low
    surrogate is combined with it into one code point. *)
Definition pair_surrogate (uni : Z) (s : list Z) : option (Z * list Z) :=
  if high_surrogate uni then
    match s with
    | c1 :: c2 :: s' =>
        if (c1 =? 92) && (c2 =? 117) then
          '(uni2, s'') ← decode_uXXXX s';
          if low_surrogate uni2 then
            Some (0x10000 + Z.lor (Z.shiftl (uni - 0xd800) 10) (uni2 - 0xdc00), s'')
          else Some (uni, s)
        else Some (uni, s)
    | _ => Some (uni, s)
    end
  else Some (uni, s).

(** [py_scanstring] (strict): the string whose opening quote has just
    been read, and what follows its closing quote. *)
Fixpoint scanstring (fuel : nat) (s : list Z) : option (list Z * list Z) :=
  match fuel with
  | O => None
  | S fuel' =>
      match s with
      | [] => None
      | c :: t =>
          if c =? 34 then Some ([], t)
          else if c =? 92 then
            match t with
            | [] => None
            | esc :: t' =>
                if esc =? 117 then
                  '(uni, t'') ← decode_uXXXX t';
                  '(char, t3) ← pair_surrogate uni t'';
                  '(chars, rest) ← scanstring fuel' t3;
                  Some (char :: chars, rest)
                else
                  char ← BACKSLASH esc;
                  '(chars, rest) ← scanstring fuel' t';
                  Some (char :: chars, rest)
            end
          else if c <? 32 then None
          else
            '(chars, rest) ← scanstring fuel' t;
            Some (c :: chars, rest)
      end
  end.

Definition whitespace (c : Z) : bool :=
  (c =? 32) || (c =? 9) || (c =? 10) || (c =? 13).

Fixpoint skip_ws (s : list Z) : list Z :=
  match s with
  | c :: t => if whitespace c then skip_ws t else s
  | [] => []
  end.

(** The members of an object, from its first key to its closing
    brace. *)
Fixpoint parse_members (fuel : nat) (value : list Z -> option (json * list Z))
    (s : list Z) : option (list (list Z * json) * list Z) :=
  match fuel with
  | O => None
  | S fuel' =>
      match s with
      | 34 :: t =>
          '(key, t) ← scanstring (length t) t;
          match skip_ws t with
          | 58 :: t =>
              '(v, t) ← value (skip_ws t);
              match skip_ws t with
              | 125 :: rest => Some ([(key, v)], rest)
              | 44 :: t =>
                  '(ms, rest) ← parse_members fuel' value (skip_ws t);
                  Some ((key, v) :: ms, rest)
              | _ => None
              end
          | _ => None
          end
      | _ => None
      end
  end.

Fixpoint parse_value (fuel : nat) (s : list Z) : option (json * list Z) :=
  match fuel with
  | O => None
  | S fuel' =>
      match s with
      | 34 :: t =>
          '(str, rest) ← scanstring (length t) t;
          Some (JString str, rest)
      | 123 :: t =>
          match skip_ws t with
          | 125 :: rest => Some (JObject [], rest)
          | t' =>
              '(ms, rest) ← parse_members fuel' (parse_value fuel') t';
              Some (JObject ms, rest)
          end
      | _ => None
      end
  end.

(** [json.loads]: one value, surrounded by optional whitespace; values
    other than objects and strings are outside this fragment. *)
Definition json_loads (s : list Z) : Exc json :=
  match parse_value (length s) (skip_ws s) with
  | Some (v, rest) =>
      match skip_ws rest with
      | [] => Ok v
      | _ => Raise JSONDecodeError
      end
  | None => Raise JSONDecodeError
  end.

(** No high surrogate is directly followed by a low surrogate. *)
Fixpoint no_surrogate_pair (s : list Z) : Prop :=
  match s with
  | c :: (c' :: _) as t => ¬ (high_surrogate c ∧ low_surrogate c') ∧ no_surrogate_pair t
  | _ => True
  end.

End Requests.

(* ===================================================================== *)
(** ** The specification's own readings, and inputs for the examples     *)
(* ===================================================================== *)

(** The initial round's pre-conditions, as required of every
    application: declared, and either empty or among the cross-period
    persisted keys. *)
Definition initial_pre_conditions_persisted
    (pre : option (gset string)) (persisted : gset string) : Prop :=
  ∃ keys, pre = Some keys ∧ (keys = ∅ ∨ keys ⊆ persisted).

Module Examples.
Import AbstractRound.

(** The values of the contract's staking states. *)
Definition staking_state_of_value (v : Z) : option StakingState :=
  if v =? 0 then Some UNSTAKED
  else if v =? 1 then Some STAKED
  else if v =? 2 then Some EVICTED
  else None.

(** A round entered after a bet placement was settled. *)
Definition settled_round : Round :=
  {| synchronized_data := {[ "tx_submitter" := VStr "bet_placement_round" ]};
     collection := ∅; nb_participants := 4; threshold := 3 |}.


(** Three of four agents report an unstaked service. *)
Definition unstaked_vote : list dbval :=
  [VStr "call_checkpoint_round"; VNone; VInt 0].
Definition checkpoint_round : Round :=
  {| synchronized_data := ∅;
     collection := {[ "agent_0" := unstaked_vote; "agent_1" := unstaked_vote;
                      "agent_2" := unstaked_vote ]};
     nb_participants := 4; threshold := 3 |}.
Definition unstaked_data : gmap string dbval :=
  merge Staking.selection_key unstaked_vote ∅.
Definition quorum_reached (r : Round) : option (gmap string dbval * Staking.Event) :=
  collect_same_until_threshold_end_block Staking.selection_key
    Staking.done_event Staking.no_majority_event r.

End Examples.

Module VersionedExamples.
Import AbstractRound.

(** A stand-in for the runtime's serialization: the number of payloads. *)
Definition serialize (collection : gmap string (list dbval)) : dbval :=
  VInt (Z.of_nat (size collection)).

(** What three unstaked votes write into an empty store. *)
Definition written : list (string * dbval) :=
  (Staking.collection_key, serialize (collection Examples.checkpoint_round))
  :: zip Staking.selection_key Examples.unstaked_vote.


End VersionedExamples.

Module KpiExamples.
Import CheckStopTrading.

Definition initial_attrs : Attrs :=
  {| service_staking_state := UNSTAKED; mech_request_count := 0;
     service_info := PSeq []; ts_checkpoint := 0; liveness_period := 0;
     liveness_ratio := 0 |}.

(** A staked service: the first staking call fails, the service
    information arrives at the third attempt. *)
Definition staked_ledger (count count_at_checkpoint ts period ratio : Z) : Ledger :=
  {| staking_state_calls := [None; Some STAKED];
     requests_count_calls := [Some count];
     service_info_calls :=
       [None; None;
        Some (PSeq [PStr "multisig"; PStr "owner";
                    PSeq [PInt 7; PInt count_at_checkpoint]; PInt 0])];
     ts_checkpoint_calls := [Some ts];
     liveness_period_calls := [Some period];
     liveness_ratio_calls := [Some ratio] |}.

Definition state_of (l : Ledger) : State :=
  {| attrs := initial_attrs; ledger := l; outbox := []; is_done := false |}.

Definition context_at (period now : Z) : Context :=
  {| params := {| disable_trading := true; stop_trading_if_staking_kpi_met := true |};
     agent_address := "agent_0"; period_count := period; synced_timestamp := now |}.

(** One call per second, a period of an hour, an hour since the last
    checkpoint. *)
Definition hourly (requests : Z) : State :=
  state_of (staked_ledger (100 + requests) 100 1000 3600 (10 ^ 18)).

(** A ratio of [10^18 + 1], one second since the last checkpoint, two
    requests made. *)
Definition rounding : State :=
  state_of (staked_ledger 2 0 0 0 (10 ^ 18 + 1)).

End KpiExamples.

(** A double that holds the integer [q] exactly. *)
Definition holds_integer (x : PyFloat.float) (q : Z) : Prop :=
  ∃ k, 0 <= k ∧ x = PyFloat.mk (q * 2 ^ k) (- k).

(** Text made of ASCII characters only. *)
Definition ascii_only (l : list Z) : Prop := Forall (fun c => 0 <= c < 128) l.

(** The four shapes of the replacement of a code point. *)
Inductive replacement (c : Z) : list Z → Prop :=
| rep_literal : c ≠ 34 → c ≠ 92 → 32 <= c <= 126 → replacement c [c]
| rep_short esc : esc ≠ 117 → Requests.BACKSLASH esc = Some c → replacement c [92; esc]
| rep_unicode : 0 <= c < 0x10000 → replacement c (Requests.u_escape c)
| rep_pair : 0x10000 <= c <= 0x10FFFF →
             replacement c (Requests.u_escape (0xd800 + (c - 0x10000) / 1024)
                            ++ Requests.u_escape (0xdc00 + (c - 0x10000) mod 1024)).

Module PurchaseExamples.
Import OrderSubscription.

(** Stand-ins for the helpers: documents carry their price terms. *)
Definition nevermined : Nevermined :=
  {| DidDoc := list (string * Z);
     zero_x_transformer := fun s => String.append "0x" s;
     no_did_prefixed := fun s => s;
     get_agreement_id := fun seed creator => String.append seed creator;
     get_price := fun doc => doc;
     get_lock_payment_seed := fun agreement _ _ _ _ _ _ => ("lock_seed", "lock_id");
     get_transfer_nft_condition_seed :=
       fun agreement _ _ _ _ lock _ => ("transfer_seed", "transfer_id");
     get_escrow_payment_seed :=
       fun agreement _ _ _ _ _ _ lock transfer => ("escrow_seed", "escrow_id");
     get_timeouts_and_timelocks := fun _ => ([0; 0; 0], [0; 0; 0]);
     HexBytes := fun _ => [] |}.

Definition round : SubscriptionRound :=
  {| NO_TX_PAYLOAD := "no_tx"; ERROR_PAYLOAD := "error" |}.

Definition context : Context :=
  {| use_nevermined := true; safe_contract_address := "safe"; did := "did";
     token_address := "nft"; payment_token := "token";
     lock_payment_condition_address := "lock";
     escrow_payment_condition_address := "escrow";
     transfer_nft_condition_address := "transfer"; order_address := "order";
     purchase_amount := 1; price := 10; generated_id := "id" |}.

(** The balance call fails; every later call would succeed. *)
Definition balance_call_fails : State nevermined :=
  {| order_tx := ""; approval_tx := ""; balance := 0; agreement_id := "";
     multisend_batches := []; multisend_data := ""; tx_hex := "";
     balance_of_calls := [None];
     build_approval_tx_calls := [Some "approval"];
     resolve_did_calls := [Some ([("receiver", 10)] : DidDoc nevermined)];
     build_order_tx_calls := [Some "order"];
     build_multisend_data_calls := [Some "multisend"];
     build_multisend_safe_tx_hash_calls := [Some "hash"] |}.

End PurchaseExamples.

(* ===================================================================== *)
(** ** [string.Template], as far as [substitute] needs it                 *)
(* ===================================================================== *)

Module Template.
Import Requests.

(** A value handed to [substitute]: a [str] or an [int]. *)
Inductive value :=
| VStr (s : list Z)
| VInt (z : Z).

(** [str(v)] *)
Definition py_str (v : value) : list Z :=
  match v with
  | VStr s => s
  | VInt z => lit (pretty z)
  end.

(** How a substitution ends: the text, a [KeyError] for a name the
    mapping lacks, or a [ValueError] for an ill-formed placeholder. *)
Inductive result :=
| Substituted (s : list Z)
| KeyError (name : list Z)
| ValueError.

(** [idpattern]: an ASCII letter or an underscore, then ASCII letters,
    digits and underscores ([re.IGNORECASE] admits both cases). *)
Definition id_start (c : Z) : bool :=
  (c =? 95) || ((97 <=? c) && (c <=? 122)) || ((65 <=? c) && (c <=? 90)).
Definition id_char (c : Z) : bool := id_start c || ((48 <=? c) && (c <=? 57)).

(** The longest run of identifier characters, and what follows it. *)
Fixpoint take_id (t : list Z) : list Z * list Z :=
  match t with
  | c :: t' =>
      if id_char c then let '(name, rest) := take_id t' in (c :: name, rest)
      else ([], t)
  | [] => ([], [])
  end.

(** What the pattern finds after a delimiter, its alternatives tried in
    order: a second delimiter, an identifier, a braced identifier, or
    anything else, which is ill-formed. *)
Inductive placeholder :=
| Escaped (rest : list Z)
| Named (name rest : list Z)
| Invalid.

Definition match_placeholder (t : list Z) : placeholder :=
  match t with
  | c :: t' =>
      if c =? 36 then Escaped t'
      else if id_start c then let '(name, rest) := take_id t in Named name rest
      else if c =? 123 then
        match t' with
        | c' :: _ =>
            if id_start c' then
              let '(name, rest) := take_id t' in
              match rest with
              | c'' :: rest' => if c'' =? 125 then Named name rest' else Invalid
              | [] => Invalid
              end
            else Invalid
        | [] => Invalid
        end
      else Invalid
  | [] => Invalid
  end.

Fixpoint str_eqb (a b : list Z) : bool :=
  match a, b with
  | [], [] => true
  | x :: a', y :: b' => (x =? y) && str_eqb a' b'
  | _, _ => false
  end.

(** [mapping[name]] *)
Fixpoint lookup (mapping : list (list Z * value)) (name : list Z) : option value :=
  match mapping with
  | [] => None
  | (k, v) :: mapping' => if str_eqb k name then Some v else lookup mapping' name
  end.

(** The text already produced goes before what the rest produces; an
    error of the rest is the error of the whole. *)
Definition prepend (s : list Z) (r : result) : result :=
  match r with
  | Substituted t => Substituted (s ++ t)
  | _ => r
  end.

(** [pattern.sub(convert, template)]: the matches are converted from
    left to right. Every step consumes a character, so [fuel] need not
    exceed the length of the text. *)
Fixpoint substitute_from (fuel : nat) (mapping : list (list Z * value)) (t : list Z)
  : result :=
  match t with
  | [] => Substituted []
  | c :: t' =>
      match fuel with
      | O => ValueError
      | S fuel' =>
          if c =? 36 then
            match match_placeholder t' with
            | Escaped rest => prepend [36] (substitute_from fuel' mapping rest)
            | Named name rest =>
                match lookup mapping name with
                | Some v => prepend (py_str v) (substitute_from fuel' mapping rest)
                | None => KeyError name
                end
            | Invalid => ValueError
            end
          else prepend [c] (substitute_from fuel' mapping t')
      end
  end.

(** [Template(template).substitute] with the keyword arguments
    [mapping]. *)
Definition substitute (template : list Z) (mapping : list (list Z * value)) : result :=
  substitute_from (length template) mapping template.

End Template.

(* ===================================================================== *)
(** ** skills/market_manager_abci/graph_tooling/queries/omen.py           *)
(* ===================================================================== *)

Module Omen.
Import Requests.

(** The lines of the [questions] template. *)
Definition questions_lines : list string :=
  [ "";
    "    {";
    "      fixedProductMarketMakers(";
    "        where: {";
    "          creator_in: ${creators},";
    "          outcomeSlotCount: ${slot_count},";
    "          openingTimestamp_gt: ${opening_threshold},";
    "          language_in: ${languages},";
    "          isPendingArbitration: false";
    "        },";
    "        orderBy: creationTimestamp";
    "        orderDirection: desc";
    "      ){";
    "        id";
    "        title";
    "        creator";
    "        fee";
    "        openingTimestamp";
    "        outcomeSlotCount";
    "        outcomeTokenAmounts";
    "        outcomeTokenMarginalPrices";
    "        outcomes";
    "        usdLiquidityMeasure";
    "      }";
    "    }";
    "    " ].

(** [questions]: the text of the template. *)
Definition questions : list Z := join [10] (lit <$> questions_lines).

End Omen.

(* ===================================================================== *)
(** ** skills/market_manager_abci/graph_tooling/requests.py: querying     *)
(* ===================================================================== *)

Module Querying.
Import Requests.

(** *** [repr] of a list of strings *)

Section Repr.
(** [Py_UNICODE_ISPRINTABLE], a table of the Unicode database; it is
    consulted above U+007F only. *)
Variable isprintable : Z -> bool.

Definition hex2 (n : Z) : list Z :=
  [hex_digit (n / 16 mod 16); hex_digit (n mod 16)].

Definition hex8 (n : Z) : list Z :=
  [hex_digit (n / 268435456 mod 16); hex_digit (n / 16777216 mod 16);
   hex_digit (n / 1048576 mod 16); hex_digit (n / 65536 mod 16);
   hex_digit (n / 4096 mod 16); hex_digit (n / 256 mod 16);
   hex_digit (n / 16 mod 16); hex_digit (n mod 16)].

(** The quote [repr] chooses: the double quote when the string has
    single quotes and no double quote, the single quote otherwise. *)
Definition repr_quote (s : list Z) : Z :=
  if existsb (Z.eqb 39) s then
    if existsb (Z.eqb 34) s then 39 else 34
  else 39.

(** One character inside the quotes. *)
Definition repr_char (quote ch : Z) : list Z :=
  if (ch =? quote) || (ch =? 92) then [92; ch]
  else if ch =? 9 then [92; 116]
  else if ch =? 10 then [92; 110]
  else if ch =? 13 then [92; 114]
  else if (ch <? 32) || (ch =? 127) then 92 :: 120 :: hex2 ch
  else if ch <? 127 then [ch]
  else if negb (isprintable ch) then
    if ch <=? 0xff then 92 :: 120 :: hex2 ch
    else if ch <=? 0xffff then 92 :: 117 :: hex4 ch
    else 92 :: 85 :: hex8 ch
  else [ch].

(** [repr(s)] for a string. *)
Definition repr_str (s : list Z) : list Z :=
  let quote := repr_quote s in
  quote :: concat (repr_char quote <$> s) ++ [quote].

(** [repr(li)] for a list of strings. *)
Definition repr_list (li : list (list Z)) : list Z :=
  [91] ++ join [44; 32] (repr_str <$> li) ++ [93].

(** [s.replace(old, new)] for two one-character strings. *)
Definition replace_char (old new : Z) (s : list Z) : list Z :=
  (fun c => if c =? old then new else c) <$> s.

(** [to_graphql_list]: convert the given list to a string
    representing a list for a GraphQL query. *)
Definition to_graphql_list (li : list (list Z)) : list Z :=
  replace_char 39 34 (repr_list li).
End Repr.

(** *** [FetchStatus] *)

(** The status of a fetch operation. *)
Inductive FetchStatus := SUCCESS | IN_PROGRESS | FAIL | NONE.

#[global] Instance FetchStatus_eq_dec : EqDecision FetchStatus.
Proof. solve_decision. Defined.

(** *** [QueryingBehaviour] *)

(** What a step of the behaviour can raise: a builtin exception, the
    [AttributeError] of a context attribute that does not exist, or the
    [KeyError] of a template name without a value. *)
Inductive Error :=
| Builtin (e : PyExc)
| AttributeError (name : string)
| KeyError (name : list Z).

Inductive outcome (St A : Type) :=
| Returned (a : A) (s : St)
| Suspended
| Raised (e : Error).
Arguments Returned {St A} a s.
Arguments Suspended {St A}.
Arguments Raised {St A} e.

Definition Gen (St A : Type) : Type := St -> outcome St A.

Definition gen_ret {St A} (a : A) : Gen St A := fun s => Returned a s.

Definition gen_bind {St A B} (m : Gen St A) (k : A -> Gen St B) : Gen St B :=
  fun s =>
    match m s with
    | Returned a s' => k a s'
    | Suspended => Suspended
    | Raised e => Raised e
    end.

#[global] Instance gen_mret {St} : MRet (Gen St) := fun A a => gen_ret a.
#[global] Instance gen_mbind {St} : MBind (Gen St) :=
  fun A B k m => gen_bind m k.

Definition gets {St A} (f : St -> A) : Gen St A := fun s => Returned (f s) s.
Definition modify {St} (f : St -> St) : Gen St unit := fun s => Returned tt (f s).

Definition lift_exc {St A} (m : Exc A) : Gen St A :=
  fun s => match m with Ok a => Returned a s | Raise e => Raised (Builtin e) end.

Definition lift_template {St} (r : Template.result) : Gen St (list Z) :=
  fun s =>
    match r with
    | Template.Substituted q => Returned q s
    | Template.KeyError name => Raised (KeyError name)
    | Template.ValueError => Raised (Builtin ValueError)
    end.

(** [ApiSpecs], a class of the runtime declared outside the modelled
    files: its operations are taken as given. The two that count
    retries return the object as they leave it; the others read it. *)
Record ApiSpecs := {
  Spec : Type;
  Request : Type;
  Response : Type;
  Result : Type;
  Duration : Type;
  get_spec : Spec -> Request;
  process_response : Spec -> Response -> option Result;
  increment_retries : Spec -> Spec;
  reset_retries : Spec -> Spec;
  is_retries_exceeded : Spec -> bool;
  suggested_sleep_time : Spec -> Duration;
}.

Section Behaviour.
Variable isprintable : Z -> bool.
Variable Api : ApiSpecs.

(** What the behaviour reads and does not change. *)
Record Context := {
  slot_count : Z;
  opening_margin : Z;
  languages : list (list Z);
  (** [synced_time]: the synchronized time among agents *)
  synced_time : Z;
}.

(** The attributes of the behaviour; the [ApiSpecs] attributes of the
    context by name; and the outside world: the responses still to
    come, the requests sent and the sleeps taken so far. *)
Record State := {
  _call_failed : bool;
  _fetch_status : FetchStatus;
  _creators_iterator : list (string * list (list Z));
  _current_market : string;
  _current_creators : list (list Z);
  subgraphs : gmap string (Spec Api);
  http_responses : list (Response Api);
  http_requests : list (Request Api * list Z);
  slept : list (Duration Api);
}.

Definition set_call_failed (v : bool) (s : State) : State :=
  {| _call_failed := v; _fetch_status := _fetch_status s;
     _creators_iterator := _creators_iterator s;
     _current_market := _current_market s;
     _current_creators := _current_creators s; subgraphs := subgraphs s;
     http_responses := http_responses s; http_requests := http_requests s;
     slept := slept s |}.
Definition set_fetch_status (v : FetchStatus) (s : State) : State :=
  {| _call_failed := _call_failed s; _fetch_status := v;
     _creators_iterator := _creators_iterator s;
     _current_market := _current_market s;
     _current_creators := _current_creators s; subgraphs := subgraphs s;
     http_responses := http_responses s; http_requests := http_requests s;
     slept := slept s |}.
(** [res = next(self._creators_iterator)] followed by the assignment
    of the pair. *)
Definition advance (res : string * list (list Z))
    (rest : list (string * list (list Z))) (s : State) : State :=
  {| _call_failed := _call_failed s; _fetch_status := _fetch_status s;
     _creators_iterator := rest;
     _current_market := res.1;
     _current_creators := res.2; subgraphs := subgraphs s;
     http_responses := http_responses s; http_requests := http_requests s;
     slept := slept s |}.
Definition set_subgraph (name : string) (v : Spec Api) (s : State) : State :=
  {| _call_failed := _call_failed s; _fetch_status := _fetch_status s;
     _creators_iterator := _creators_iterator s;
     _current_market := _current_market s;
     _current_creators := _current_creators s;
     subgraphs := <[ name := v ]> (subgraphs s);
     http_responses := http_responses s; http_requests := http_requests s;
     slept := slept s |}.
Definition exchange (request : Request Api * list Z)
    (rest : list (Response Api)) (s : State) : State :=
  {| _call_failed := _call_failed s; _fetch_status := _fetch_status s;
     _creators_iterator := _creators_iterator s;
     _current_market := _current_market s;
     _current_creators := _current_creators s; subgraphs := subgraphs s;
     http_responses := rest; http_requests := http_requests s ++ [request];
     slept := slept s |}.
Definition add_sleep (t : Duration Api) (s : State) : State :=
  {| _call_failed := _call_failed s; _fetch_status := _fetch_status s;
     _creators_iterator := _creators_iterator s;
     _current_market := _current_market s;
     _current_creators := _current_creators s; subgraphs := subgraphs s;
     http_responses := http_responses s; http_requests := http_requests s;
     slept := slept s ++ [t] |}.

(** [current_subgraph]: get a subgraph by prediction market's name,
    [getattr(self.context, self._current_market)]. *)
Definition current_subgraph : Gen State (Spec Api) :=
  fun s =>
    match subgraphs s !! _current_market s with
    | Some subgraph => Returned subgraph s
    | None => Raised (AttributeError (_current_market s))
    end.

(** A method of the current subgraph that changes it. *)
Definition on_current_subgraph (method : Spec Api -> Spec Api) : Gen State unit :=
  subgraph ← current_subgraph;
  name ← gets _current_market;
  modify (set_subgraph name (method subgraph)).

(** [yield from self.sleep(t)]: the time passes. *)
Definition sleep (t : Duration Api) : Gen State unit := modify (add_sleep t).

(** [yield from self.get_http_response] with the content and the
    entries of the specification as keyword arguments, a
    method of the base behaviour declared outside the modelled
    files: the request is sent and the behaviour is resumed with the
    response, when there is one. *)
Definition get_http_response (content : list Z) (spec : Request Api)
  : Gen State (Response Api) :=
  fun s =>
    match http_responses s with
    | [] => Suspended
    | response :: rest => Returned response (exchange (spec, content) rest s)
    end.

(** The rest of [_prepare_bets_fetching], from its second test on. *)
Definition mark_in_progress (s : State) : bool * State :=
  if bool_decide (_fetch_status s = FAIL) then (false, s)
  else (true, set_fetch_status IN_PROGRESS s).

(** [_prepare_bets_fetching]: prepare for fetching a bet. *)
Definition _prepare_bets_fetching (s : State) : bool * State :=
  if bool_decide (_fetch_status s = SUCCESS) || bool_decide (_fetch_status s = NONE)
  then
    match _creators_iterator s with
    | [] => (false, s)
    | res :: rest => mark_in_progress (advance res rest s)
    end
  else mark_in_progress s.

(** [_handle_response]: handle a response from a subgraph. What is
    logged is not kept: only the lookup of the subgraph that the
    message names is. *)
Definition _handle_response (res : option (Result Api)) (res_context : string)
    (sleep_on_fail : bool) : Gen State (option (Result Api)) :=
  match res with
  | None =>
      current_subgraph;;
      modify (set_call_failed true);;
      on_current_subgraph (increment_retries Api);;
      subgraph ← current_subgraph;
      (if is_retries_exceeded Api subgraph
       then modify (set_fetch_status FAIL) else mret tt);;
      (if sleep_on_fail
       then
         subgraph ← current_subgraph;
         let sleep_time := suggested_sleep_time Api subgraph in
         sleep sleep_time
       else mret tt);;
      mret None
  | Some res =>
      modify (set_call_failed false);;
      on_current_subgraph (reset_retries Api);;
      modify (set_fetch_status SUCCESS);;
      mret (Some res)
  end.

Variable ctx : Context.

(** The keyword arguments of [questions.substitute] in
    [_fetch_bets]. *)
Definition questions_mapping (creators : list (list Z))
  : list (list Z * Template.value) :=
  [ (lit "creators", Template.VStr (to_graphql_list isprintable creators));
    (lit "slot_count", Template.VInt (slot_count ctx));
    (lit "opening_threshold",
      Template.VInt (synced_time ctx + opening_margin ctx));
    (lit "languages",
      Template.VStr (to_graphql_list isprintable (languages ctx))) ].

(** [_fetch_bets]: fetch questions from the current subgraph, for the
    current creators. *)
Definition _fetch_bets : Gen State (option (Result Api)) :=
  modify (set_fetch_status IN_PROGRESS);;
  creators ← gets _current_creators;
  query ← lift_template
            (Template.substitute Omen.questions (questions_mapping creators));
  content ← lift_exc (to_content query);
  subgraph ← current_subgraph;
  res_raw ← get_http_response content (get_spec Api subgraph);
  subgraph ← current_subgraph;
  let res := process_response Api subgraph res_raw in
  bets ← _handle_response res "questions" true;
  mret bets.
End Behaviour.

End Querying.

(* ===================================================================== *)
(** ** order_subscription.py: the action of the behaviour                 *)
(* ===================================================================== *)

Module SubscriptionAct.
Import Generator OrderSubscription.

Record SubscriptionPayload := {
  sender : string;
  tx_submitter : string;
  tx_hash : string;
  payload_agreement_id : string;
}.

Section Act.
Variable N : Nevermined.
Variable Round : SubscriptionRound.
(** [SubscriptionRound.auto_round_id()], the identifier of a round
    class declared outside the modelled files. *)
Variable auto_round_id : string.
Variable ctx : Context.
(** [self.context.agent_address] *)
Variable agent_address : string.

(** The behaviour as a whole: its attributes and calls, the a2a
    transactions sent so far, and whether it is done. *)
Record Behaviour := {
  inner : State N;
  outbox : list SubscriptionPayload;
  is_done : bool;
}.

(** A step on the attributes is a step of the behaviour. *)
Definition on_inner {A} (m : Gen (State N) A) : Gen Behaviour A :=
  fun b =>
    match m (inner b) with
    | Returned a s => Returned a {| inner := s; outbox := outbox b; is_done := is_done b |}
    | Suspended => Suspended
    | Raised e => Raised e
    end.

(** Modelled from the spec: [finish_behaviour] is defined with the
    base behaviours, outside the modelled files; the behaviour "emits
    a Payload into its Round", "suspends until the round concludes"
    and is then done. *)
Definition finish_behaviour (payload : SubscriptionPayload) : Gen Behaviour unit :=
  modify (fun b => {| inner := inner b; outbox := outbox b ++ [payload];
                      is_done := is_done b |});;
  modify (fun b => {| inner := inner b; outbox := outbox b; is_done := true |}).

(** [async_act]: do the action. *)
Definition async_act (fuel : nat) : Gen Behaviour unit :=
  payload_data ← on_inner (get_payload_content N Round ctx fuel);
  let sender := agent_address in
  agreement ← gets (fun b => agreement_id N (inner b));
  let payload :=
    {| sender := sender; tx_submitter := auto_round_id; tx_hash := payload_data;
       payload_agreement_id := agreement |} in
  finish_behaviour payload.
End Act.

End SubscriptionAct.

(* ===================================================================== *)
(** ** Further definitions                                                *)
(* ===================================================================== *)

(** The ceiling of the dyadic rational [m * 2 ^ e]. *)
Definition ceil_at (m e : Z) : Z :=
  if 0 <=? e then m * 2 ^ e else - ((- m) / 2 ^ (- e)).

(** The state a run ends in ([s] when it does not return). *)
Definition final_state {St A} (o : Generator.outcome St A) (s : St) : St :=
  match o with
  | Generator.Returned _ s' => s'
  | _ => s
  end.

Module KpiMoreExamples.
Import CheckStopTrading.

(** An evicted service: the staking call answers at the third attempt;
    no other call would answer. *)
Definition evicted_ledger : Ledger :=
  {| staking_state_calls := [None; None; Some EVICTED];
     requests_count_calls := [];
     service_info_calls := [];
     ts_checkpoint_calls := [];
     liveness_period_calls := [];
     liveness_ratio_calls := [] |}.

(** A staked service whose information has two entries only. *)
Definition short_info_ledger : Ledger :=
  {| staking_state_calls := [Some STAKED]; requests_count_calls := [Some 5];
     service_info_calls := [Some (PSeq [PStr "multisig"; PStr "owner"])];
     ts_checkpoint_calls := []; liveness_period_calls := [];
     liveness_ratio_calls := [] |}.

(** Where the hourly example with 3601 requests ends: after the KPI
    check, and after the whole action. *)
Definition hourly_met : State :=
  Eval vm_compute in
    final_state (is_staking_kpi_met 3 (KpiExamples.context_at 1 4600)
                   (KpiExamples.hourly 3601))
      (KpiExamples.hourly 3601).
Definition hourly_acted : State :=
  Eval vm_compute in
    final_state (async_act 3 (KpiExamples.context_at 1 4600)
                   (KpiExamples.hourly 3601))
      (KpiExamples.hourly 3601).

End KpiMoreExamples.

Module RoundExamples.
Import AbstractRound.

(** Three agents voted with payloads of two values only: the quorum is
    reached, and no staking state is written. *)
Definition short_vote : list dbval := [VStr "call_checkpoint_round"; VNone].
Definition missing_state_round : Round :=
  {| synchronized_data := ∅;
     collection := {[ "agent_0" := short_vote; "agent_1" := short_vote;
                      "agent_2" := short_vote ]};
     nb_participants := 4; threshold := 3 |}.
Definition missing_state_data : gmap string dbval :=
  merge Staking.selection_key short_vote ∅.

(** Three of four agents report a staked service and a checkpoint
    transaction. *)
Definition checkpoint_vote : list dbval :=
  [VStr "call_checkpoint_round"; VStr "0xabc"; VInt 1].
Definition prepared_round : Round :=
  {| synchronized_data := ∅;
     collection := {[ "agent_0" := checkpoint_vote; "agent_1" := checkpoint_vote;
                      "agent_2" := checkpoint_vote ]};
     nb_participants := 4; threshold := 3 |}.
Definition prepared_data : gmap string dbval :=
  merge Staking.selection_key checkpoint_vote ∅.
End RoundExamples.

Module PurchaseMoreExamples.
Import OrderSubscription.

(** No subscription is held; the multisend data arrive at the second
    attempt, every other call answers at once. *)
Definition purchase_succeeds : State PurchaseExamples.nevermined :=
  {| order_tx := ""; approval_tx := ""; balance := 0; agreement_id := "";
     multisend_batches := []; multisend_data := ""; tx_hex := "";
     balance_of_calls := [Some 0];
     build_approval_tx_calls := [Some "approval"];
     resolve_did_calls :=
       [Some ([("receiver", 10)] : DidDoc PurchaseExamples.nevermined)];
     build_order_tx_calls := [Some "order"];
     build_multisend_data_calls := [None; Some "multisend"];
     build_multisend_safe_tx_hash_calls := [Some "hash"] |}.

Definition purchase_done : State PurchaseExamples.nevermined :=
  Eval vm_compute in
    final_state (get_payload_content PurchaseExamples.nevermined
                   PurchaseExamples.round PurchaseExamples.context 2
                   purchase_succeeds)
      purchase_succeeds.

(** The behaviour after its action on that state. *)
Definition purchase_acted : SubscriptionAct.Behaviour PurchaseExamples.nevermined :=
  Eval vm_compute in
    final_state (SubscriptionAct.async_act PurchaseExamples.nevermined
                   PurchaseExamples.round "subscription_round"
                   PurchaseExamples.context "agent_0" 2
                   {| SubscriptionAct.inner := purchase_succeeds;
                      SubscriptionAct.outbox := []; SubscriptionAct.is_done := false |})
      {| SubscriptionAct.inner := purchase_succeeds;
         SubscriptionAct.outbox := []; SubscriptionAct.is_done := false |}.
End PurchaseMoreExamples.

(** A printable ASCII character other than the two quotes and the
    backslash. *)
Definition plain (c : Z) : Prop := 32 <= c < 127 ∧ c ≠ 34 ∧ c ≠ 39 ∧ c ≠ 92.

(** The text of the [questions] template around its four placeholders. *)
Module QuestionsText.
Import Requests.

Definition before_creators : list Z :=
  join [10] (lit <$> [ "";
                       "    {";
                       "      fixedProductMarketMakers(";
                       "        where: {";
                       "          creator_in: " ]).
Definition before_slot_count : list Z :=
  [44; 10] ++ lit "          outcomeSlotCount: ".
Definition before_opening_threshold : list Z :=
  [44; 10] ++ lit "          openingTimestamp_gt: ".
Definition before_languages : list Z :=
  [44; 10] ++ lit "          language_in: ".
Definition after_languages : list Z :=
  [44; 10]
  ++ join [10] (lit <$> [ "          isPendingArbitration: false";
                          "        },";
                          "        orderBy: creationTimestamp";
                          "        orderDirection: desc";
                          "      ){";
                          "        id";
                          "        title";
                          "        creator";
                          "        fee";
                          "        openingTimestamp";
                          "        outcomeSlotCount";
                          "        outcomeTokenAmounts";
                          "        outcomeTokenMarginalPrices";
                          "        outcomes";
                          "        usdLiquidityMeasure";
                          "      }";
                          "    }";
                          "    " ]).

(** The query with the four values in place. *)
Definition query (creators slot_count opening_threshold languages : list Z) : list Z :=
  before_creators ++ creators ++ before_slot_count ++ slot_count
  ++ before_opening_threshold ++ opening_threshold
  ++ before_languages ++ languages ++ after_languages.
End QuestionsText.

(** The query [_fetch_bets] builds for the given creators. *)
Definition questions_query (isprintable : Z → bool) (ctx : Querying.Context)
    (creators : list (list Z)) : list Z :=
  QuestionsText.query
    (Querying.to_graphql_list isprintable creators)
    (Requests.lit (pretty (Querying.slot_count ctx)))
    (Requests.lit (pretty (Querying.synced_time ctx + Querying.opening_margin ctx)))
    (Querying.to_graphql_list isprintable (Querying.languages ctx)).

Module QueryExamples.
Import Requests Querying.

(** A subgraph that counts its retries, allows two of them and backs
    off by doubling; a response is the result or nothing. *)
Definition api : ApiSpecs :=
  {| Spec := nat; Request := string; Response := option string; Result := string;
     Duration := nat;
     get_spec := fun _ => "https://api.thegraph.com/subgraphs/name/omen";
     process_response := fun _ response => response;
     increment_retries := S;
     reset_retries := fun _ => 0%nat;
     is_retries_exceeded := fun retries => (2 <? retries)%nat;
     suggested_sleep_time := fun retries => (2 ^ retries)%nat |}.

Definition context : Context :=
  {| slot_count := 2; opening_margin := 300; languages := [lit "en_US"];
     synced_time := 1700000000 |}.

(** One market; its first request will fail, the second will bring
    the questions. *)
Definition initial : State api :=
  {| _call_failed := false; _fetch_status := NONE;
     _creators_iterator := [("omen_subgraph", [lit "0x89c5"])];
     _current_market := ""; _current_creators := [];
     subgraphs := ({[ "omen_subgraph" := 0%nat ]} : gmap string (Spec api));
     http_responses := ([None; Some "questions"] : list (Response api));
     http_requests := []; slept := [] |}.

Definition prepared : State api := (_prepare_bets_fetching api initial).2.

(** The state after the first fetch. *)
Definition fetched : State api :=
  match _fetch_bets (fun _ => true) api context prepared with
  | Returned _ s => s
  | _ => prepared
  end.
End QueryExamples.

(* ===================================================================== *)
(** * Properties                                                          *)
(* ===================================================================== *)

(** ** The transition tables *)

Lemma staking_final_states_elem (r : Staking.AppState) :
  r ∈ Staking.final_states <-> r ≠ Staking.CallCheckpointRound.
Proof.
  unfold Staking.final_states. rewrite !elem_of_union, !elem_of_singleton.
  destruct r; split; try done; try (intros [[? | ?] | ?]; done); intros _; auto.
Qed.

Lemma multiplexer_final_states_elem (r : Multiplexer.AppState) :
  r ∈ Multiplexer.final_states <-> r ≠ Multiplexer.PostTxSettlementRound.
Proof.
  unfold Multiplexer.final_states. rewrite !elem_of_union, !elem_of_singleton.
  destruct r; split; try done; try (intros [[? | ?] | ?]; done); intros _; auto.
Qed.

(** C8: in both transition tables the no-majority and round-timeout events
    lead from the round that produced them back to that same round. *)
Theorem timeout_and_no_majority_rerun_the_round :
  (Staking.transition_function !! Staking.CallCheckpointRound
     ≫= (.!! Staking.NO_MAJORITY)) = Some Staking.CallCheckpointRound
  ∧ (Staking.transition_function !! Staking.CallCheckpointRound
       ≫= (.!! Staking.ROUND_TIMEOUT)) = Some Staking.CallCheckpointRound
  ∧ (Multiplexer.transition_function !! Multiplexer.PostTxSettlementRound
       ≫= (.!! Multiplexer.ROUND_TIMEOUT)) = Some Multiplexer.PostTxSettlementRound
  ∧ (∀ r e r',
       (Staking.transition_function !! r ≫= (.!! e)) = Some r' →
       e = Staking.NO_MAJORITY ∨ e = Staking.ROUND_TIMEOUT → r' = r)
  ∧ (∀ r r',
       (Multiplexer.transition_function !! r ≫= (.!! Multiplexer.ROUND_TIMEOUT)) = Some r' →
       r' = r).
Proof.
  repeat split.
  - intros r e r' Hstep [-> | ->]; destruct r; vm_compute in Hstep; congruence.
  - intros r r' Hstep; destruct r; vm_compute in Hstep; congruence.
Qed.

(** C5: in both applications every round outside [final_states] has an
    entry for every event it can produce (the events of the application,
    the synthesized round timeout included); the entries are exactly the
    ones listed; the rounds in [final_states] have no outgoing transition. *)
Theorem transition_tables_closed :
  (∀ r, r ∉ Staking.final_states →
     ∀ e, is_Some (Staking.transition_function !! r ≫= (.!! e)))
  ∧ (∀ r, r ∉ Multiplexer.final_states →
       ∀ e, is_Some (Multiplexer.transition_function !! r ≫= (.!! e)))
  ∧ (∀ of_value super self data event,
       Staking.end_block of_value super self = Ok (Some (data, event)) →
       is_Some (Staking.transition_function !! Staking.CallCheckpointRound
                  ≫= (.!! event)))
  ∧ (∀ id1 id2 self data event,
       Multiplexer.end_block id1 id2 self = Ok (Some (data, event)) →
       is_Some (Multiplexer.transition_function !! Multiplexer.PostTxSettlementRound
                  ≫= (.!! event)))
  ∧ dom <$> (Staking.transition_function !! Staking.CallCheckpointRound)
    = Some {[ Staking.DONE; Staking.SERVICE_NOT_STAKED; Staking.SERVICE_EVICTED;
              Staking.NEXT_CHECKPOINT_NOT_REACHED_YET; Staking.ROUND_TIMEOUT;
              Staking.NO_MAJORITY ]}
  ∧ dom <$> (Multiplexer.transition_function !! Multiplexer.PostTxSettlementRound)
    = Some {[ Multiplexer.DECISION_REQUESTING_DONE; Multiplexer.BET_PLACEMENT_DONE;
              Multiplexer.ROUND_TIMEOUT; Multiplexer.UNRECOGNIZED ]}
  ∧ (∀ r, r ∈ Staking.final_states → Staking.transition_function !! r = Some ∅)
  ∧ (∀ r, r ∈ Multiplexer.final_states →
       Multiplexer.transition_function !! r = Some ∅).
Proof.
  assert (Hs : ∀ e, is_Some (Staking.transition_function !! Staking.CallCheckpointRound
                               ≫= (.!! e))).
  { intros []; vm_compute; eauto. }
  assert (Hm : ∀ e, is_Some (Multiplexer.transition_function
                               !! Multiplexer.PostTxSettlementRound ≫= (.!! e))).
  { intros []; vm_compute; eauto. }
  split_and!.
  - intros r Hr e. rewrite staking_final_states_elem in Hr.
    destruct (decide (r = Staking.CallCheckpointRound)) as [-> | ?]; [apply Hs | done].
  - intros r Hr e. rewrite multiplexer_final_states_elem in Hr.
    destruct (decide (r = Multiplexer.PostTxSettlementRound)) as [-> | ?]; [apply Hm | done].
  - intros. apply Hs.
  - intros. apply Hm.
  - reflexivity.
  - reflexivity.
  - intros r Hr. rewrite staking_final_states_elem in Hr. by destruct r.
  - intros r Hr. rewrite multiplexer_final_states_elem in Hr. by destruct r.
Qed.

Lemma timeout_and_no_majority_rerun_the_round_witness :
  (Staking.transition_function !! Staking.CallCheckpointRound
     ≫= (.!! Staking.NO_MAJORITY)) = Some Staking.CallCheckpointRound
  ∧ Staking.CallCheckpointRound = Staking.CallCheckpointRound.
Proof.
  split; [reflexivity |].
  exact (proj1 (proj2 (proj2 (proj2 timeout_and_no_majority_rerun_the_round)))
           Staking.CallCheckpointRound Staking.NO_MAJORITY Staking.CallCheckpointRound
           eq_refl (or_introl eq_refl)).
Defined.

Lemma transition_tables_closed_witness :
(Staking.CallCheckpointRound ∉ Staking.final_states)
  ∧ is_Some (Staking.transition_function !! Staking.CallCheckpointRound
               ≫= (.!! Staking.SERVICE_EVICTED)).
Proof.
  assert (Hnot : Staking.CallCheckpointRound ∉ Staking.final_states).
  { by rewrite staking_final_states_elem; intros Hne; apply Hne. }
  split; [exact Hnot |].
  exact (proj1 transition_tables_closed Staking.CallCheckpointRound Hnot
           Staking.SERVICE_EVICTED).
Defined.

(** ** The declared database conditions *)

(** C7 (as stated, refuted): the initial round of
    [TxSettlementMultiplexerAbciApp] requires [tx_submitter], which is
    neither nothing nor among the cross-period keys the application
    declares. *)
Lemma multiplexer_initial_pre_conditions_not_persisted :
  ¬ initial_pre_conditions_persisted
      (Multiplexer.db_pre_conditions !! Multiplexer.initial_round_cls)
      Multiplexer.cross_period_persisted_keys.
Proof.
  intros (keys & Hkeys & Hcase).
  unfold Multiplexer.db_pre_conditions, Multiplexer.initial_round_cls in Hkeys.
  rewrite lookup_singleton_eq in Hkeys. injection Hkeys as <-.
  unfold Multiplexer.cross_period_persisted_keys in Hcase.
  destruct Hcase as [Hempty | Hsub]; set_solver.
Qed.

(** C7 (amended): the initial round of [StakingAbciApp] declares the
    empty pre-condition set; the initial round of
    [TxSettlementMultiplexerAbciApp] declares exactly [tx_submitter],
    while the application declares no cross-period key: the key is one
    that a preceding application leaves behind, such as the staking
    application in its [CheckpointCallPreparedRound]. *)
Theorem initial_pre_conditions :
  initial_pre_conditions_persisted
    (Staking.db_pre_conditions !! Staking.initial_round_cls)
    Staking.cross_period_persisted_keys
  ∧ Staking.db_pre_conditions !! Staking.initial_round_cls = Some ∅
  ∧ Multiplexer.db_pre_conditions !! Multiplexer.initial_round_cls
    = Some {[ "tx_submitter" ]}
  ∧ Multiplexer.cross_period_persisted_keys = ∅
  ∧ (∃ keys, Staking.db_post_conditions !! Staking.CheckpointCallPreparedRound = Some keys
             ∧ "tx_submitter" ∈ keys).
Proof.
  split_and!; try reflexivity.
  - exists ∅. split; [reflexivity | by left].
  - eexists. split; [reflexivity | set_solver].
Qed.

(** ** The multiplexer round *)





(** ** The checkpoint round *)

(** C2: whatever pair the generic quorum computation produced, an event
    other than DONE is passed on unchanged; DONE becomes SERVICE_NOT_STAKED
    for an unstaked service, else SERVICE_EVICTED for an evicted one, else
    NEXT_CHECKPOINT_NOT_REACHED_YET when there is no transaction hash, and
    stays DONE otherwise. The outcome is determined by that pair alone. *)
Theorem call_checkpoint_end_block_remaps_done
    (of_value : Z → option StakingState)
    (super : AbstractRound.Round → option (gmap string AbstractRound.dbval * Staking.Event))
    (self : AbstractRound.Round) (data : gmap string AbstractRound.dbval)
    (event : Staking.Event)
    (Hres : super self = Some (data, event)) :
  (event ≠ Staking.DONE →
     Staking.end_block of_value super self = Ok (Some (data, event)))
  ∧ (event = Staking.DONE →
     Staking.service_staking_state of_value data = Ok UNSTAKED →
     Staking.end_block of_value super self = Ok (Some (data, Staking.SERVICE_NOT_STAKED)))
  ∧ (event = Staking.DONE →
     Staking.service_staking_state of_value data = Ok EVICTED →
     Staking.end_block of_value super self = Ok (Some (data, Staking.SERVICE_EVICTED)))
  ∧ (event = Staking.DONE →
     Staking.service_staking_state of_value data = Ok STAKED →
     Staking.most_voted_tx_hash data = Ok AbstractRound.VNone →
     Staking.end_block of_value super self
     = Ok (Some (data, Staking.NEXT_CHECKPOINT_NOT_REACHED_YET)))
  ∧ (event = Staking.DONE →
     Staking.service_staking_state of_value data = Ok STAKED →
     ∀ tx_hash, Staking.most_voted_tx_hash data = Ok tx_hash →
                tx_hash ≠ AbstractRound.VNone →
     Staking.end_block of_value super self = Ok (Some (data, Staking.DONE)))
  ∧ (∀ super' self', super' self' = super self →
     Staking.end_block of_value super' self' = Staking.end_block of_value super self).
Proof.
  unfold Staking.end_block. rewrite Hres. split_and!.
  - intros Hne. by rewrite bool_decide_eq_true_2.
  - intros -> ->. reflexivity.
  - intros -> ->. reflexivity.
  - intros -> -> ->. reflexivity.
  - intros -> -> tx_hash -> Hhash. cbn.
    by rewrite (bool_decide_eq_false_2 (tx_hash = AbstractRound.VNone)).
  - intros super' self' ->. reflexivity.
Qed.

Lemma call_checkpoint_end_block_remaps_done_witness :
  Examples.quorum_reached Examples.checkpoint_round
  = Some (Examples.unstaked_data, Staking.DONE)
  ∧ Staking.end_block Examples.staking_state_of_value Examples.quorum_reached
      Examples.checkpoint_round
    = Ok (Some (Examples.unstaked_data, Staking.SERVICE_NOT_STAKED)).
Proof.
  split; [reflexivity |].
  exact (proj1 (proj2 (call_checkpoint_end_block_remaps_done
                         Examples.staking_state_of_value Examples.quorum_reached
                         Examples.checkpoint_round Examples.unstaked_data Staking.DONE
                         eq_refl))
           eq_refl eq_refl).
Defined.

(** ** Invoking [end_block] again *)











(** ** Python's true division of integers *)

Lemma round_half_even_exact (q d : Z) :
  0 < d → PyFloat.round_half_even (q * d) d = q.
Proof.
  intros Hd. unfold PyFloat.round_half_even.
  rewrite Z.mod_mul by lia. rewrite Z.div_mul by lia.
  destruct (Z.ltb_spec (2 * 0) d); [done | lia].
Qed.

Lemma round_half_even_bound (n d : Z) :
  0 <= n → 0 < d → 0 <= PyFloat.round_half_even n d <= n / d + 1.
Proof.
  intros Hn Hd. unfold PyFloat.round_half_even.
  pose proof (Z.div_pos n d Hn Hd).
  repeat match goal with |- context [if ?b then _ else _] => destruct b end; lia.
Qed.

Lemma quot_log2_exact (q b : Z) :
  0 < q → 0 < b → PyFloat.quot_log2 (q * b) b = Z.log2 q.
Proof.
  intros Hq Hb. unfold PyFloat.quot_log2, PyFloat.scaled.
  pose proof (Z.log2_mul_below q b Hq Hb).
  pose proof (Z.log2_mul_above q b ltac:(lia) ltac:(lia)).
  pose proof (Z.log2_nonneg q). pose proof (Z.log2_nonneg b).
  pose proof (Z.log2_spec q Hq) as [Hlo Hhi].
  set (e0 := Z.log2 (q * b) - Z.log2 b) in *.
  assert (He0 : e0 = Z.log2 q ∨ e0 = Z.log2 q + 1) by lia.
  destruct (Z.leb_spec 0 e0); [| lia].
  destruct He0 as [-> | ->].
  - destruct (Z.ltb_spec (q * b) (b * 2 ^ Z.log2 q)); [nia | done].
  - replace (Z.succ (Z.log2 q)) with (Z.log2 q + 1) in Hhi by lia.
    destruct (Z.ltb_spec (q * b) (b * 2 ^ (Z.log2 q + 1))); [lia | nia].
Qed.

Lemma log2_below_53 (q : Z) : 0 < q < 2 ^ 53 → 0 <= Z.log2 q <= 52.
Proof.
  intros [Hq Hlt]. split; [apply Z.log2_nonneg |].
  enough (Z.log2 q < 53) by lia. apply Z.log2_lt_pow2; lia.
Qed.

Lemma true_divide_exact_pos (q b : Z) :
  0 < q < 2 ^ 53 → 0 < b →
  PyFloat.true_divide (q * b) b
  = Ok (PyFloat.mk (q * 2 ^ (52 - Z.log2 q)) (- (52 - Z.log2 q))).
Proof.
  intros Hq Hb. pose proof (log2_below_53 q Hq) as Hl.
  pose proof (Z.log2_spec q ltac:(lia)) as [Hlo Hhi].
  unfold PyFloat.true_divide.
  destruct (Z.eqb_spec b 0); [lia |].
  destruct (Z.eqb_spec (q * b) 0); [nia |].
  rewrite (Z.abs_eq (q * b)) by nia. rewrite (Z.abs_eq b) by lia.
  rewrite quot_log2_exact by lia.
  rewrite (Z.sgn_pos (q * b)) by nia. rewrite (Z.sgn_pos b) by lia.
  unfold PyFloat.MANT_DIG, PyFloat.MIN_EXP, PyFloat.MAX_EXP.
  rewrite Z.max_l by lia.
  set (k := 52 - Z.log2 q).
  replace (Z.log2 q - (53 - 1)) with (- k) by lia.
  assert (Hk : 0 <= k <= 52) by lia.
  assert (Hm : q * 2 ^ k < 2 ^ 53).
  { replace 53 with (Z.succ (Z.log2 q) + k) by lia.
    rewrite Z.pow_add_r by lia. pose proof (Z.pow_pos_nonneg 2 k). nia. }
  assert (Hscaled : PyFloat.scaled (q * b) b (- k)
                    = (q * 2 ^ k * b, b) ∨
                    (k = 0 ∧ PyFloat.scaled (q * b) b (- k) = (q * b, b * 1))).
  { unfold PyFloat.scaled. destruct (Z.leb_spec 0 (- k)).
    - right. assert (k = 0) as -> by lia. done.
    - left. rewrite Z.opp_involutive. f_equal. lia. }
  assert (Hround : (let '(n, d) := PyFloat.scaled (q * b) b (- k) in
                    PyFloat.round_half_even n d) = q * 2 ^ k).
  { destruct Hscaled as [-> | [-> ->]].
    - by apply round_half_even_exact.
    - rewrite Z.mul_1_r, Z.pow_0_r, Z.mul_1_r. by apply round_half_even_exact. }
  destruct (PyFloat.scaled (q * b) b (- k)) as [num den].
  rewrite Hround. unfold PyFloat.scaled.
  destruct (Z.leb_spec 0 (1024 - - k)); [| lia].
  assert (2 ^ 53 <= 2 ^ (1024 - - k)) by (apply Z.pow_le_mono_r; lia).
  destruct (Z.leb_spec (1 * 2 ^ (1024 - - k)) (q * 2 ^ k)); [lia |].
  by rewrite Z.mul_1_l.
Qed.

Lemma true_divide_opp (a b : Z) (m e : Z) :
  0 < b →
  PyFloat.true_divide a b = Ok (PyFloat.mk m e) →
  0 < a →
  PyFloat.true_divide (- a) b = Ok (PyFloat.mk (- m) e).
Proof.
  intros Hb Hdiv Ha. unfold PyFloat.true_divide in *.
  destruct (Z.eqb_spec b 0); [lia |].
  destruct (Z.eqb_spec a 0); [lia |].
  destruct (Z.eqb_spec (- a) 0); [lia |].
  rewrite Z.abs_opp. rewrite Z.sgn_opp.
  rewrite (Z.sgn_pos a) in * by lia. rewrite (Z.sgn_pos b) in * by lia.
  destruct (PyFloat.scaled (Z.abs a) _ _) as [num den].
  destruct (PyFloat.scaled (PyFloat.round_half_even num den) _ _) as [hi lo].
  destruct (lo <=? hi); [done |].
  injection Hdiv as <- <-. f_equal. f_equal. lia.
Qed.

(** On a multiple of the divisor with a quotient below [2^53] in absolute
    value the division is exact. *)
Lemma true_divide_exact (q b : Z) :
  Z.abs q < 2 ^ 53 → 0 < b →
  ∃ x, PyFloat.true_divide (q * b) b = Ok x ∧ holds_integer x q.
Proof.
  intros Hq Hb.
  destruct (Z.lt_trichotomy q 0) as [Hneg | [-> | Hpos]].
  - pose proof (true_divide_exact_pos (- q) b ltac:(lia) Hb) as Hdiv.
    apply true_divide_opp in Hdiv; [| lia | nia].
    replace (- (- q * b)) with (q * b) in Hdiv by lia.
    eexists. split; [exact Hdiv |].
    exists (52 - Z.log2 (- q)). pose proof (log2_below_53 (- q) ltac:(lia)).
    split; [lia |]. f_equal. lia.
  - exists (PyFloat.mk 0 0). split.
    + unfold PyFloat.true_divide. destruct (Z.eqb_spec b 0); [lia | done].
    + exists 0. done.
  - eexists. split; [apply true_divide_exact_pos; lia |].
    exists (52 - Z.log2 q). pose proof (log2_below_53 q ltac:(lia)).
    split; [lia | done].
Qed.

Lemma ceil_holds_integer (x : PyFloat.float) (q : Z) :
  holds_integer x q → PyFloat.ceil x = q.
Proof.
  intros (k & Hk & ->). unfold PyFloat.ceil. cbn.
  destruct (Z.leb_spec 0 (- k)).
  - assert (k = 0) as -> by lia. cbn. lia.
  - rewrite Z.opp_involutive. rewrite <- Z.mul_opp_l.
    rewrite Z.div_mul; [lia |]. pose proof (Z.pow_pos_nonneg 2 k). lia.
Qed.

Lemma lt_holds_integer (x y : PyFloat.float) (p q : Z) :
  holds_integer x p → holds_integer y q →
  PyFloat.lt x y = (p <? q).
Proof.
  intros (k & Hk & ->) (j & Hj & ->). unfold PyFloat.lt. cbn.
  set (e := Z.min (- k) (- j)).
  assert (He : 0 <= - k - e ∧ 0 <= - j - e) by lia.
  rewrite <- !Z.mul_assoc, <- !Z.pow_add_r by lia.
  replace (k + (- k - e)) with (- e) by lia.
  replace (j + (- j - e)) with (- e) by lia.
  pose proof (Z.pow_pos_nonneg 2 (- e) ltac:(lia) ltac:(lia)).
  destruct (Z.ltb_spec p q), (Z.ltb_spec (p * 2 ^ (- e)) (q * 2 ^ (- e))); try done; nia.
Qed.

Lemma max_holds_integer (x y : PyFloat.float) (p q : Z) :
  holds_integer x p → holds_integer y q →
  holds_integer (PyFloat.max x y) (Z.max p q).
Proof.
  intros Hx Hy. unfold PyFloat.max. rewrite (lt_holds_integer x y p q Hx Hy).
  destruct (Z.ltb_spec p q).
  - by rewrite Z.max_r by lia.
  - by rewrite Z.max_l by lia.
Qed.

(** The division does not overflow on operands a ledger can hold. *)
Lemma true_divide_no_overflow (a b : Z) :
  0 < b → Z.abs a < 2 ^ 1000 → ∃ x, PyFloat.true_divide a b = Ok x.
Proof.
  intros Hb Ha. unfold PyFloat.true_divide.
  destruct (Z.eqb_spec b 0); [lia |].
  destruct (Z.eqb_spec a 0); [by eexists |].
  rewrite (Z.abs_eq b) by lia.
  set (a' := Z.abs a) in *. assert (Ha' : 0 < a') by lia.
  set (shift := Z.max _ _).
  assert (Hshift : -1074 <= shift <= 950).
  { subst shift. unfold PyFloat.quot_log2, PyFloat.MANT_DIG, PyFloat.MIN_EXP.
    assert (Z.log2 a' < 1000) by (apply Z.log2_lt_pow2; lia).
    pose proof (Z.log2_nonneg b).
    destruct (PyFloat.scaled a' b _) as [num den]. destruct (num <? den); lia. }
  assert (Hm : ∀ num den, PyFloat.scaled a' b shift = (num, den) →
                      PyFloat.round_half_even num den < 2 ^ (1024 - shift)).
  { intros num den. unfold PyFloat.scaled.
    destruct (Z.leb_spec 0 shift); intros [= <- <-].
    - pose proof (Z.pow_pos_nonneg 2 shift ltac:(lia) ltac:(lia)).
      pose proof (round_half_even_bound a' (b * 2 ^ shift) ltac:(lia) ltac:(nia)).
      assert (Hsplit : 2 ^ 1000 = 2 ^ shift * 2 ^ (1000 - shift)).
      { rewrite <- Z.pow_add_r by lia. f_equal. lia. }
      assert (a' / (b * 2 ^ shift) < 2 ^ (1000 - shift)).
      { apply Z.div_lt_upper_bound; [nia |].
        pose proof (Z.pow_pos_nonneg 2 (1000 - shift) ltac:(lia) ltac:(lia)). nia. }
      assert (2 ^ (1000 - shift) < 2 ^ (1024 - shift))
        by (apply Z.pow_lt_mono_r; lia).
      lia.
    - pose proof (Z.pow_pos_nonneg 2 (- shift) ltac:(lia) ltac:(lia)).
      pose proof (round_half_even_bound (a' * 2 ^ (- shift)) b ltac:(nia) ltac:(lia)).
      assert (a' * 2 ^ (- shift) / b <= a' * 2 ^ (- shift)).
      { apply Z.div_le_upper_bound; [lia |]. nia. }
      assert (2 ^ (1024 - shift) = 2 ^ 1024 * 2 ^ (- shift)) as ->.
      { rewrite <- Z.pow_add_r by lia. reflexivity. }
      assert (2 ^ 1024 = 2 ^ 24 * 2 ^ 1000) as -> by (by rewrite <- Z.pow_add_r).
      assert (2 ^ 24 = 16777216) as -> by done.
      nia. }
  destruct (PyFloat.scaled a' b shift) as [num den].
  specialize (Hm num den eq_refl).
  unfold PyFloat.scaled, PyFloat.MAX_EXP.
  destruct (Z.leb_spec 0 (1024 - shift)); [| lia].
  destruct (Z.leb_spec (1 * 2 ^ (1024 - shift)) (PyFloat.round_half_even num den)); [lia |].
  by eexists.
Qed.

(** ** Waiting for a contract call *)

Lemma gen_bind_returned {St A B} (m : Generator.Gen St A) (k : A → Generator.Gen St B)
    (s s' : St) (a : A) :
  m s = Generator.Returned a s' → (m ≫= k) s = k a s'.
Proof.
  intros Hm. unfold mbind, Generator.gen_mbind, Generator.gen_bind. by rewrite Hm.
Qed.

Lemma iter_frame {St A} (g : St → A) (f : St → St) (n : nat) (s : St) :
  (∀ s, g (f s) = g s) → g (Nat.iter n f s) = g s.
Proof.
  intros Hframe. induction n as [| n IH]; cbn; [done |]. by rewrite Hframe.
Qed.

(** A call that fails [k] times and then answers [v] is waited for with
    more than [k] attempts: the answers up to [v] are consumed and [v] is
    stored. *)
Lemma wait_for_contract_interact {St V} (responses : St → list (option V))
    (consume : St → St) (placeholder : V → St → St)
    (fuel k : nat) (v : V) (rest : list (option V)) (s : St) :
  (∀ s, responses (consume s) = tail (responses s)) →
  responses s = replicate k None ++ Some v :: rest →
  (k < fuel)%nat →
  Generator.wait_for_condition_with_sleep fuel
    (Generator.contract_interact responses consume placeholder) s
  = Generator.Returned tt (placeholder v (Nat.iter (S k) consume s)).
Proof.
  intros Hconsume. revert fuel s.
  induction k as [| k IH]; intros fuel s Hresp Hfuel;
    (destruct fuel as [| fuel]; [lia |]); cbn [Generator.wait_for_condition_with_sleep].
  - erewrite gen_bind_returned; last first.
    { unfold Generator.contract_interact. by rewrite Hresp. }
    reflexivity.
  - erewrite gen_bind_returned; last first.
    { unfold Generator.contract_interact. by rewrite Hresp. }
    cbn. unfold mbind, Generator.gen_mbind, Generator.gen_bind, Generator.sleep,
      Generator.gen_ret.
    rewrite (IH fuel (consume s)); [| by rewrite Hconsume, Hresp | lia].
    by rewrite <- Nat.iter_succ_r.
Qed.

(** ** The staking KPI *)

Import CheckStopTrading.

Lemma ledger_iter (pop : Ledger → Ledger) (n : nat) (s : State) :
  ledger (Nat.iter n (with_ledger pop) s) = Nat.iter n pop (ledger s).
Proof.
  induction n as [| n IH]; [done |].
  rewrite !Nat.iter_succ, <- IH. reflexivity.
Qed.

Lemma attrs_iter (pop : Ledger → Ledger) (n : nat) (s : State) :
  attrs (Nat.iter n (with_ledger pop) s) = attrs s.
Proof. by apply (iter_frame attrs). Qed.

(** One fetch: the value arrives in its attribute, the other attributes
    and the other calls' answers are as before. *)
Lemma wait_fetch {V} (q : Ledger → list (option V)) (pop : Ledger → Ledger)
    (set : V → Attrs → Attrs) (fuel k : nat) (v : V) rest (s : State) :
  (∀ l, q (pop l) = tail (q l)) →
  q (ledger s) = replicate k None ++ Some v :: rest →
  (k < fuel)%nat →
  ∃ s', Generator.wait_for_condition_with_sleep fuel
          (Generator.contract_interact (fun s => q (ledger s)) (with_ledger pop)
             (fun v => with_attrs (set v))) s
        = Generator.Returned tt s'
        ∧ attrs s' = set v (attrs s)
        ∧ ledger s' = Nat.iter (S k) pop (ledger s).
Proof.
  intros Hpop Hq Hfuel. eexists. split.
  - apply (wait_for_contract_interact (fun s => q (ledger s))) with (rest := rest);
      [intros s0; apply Hpop | done | done].
  - split.
    + rewrite <- (attrs_iter pop (S k) s). reflexivity.
    + rewrite <- ledger_iter. reflexivity.
Qed.

Lemma gen_bind_gets {St A B} (f : St → A) (k : A → Generator.Gen St B) (s : St) :
  (Generator.gets f ≫= k) s = k (f s) s.
Proof. reflexivity. Qed.

Lemma gen_bind_lift_ok {St A B} (a : A) (k : A → Generator.Gen St B) (s : St) :
  (Generator.lift_exc (Ok a) ≫= k) s = k a s.
Proof. reflexivity. Qed.

Lemma wait_for_condition_ext {St} (fuel : nat) (c1 c2 : Generator.Gen St bool) (s : St) :
  (∀ s, c1 s = c2 s) →
  Generator.wait_for_condition_with_sleep fuel c1 s
  = Generator.wait_for_condition_with_sleep fuel c2 s.
Proof.
  intros Hext. revert s. induction fuel as [| fuel IH]; intros s; [done |].
  cbn [Generator.wait_for_condition_with_sleep].
  unfold mbind, Generator.gen_mbind, Generator.gen_bind. rewrite Hext.
  destruct (c2 s) as [[] s' | |]; [done | | done | done].
  unfold Generator.sleep, Generator.gen_ret. apply IH.
Qed.

Lemma get_mech_request_count_unfold (s : State) :
  _get_mech_request_count s
  = Generator.contract_interact (fun s => requests_count_calls (ledger s))
      (with_ledger pop_requests_count)
      (fun v => with_attrs (set_mech_request_count v)) s.
Proof.
  unfold _get_mech_request_count, mbind, Generator.gen_mbind, Generator.gen_bind.
  by destruct (Generator.contract_interact _ _ _ s).
Qed.

Ltac frame q :=
  repeat match goal with
         | H : ledger _ = Nat.iter _ ?pop _ |- _ => rewrite H, (iter_frame q pop) by done
         end.

(** The exact formula on two multiples of the scale. *)
Lemma spec_required_on_multiples (D P R p q : Z) :
  D * R = p * 10 ^ 18 → P * R = q * 10 ^ 18 →
  spec_required_mech_requests D P R = Z.max p q + 1.
Proof.
  intros HD HP. unfold spec_required_mech_requests, ceil_div. rewrite HD, HP.
  rewrite Z.mul_max_distr_nonneg_r by lia.
  by rewrite <- Z.mul_opp_l, Z.div_mul, Z.opp_involutive by lia.
Qed.

(** C1 (amended): for a staked service whose fetches answer [C], [C0],
    [L], [P] and [R], the function returns, and it returns [True] exactly
    when [C - C0] reaches the ceiling of the greater of the two quotients
    [(now - L) * R / 10^18] and [P * R / 10^18], each rounded to the
    nearest double, plus one. When both products are multiples of [10^18]
    with quotients below [2^53] this is the exact formula; for
    [R = 10^18], [P = 3600] and [now - L = 3600] it is [3601]. *)
Theorem staking_kpi_threshold
    (fuel : nat) (ctx : Context) (s : State)
    (k1 k2 k3 k4 k5 k6 : nat)
    (r1 : list (option StakingState)) (r2 r4 r5 r6 : list (option Z))
    (r3 : list (option pyval))
    (C C0 L P R : Z) (info : pyval)
    (Hstaked : staking_state_calls (ledger s) = replicate k1 None ++ Some STAKED :: r1)
    (Hcount : requests_count_calls (ledger s) = replicate k2 None ++ Some C :: r2)
    (Hinfo : service_info_calls (ledger s) = replicate k3 None ++ Some info :: r3)
    (Hnonce : (py_getitem info 2 ≫= fun nonces => py_getitem nonces 1) = Ok (PInt C0))
    (Hts : ts_checkpoint_calls (ledger s) = replicate k4 None ++ Some L :: r4)
    (Hperiod : liveness_period_calls (ledger s) = replicate k5 None ++ Some P :: r5)
    (Hratio : liveness_ratio_calls (ledger s) = replicate k6 None ++ Some R :: r6)
    (Hfuel : (k1 < fuel ∧ k2 < fuel ∧ k3 < fuel ∧ k4 < fuel ∧ k5 < fuel ∧ k6 < fuel)%nat)
    (HDR : Z.abs ((synced_timestamp ctx - L) * R) < 2 ^ 1000)
    (HPR : Z.abs (P * R) < 2 ^ 1000) :
  ∃ x y s',
    PyFloat.true_divide ((synced_timestamp ctx - L) * R) (10 ^ 18) = Ok x
    ∧ PyFloat.true_divide (P * R) (10 ^ 18) = Ok y
    ∧ is_staking_kpi_met fuel ctx s
      = Generator.Returned (bool_decide (PyFloat.ceil (PyFloat.max x y) + 1 <= C - C0)) s'
    ∧ (∀ p q, (synced_timestamp ctx - L) * R = p * 10 ^ 18 → P * R = q * 10 ^ 18 →
              Z.abs p < 2 ^ 53 → Z.abs q < 2 ^ 53 →
              PyFloat.ceil (PyFloat.max x y) + 1
              = spec_required_mech_requests (synced_timestamp ctx - L) P R)
    ∧ (R = 10 ^ 18 → P = 3600 → synced_timestamp ctx - L = 3600 →
       PyFloat.ceil (PyFloat.max x y) + 1 = 3601).
Proof.
  destruct Hfuel as (Hk1 & Hk2 & Hk3 & Hk4 & Hk5 & Hk6).
  destruct (true_divide_no_overflow ((synced_timestamp ctx - L) * R) (10 ^ 18)
              ltac:(done) HDR) as [x Hx].
  destruct (true_divide_no_overflow (P * R) (10 ^ 18) ltac:(done) HPR) as [y Hy].
  assert (Hexact : ∀ p q, (synced_timestamp ctx - L) * R = p * 10 ^ 18 →
                          P * R = q * 10 ^ 18 →
                          Z.abs p < 2 ^ 53 → Z.abs q < 2 ^ 53 →
                          PyFloat.ceil (PyFloat.max x y) + 1 = Z.max p q + 1).
  { intros p q Hp Hq Hpb Hqb.
    destruct (true_divide_exact p (10 ^ 18) Hpb ltac:(done)) as (x' & Hx' & Hxp).
    destruct (true_divide_exact q (10 ^ 18) Hqb ltac:(done)) as (y' & Hy' & Hyq).
    rewrite <- Hp, Hx in Hx'. rewrite <- Hq, Hy in Hy'.
    injection Hx' as <-. injection Hy' as <-.
    by rewrite (ceil_holds_integer _ _ (max_holds_integer _ _ _ _ Hxp Hyq)). }
  exists x, y.
  destruct (wait_fetch staking_state_calls pop_staking_state set_service_staking_state
              fuel k1 STAKED r1 s ltac:(done) Hstaked Hk1) as (s1 & Hw1 & Ha1 & Hl1).
  destruct (wait_fetch requests_count_calls pop_requests_count set_mech_request_count
              fuel k2 C r2 s1 ltac:(done)
              ltac:(frame requests_count_calls; exact Hcount) Hk2)
    as (s2 & Hw2 & Ha2 & Hl2).
  destruct (wait_fetch service_info_calls pop_service_info set_service_info
              fuel k3 info r3 s2 ltac:(done)
              ltac:(frame service_info_calls; exact Hinfo) Hk3)
    as (s3 & Hw3 & Ha3 & Hl3).
  destruct (wait_fetch ts_checkpoint_calls pop_ts_checkpoint set_ts_checkpoint
              fuel k4 L r4 s3 ltac:(done)
              ltac:(frame ts_checkpoint_calls; exact Hts) Hk4)
    as (s4 & Hw4 & Ha4 & Hl4).
  destruct (wait_fetch liveness_period_calls pop_liveness_period set_liveness_period
              fuel k5 P r5 s4 ltac:(done)
              ltac:(frame liveness_period_calls; exact Hperiod) Hk5)
    as (s5 & Hw5 & Ha5 & Hl5).
  destruct (wait_fetch liveness_ratio_calls pop_liveness_ratio set_liveness_ratio
              fuel k6 R r6 s5 ltac:(done)
              ltac:(frame liveness_ratio_calls; exact Hratio) Hk6)
    as (s6 & Hw6 & Ha6 & Hl6).
  exists s6. split_and!; [done | done | | |].
  - unfold is_staking_kpi_met.
    rewrite (gen_bind_returned _ _ _ _ _ Hw1), gen_bind_gets, Ha1.
    cbn [service_staking_state set_service_staking_state].
    rewrite bool_decide_eq_false_2 by (intros Hne; by apply Hne).
    erewrite gen_bind_returned; last first.
    { erewrite wait_for_condition_ext; [exact Hw2 | apply get_mech_request_count_unfold]. }
    rewrite gen_bind_gets, Ha2. cbn [mech_request_count set_mech_request_count].
    rewrite (gen_bind_returned _ _ _ _ _ Hw3), gen_bind_gets, Ha3.
    cbn [service_info set_service_info].
    rewrite Hnonce, gen_bind_lift_ok.
    rewrite (gen_bind_returned _ _ _ _ _ Hw4), gen_bind_gets, Ha4.
    cbn [ts_checkpoint set_ts_checkpoint].
    rewrite (gen_bind_returned _ _ _ _ _ Hw5), gen_bind_gets, Ha5.
    cbn [liveness_period set_liveness_period].
    rewrite (gen_bind_returned _ _ _ _ _ Hw6), gen_bind_gets, Ha6.
    cbn [liveness_ratio set_liveness_ratio py_int].
    rewrite gen_bind_lift_ok.
    unfold required_mech_requests, LIVENESS_RATIO_SCALE_FACTOR,
      REQUIRED_MECH_REQUESTS_SAFETY_MARGIN.
    rewrite Hx, Hy. cbn [mbind exc_mbind exc_bind mret exc_mret].
    rewrite gen_bind_lift_ok.
    by destruct (Z.leb_spec (PyFloat.ceil (PyFloat.max x y) + 1) (C - C0));
      [rewrite bool_decide_eq_true_2 | rewrite bool_decide_eq_false_2 by lia].
  - intros p q Hp Hq Hpb Hqb.
    rewrite (Hexact p q Hp Hq Hpb Hqb). symmetry. by apply spec_required_on_multiples.
  - intros -> -> HD. apply (Hexact 3600 3600); [rewrite HD | | |]; done.
Qed.

(** C1 (as stated, refuted): with a ratio of [10^18 + 1] and one second
    since the last checkpoint the exact formula asks for three requests,
    yet the function answers [True] with two, because the quotient is
    rounded to [1.0] before the ceiling is taken. *)
Lemma staking_kpi_exact_formula_fails :
  Generator.returned_value
    (is_staking_kpi_met 3 (KpiExamples.context_at 1 1) KpiExamples.rounding)
  = Some true
  ∧ ¬ (spec_required_mech_requests (1 - 0) 0 (10 ^ 18 + 1) <= 2 - 0).
Proof. split; [reflexivity | by vm_compute]. Qed.

Lemma staking_kpi_threshold_witness :
  (staking_state_calls (ledger (KpiExamples.hourly 3601))
   = replicate 1 None ++ Some STAKED :: []
   ∧ Z.abs ((synced_timestamp (KpiExamples.context_at 1 4600) - 1000) * 10 ^ 18) < 2 ^ 1000
   ∧ Z.abs (3600 * 10 ^ 18) < 2 ^ 1000)
  ∧ Generator.returned_value
      (is_staking_kpi_met 3 (KpiExamples.context_at 1 4600) (KpiExamples.hourly 3601))
    = Some true.
Proof.
  split; [split_and!; [reflexivity | by vm_compute | by vm_compute] |].
  destruct (staking_kpi_threshold 3 (KpiExamples.context_at 1 4600)
              (KpiExamples.hourly 3601) 1 0 2 0 0 0 [] [] [] [] [] []
              3701 100 1000 3600 (10 ^ 18)
              (PSeq [PStr "multisig"; PStr "owner"; PSeq [PInt 7; PInt 100]; PInt 0])
              eq_refl eq_refl eq_refl eq_refl eq_refl eq_refl eq_refl
              ltac:(cbv; repeat split; lia) ltac:(by vm_compute) ltac:(by vm_compute))
    as (x & y & s' & _ & _ & Hrun & _ & Hexample).
  rewrite Hrun, (Hexample eq_refl eq_refl eq_refl). reflexivity.
Defined.

(** At the boundary: 3601 requests meet the KPI, 3600 do not. *)
Example staking_kpi_boundary :
  Generator.returned_value
    (is_staking_kpi_met 3 (KpiExamples.context_at 1 4600) (KpiExamples.hourly 3601))
  = Some true
  ∧ Generator.returned_value
      (is_staking_kpi_met 3 (KpiExamples.context_at 1 4600) (KpiExamples.hourly 3600))
    = Some false.
Proof. split; reflexivity. Qed.

(** ** The first period *)

(** C9: in the first period [async_act] sends the payload with
    [stop_trading = False] whatever the parameters are, and without a
    single contract call; from the second period on the payload carries
    [disable_trading], joined with the staking KPI when that check is
    switched on. *)
Theorem first_period_never_stops_trading (fuel : nat) (ctx : Context) (s : State) :
  (period_count ctx = 0 →
   async_act fuel ctx s
   = Generator.Returned tt
       {| attrs := attrs s; ledger := ledger s;
          outbox := outbox s ++ [{| sender := agent_address ctx; stop_trading := false |}];
          is_done := true |})
  ∧ (period_count ctx ≠ 0 →
     stop_trading_if_staking_kpi_met (params ctx) = false →
     async_act fuel ctx s
     = Generator.Returned tt
         {| attrs := attrs s; ledger := ledger s;
            outbox := outbox s ++ [{| sender := agent_address ctx;
                                      stop_trading := disable_trading (params ctx) |}];
            is_done := true |})
  ∧ (period_count ctx ≠ 0 →
     stop_trading_if_staking_kpi_met (params ctx) = true →
     ∀ staking_kpi_met s',
       is_staking_kpi_met fuel ctx s = Generator.Returned staking_kpi_met s' →
       async_act fuel ctx s
       = Generator.Returned tt
           {| attrs := attrs s'; ledger := ledger s';
              outbox := outbox s' ++ [{| sender := agent_address ctx;
                                         stop_trading := disable_trading (params ctx)
                                                         || staking_kpi_met |}];
              is_done := true |}).
Proof.
  unfold async_act, is_first_period. split_and!.
  - intros ->. reflexivity.
  - intros Hperiod ->. destruct (Z.eqb_spec (period_count ctx) 0); [done |].
    by destruct (disable_trading (params ctx)).
  - intros Hperiod -> kpi s' Hkpi. destruct (Z.eqb_spec (period_count ctx) 0); [done |].
    cbv iota zeta.
    erewrite gen_bind_returned; last first.
    { erewrite gen_bind_returned; last first.
      { erewrite gen_bind_returned; [| exact Hkpi]. reflexivity. }
      reflexivity. }
    by destruct (disable_trading (params ctx)), kpi.
Qed.

Lemma first_period_never_stops_trading_witness :
  period_count (KpiExamples.context_at 0 4600) = 0
  ∧ async_act 0 (KpiExamples.context_at 0 4600) (KpiExamples.hourly 3601)
    = Generator.Returned tt
        {| attrs := KpiExamples.initial_attrs;
           ledger := ledger (KpiExamples.hourly 3601);
           outbox := [{| sender := "agent_0"; stop_trading := false |}];
           is_done := true |}.
Proof.
  split; [reflexivity |].
  exact (proj1 (first_period_never_stops_trading 0 (KpiExamples.context_at 0 4600)
                  (KpiExamples.hourly 3601)) eq_refl).
Defined.

(** ** The subscription purchase *)

Section Purchase.
Import OrderSubscription.
Variable N : Nevermined.
Variable Round : SubscriptionRound.
Variable ctx : Context.

Ltac run_step :=
  unfold Generator.contract_interact, Generator.gets, Generator.modify,
    mbind, Generator.gen_mbind, Generator.gen_bind, mret, Generator.gen_mret,
    Generator.gen_ret.

Lemma should_purchase_off (s : State N) :
  use_nevermined ctx = false →
  _should_purchase N ctx s = Generator.Returned false s.
Proof. intros Hoff. unfold _should_purchase. by rewrite Hoff. Qed.

Lemma should_purchase_failed (s : State N) rest :
  use_nevermined ctx = true →
  balance_of_calls N s = None :: rest →
  _should_purchase N ctx s = Generator.Returned false (pop_balance_of N s).
Proof.
  intros Hon Hcall. unfold _should_purchase, _get_balance. rewrite Hon.
  run_step. cbn. by rewrite Hcall.
Qed.

Lemma should_purchase_balance (s : State N) b rest :
  use_nevermined ctx = true →
  balance_of_calls N s = Some b :: rest →
  _should_purchase N ctx s
  = Generator.Returned (b <=? 0) (set_balance N b (pop_balance_of N s)).
Proof.
  intros Hon Hcall. unfold _should_purchase, _get_balance. rewrite Hon.
  run_step. cbn. by rewrite Hcall.
Qed.

Lemma prepare_approval_tx_failed (s : State N) p rest :
  build_approval_tx_calls N s = None :: rest →
  _prepare_approval_tx N p s = Generator.Returned false (pop_build_approval_tx N s).
Proof. intros Hcall. unfold _prepare_approval_tx. run_step. cbn. by rewrite Hcall. Qed.

Lemma prepare_approval_tx_built (s : State N) p tx rest :
  build_approval_tx_calls N s = Some tx :: rest →
  _prepare_approval_tx N p s
  = Generator.Returned true
      (append_batch N {| to := ap_token p; data := HexBytes N tx |}
         (set_approval_tx N tx (pop_build_approval_tx N s))).
Proof. intros Hcall. unfold _prepare_approval_tx. run_step. cbn. by rewrite Hcall. Qed.

Lemma get_purchase_params_unresolved (s : State N) rest :
  resolve_did_calls N s = None :: rest →
  _get_purchase_params N ctx s = Generator.Returned None (pop_resolve_did N s).
Proof.
  intros Hcall. unfold _get_purchase_params, _resolve_did. run_step. cbn.
  by rewrite Hcall.
Qed.

Lemma get_purchase_params_resolved (s : State N) did_doc rest :
  resolve_did_calls N s = Some did_doc :: rest →
  ∃ p, _get_purchase_params N ctx s
       = Generator.Returned (Some p)
           (set_agreement_id N
              (get_agreement_id N (zero_x_transformer N (generated_id ctx))
                 (safe_contract_address ctx))
              (pop_resolve_did N s))
       ∧ pp_contract_address p = order_address ctx.
Proof.
  intros Hcall. unfold _get_purchase_params, _resolve_did, _get_condition_ids.
  run_step. cbn. rewrite Hcall. cbn.
  destruct (get_lock_payment_seed N _ _ _ _ _ _ _) as [lock_seed lock_id].
  destruct (get_transfer_nft_condition_seed N _ _ _ _ _ _ _) as [nft_seed nft_id].
  destruct (get_escrow_payment_seed N _ _ _ _ _ _ _ _ _) as [escrow_seed escrow_id].
  destruct (get_timeouts_and_timelocks N did_doc) as [timeouts timelocks].
  eexists. split; reflexivity.
Qed.

Lemma prepare_order_tx_failed (s : State N) p rest :
  build_order_tx_calls N s = None :: rest →
  _prepare_order_tx N p s = Generator.Returned false (pop_build_order_tx N s).
Proof. intros Hcall. unfold _prepare_order_tx. run_step. cbn. by rewrite Hcall. Qed.

Lemma prepare_order_tx_built (s : State N) p tx rest :
  build_order_tx_calls N s = Some tx :: rest →
  _prepare_order_tx N p s
  = Generator.Returned true
      (append_batch N {| to := pp_contract_address p; data := HexBytes N tx |}
         (set_order_tx N tx (pop_build_order_tx N s))).
Proof. intros Hcall. unfold _prepare_order_tx. run_step. cbn. by rewrite Hcall. Qed.

(** C6 (amended): [get_payload_content] raises in none of these cases.
    With subscriptions switched off, on a failed balance call and on a
    positive balance it returns the no-transaction sentinel; on a failed
    approval build, an unresolved document or a failed order build it
    returns the error sentinel. In each case the calls of the later
    steps are not made. When every step succeeds it returns the
    transaction hash that was built. *)
Theorem purchase_flow_outcomes (fuel : nat) (s : State N) :
  (use_nevermined ctx = false →
   get_payload_content N Round ctx fuel s
   = Generator.Returned (NO_TX_PAYLOAD Round) s)
  ∧ (use_nevermined ctx = true →
     ∀ rb, balance_of_calls N s = None :: rb →
     get_payload_content N Round ctx fuel s
     = Generator.Returned (NO_TX_PAYLOAD Round) (pop_balance_of N s))
  ∧ (use_nevermined ctx = true →
     ∀ b rb, balance_of_calls N s = Some b :: rb →
     let s_balance := set_balance N b (pop_balance_of N s) in
     (0 < b →
      get_payload_content N Round ctx fuel s
      = Generator.Returned (NO_TX_PAYLOAD Round) s_balance)
     ∧ (b <= 0 →
        (∀ ra, build_approval_tx_calls N s = None :: ra →
         get_payload_content N Round ctx fuel s
         = Generator.Returned (ERROR_PAYLOAD Round)
             (pop_build_approval_tx N s_balance))
        ∧ (∀ approval ra, build_approval_tx_calls N s = Some approval :: ra →
           let s_approval :=
             append_batch N {| to := payment_token ctx; data := HexBytes N approval |}
               (set_approval_tx N approval (pop_build_approval_tx N s_balance)) in
           (∀ rd, resolve_did_calls N s = None :: rd →
            get_payload_content N Round ctx fuel s
            = Generator.Returned (ERROR_PAYLOAD Round) (pop_resolve_did N s_approval))
           ∧ (∀ did_doc rd, resolve_did_calls N s = Some did_doc :: rd →
              let s_params :=
                set_agreement_id N
                  (get_agreement_id N (zero_x_transformer N (generated_id ctx))
                     (safe_contract_address ctx))
                  (pop_resolve_did N s_approval) in
              (∀ ro, build_order_tx_calls N s = None :: ro →
               get_payload_content N Round ctx fuel s
               = Generator.Returned (ERROR_PAYLOAD Round)
                   (pop_build_order_tx N s_params))
              ∧ (∀ order ro k data rm j tx rh,
                   build_order_tx_calls N s = Some order :: ro →
                   build_multisend_data_calls N s
                   = replicate k None ++ Some data :: rm →
                   build_multisend_safe_tx_hash_calls N s
                   = replicate j None ++ Some tx :: rh →
                   (k < fuel)%nat → (j < fuel)%nat →
                   ∃ s', get_payload_content N Round ctx fuel s
                         = Generator.Returned tx s'))))).
Proof.
  split_and!.
  - intros Hoff. unfold get_payload_content.
    by rewrite (gen_bind_returned _ _ _ _ _ (should_purchase_off s Hoff)).
  - intros Hon rb Hb. unfold get_payload_content.
    by rewrite (gen_bind_returned _ _ _ _ _ (should_purchase_failed s rb Hon Hb)).
  - intros Hon b rb Hb s_balance.
    assert (Hshould := should_purchase_balance s b rb Hon Hb).
    fold s_balance in Hshould.
    split.
    { intros Hpos. unfold get_payload_content.
      rewrite (gen_bind_returned _ _ _ _ _ Hshould).
      by destruct (Z.leb_spec b 0); [lia |]. }
    intros Hneed.
    assert (Hstart : ∀ k : bool → Generator.Gen (State N) string,
              (_should_purchase N ctx ≫= k) s = k true s_balance).
    { intros k. rewrite (gen_bind_returned _ _ _ _ _ Hshould).
      by destruct (Z.leb_spec b 0); [| lia]. }
    split.
    { intros ra Ha. unfold get_payload_content. rewrite Hstart. cbn [negb].
      by erewrite gen_bind_returned
        by (apply prepare_approval_tx_failed with (rest := ra); exact Ha). }
    intros approval ra Ha s_approval.
    assert (Happroval : _prepare_approval_tx N (_get_approval_params ctx) s_balance
                        = Generator.Returned true s_approval).
    { by apply prepare_approval_tx_built with (rest := ra). }
    split.
    { intros rd Hd. unfold get_payload_content. rewrite Hstart. cbn [negb].
      rewrite (gen_bind_returned _ _ _ _ _ Happroval). cbn [negb].
      by erewrite gen_bind_returned
        by (apply get_purchase_params_unresolved with (rest := rd); exact Hd). }
    intros did_doc rd Hd s_params.
    destruct (get_purchase_params_resolved s_approval did_doc rd Hd)
      as (p & Hparams & Hto).
    fold s_params in Hparams.
    split.
    { intros ro Ho. unfold get_payload_content. rewrite Hstart. cbn [negb].
      rewrite (gen_bind_returned _ _ _ _ _ Happroval). cbn [negb].
      rewrite (gen_bind_returned _ _ _ _ _ Hparams).
      by erewrite gen_bind_returned
        by (apply prepare_order_tx_failed with (rest := ro); exact Ho). }
    intros order ro k data rm j tx rh Ho Hm Hh Hk Hj.
    eexists. unfold get_payload_content. rewrite Hstart. cbn [negb].
    rewrite (gen_bind_returned _ _ _ _ _ Happroval). cbn [negb].
    rewrite (gen_bind_returned _ _ _ _ _ Hparams).
    erewrite gen_bind_returned
      by (apply prepare_order_tx_built with (rest := ro); exact Ho).
    cbn [negb].
    erewrite gen_bind_returned; last first.
    { apply (wait_for_contract_interact (build_multisend_data_calls N))
        with (rest := rm); [done | exact Hm | exact Hk]. }
    erewrite gen_bind_returned; last first.
    { apply (wait_for_contract_interact (build_multisend_safe_tx_hash_calls N))
        with (rest := rh); [done | | exact Hj].
      rewrite <- Hh.
      match goal with
      | |- context [Nat.iter ?n ?f ?x] =>
          transitivity (build_multisend_safe_tx_hash_calls N (Nat.iter n f x));
          [reflexivity |];
          by rewrite (iter_frame (build_multisend_safe_tx_hash_calls N) f)
      end. }
    reflexivity.
Qed.
End Purchase.

(** C6 (as stated, refuted): when the balance call fails the payload is
    the no-transaction sentinel, not the error sentinel. *)
Lemma purchase_balance_failure_is_not_an_error :
  OrderSubscription.balance_of_calls PurchaseExamples.nevermined
    PurchaseExamples.balance_call_fails = [None]
  ∧ Generator.returned_value
      (OrderSubscription.get_payload_content PurchaseExamples.nevermined
         PurchaseExamples.round PurchaseExamples.context 1
         PurchaseExamples.balance_call_fails)
    = Some (OrderSubscription.NO_TX_PAYLOAD PurchaseExamples.round)
  ∧ OrderSubscription.NO_TX_PAYLOAD PurchaseExamples.round
    ≠ OrderSubscription.ERROR_PAYLOAD PurchaseExamples.round.
Proof. split_and!; [reflexivity | reflexivity | done]. Qed.

Lemma purchase_flow_outcomes_witness :
  OrderSubscription.use_nevermined PurchaseExamples.context = true
  ∧ OrderSubscription.balance_of_calls PurchaseExamples.nevermined
      PurchaseExamples.balance_call_fails = None :: []
  ∧ OrderSubscription.get_payload_content PurchaseExamples.nevermined
      PurchaseExamples.round PurchaseExamples.context 1
      PurchaseExamples.balance_call_fails
    = Generator.Returned "no_tx"
        (OrderSubscription.pop_balance_of PurchaseExamples.nevermined
           PurchaseExamples.balance_call_fails).
Proof.
  split; [reflexivity |]. split; [reflexivity |].
  exact (proj1 (proj2 (purchase_flow_outcomes PurchaseExamples.nevermined
                         PurchaseExamples.round PurchaseExamples.context 1
                         PurchaseExamples.balance_call_fails))
           eq_refl [] eq_refl).
Defined.

(** ** The request content *)

Section Content.
Import Requests.


Lemma utf8_encode_ascii (l : list Z) : ascii_only l → utf8_encode l = Ok l.
Proof.
  induction 1 as [| c l Hc _ IH]; [done |].
  cbn [utf8_encode]. unfold utf8_encode_char.
  destruct (Z.ltb_spec c 128); [| lia]. cbn. by rewrite IH.
Qed.

Lemma utf8_decode_ascii (l : list Z) : ascii_only l → utf8_decode l = Ok l.
Proof.
  induction 1 as [| c l Hc _ IH]; [done |].
  cbn [utf8_decode]. destruct (Z.ltb_spec c 128); [| lia]. by rewrite IH.
Qed.

Lemma hex_digit_range (d : Z) :
  0 <= d < 16 →
  (48 <= hex_digit d <= 57 ∨ 97 <= hex_digit d <= 102)
  ∧ hex_value (hex_digit d) = Some d.
Proof.
  intros Hd. unfold hex_digit, hex_value.
  destruct (Z.ltb_spec d 10).
  - split; [lia |].
    destruct (Z.leb_spec 48 (48 + d)), (Z.leb_spec (48 + d) 57); try lia.
    cbn. f_equal. lia.
  - split; [lia |].
    destruct (Z.leb_spec 48 (87 + d)), (Z.leb_spec (87 + d) 57); try lia; cbn;
      destruct (Z.leb_spec 97 (87 + d)), (Z.leb_spec (87 + d) 102); try lia;
      cbn; f_equal; lia.
Qed.

Lemma hex4_ascii (n : Z) : ascii_only (hex4 n).
Proof.
  unfold hex4. repeat constructor;
    match goal with
    | |- context [hex_digit ?d] =>
        pose proof (hex_digit_range d ltac:(apply Z.mod_pos_bound; lia)); lia
    end.
Qed.

Lemma decode_hex4 (n : Z) (rest : list Z) :
  0 <= n < 65536 → decode_uXXXX (hex4 n ++ rest) = Some (n, rest).
Proof.
  intros Hn. unfold hex4, decode_uXXXX. cbn [app].
  rewrite !(proj2 (hex_digit_range _ ltac:(apply Z.mod_pos_bound; lia))).
  cbn. do 2 f_equal. Z.to_euclidean_division_equations. lia.
Qed.


(** Bits that do not overlap add up. *)
Lemma lor_high_low (x y k : Z) :
  0 <= k → 0 <= y < 2 ^ k → Z.lor (x * 2 ^ k) y = x * 2 ^ k + y.
Proof.
  intros Hk Hy. rewrite <- Z.shiftl_mul_pow2 by lia.
  assert (Hdisjoint : Z.land (Z.shiftl x k) y = 0).
  { apply Z.bits_inj'. intros i Hi. rewrite Z.land_spec, Z.bits_0.
    destruct (Z.lt_ge_cases i k) as [Hlow | Hhigh].
    - by rewrite Z.shiftl_spec_low.
    - destruct (Z.eq_dec y 0) as [-> | Hy0]; [by rewrite Z.bits_0, andb_false_r |].
      rewrite (Z.bits_above_log2 y i), andb_false_r; [done | lia |].
      assert (Z.log2 y < k) by (apply Z.log2_lt_pow2; lia). lia. }
  by rewrite (Z.add_nocarry_lxor _ _ Hdisjoint), (Z.lxor_lor _ _ Hdisjoint).
Qed.

Lemma surrogates_of (n : Z) :
  0 <= n < 0x100000 →
  Z.lor 0xd800 (Z.land (Z.shiftr n 10) 0x3ff) = 0xd800 + n / 1024
  ∧ Z.lor 0xdc00 (Z.land n 0x3ff) = 0xdc00 + n mod 1024.
Proof.
  intros Hn.
  change 0x3ff with (Z.ones 10). rewrite !Z.land_ones by lia.
  rewrite Z.shiftr_div_pow2 by lia.
  change (2 ^ 10) with 1024.
  assert (0 <= n / 1024 < 1024) by (Z.to_euclidean_division_equations; lia).
  rewrite (Z.mod_small (n / 1024)) by lia.
  pose proof (Z.mod_pos_bound n 1024 ltac:(lia)).
  split.
  - change 0xd800 with (54 * 2 ^ 10). by rewrite lor_high_low.
  - change 0xdc00 with (55 * 2 ^ 10). by rewrite lor_high_low.
Qed.

Lemma combine_surrogates (n : Z) :
  0 <= n < 0x100000 →
  0x10000 + Z.lor (Z.shiftl (0xd800 + n / 1024 - 0xd800) 10)
              (0xdc00 + n mod 1024 - 0xdc00)
  = 0x10000 + n.
Proof.
  intros Hn. f_equal.
  replace (0xd800 + n / 1024 - 0xd800) with (n / 1024) by lia.
  replace (0xdc00 + n mod 1024 - 0xdc00) with (n mod 1024) by lia.
  rewrite Z.shiftl_mul_pow2 by lia.
  pose proof (Z.mod_pos_bound n 1024 ltac:(lia)).
  rewrite lor_high_low by (change (2 ^ 10) with 1024; lia).
  change (2 ^ 10) with 1024. Z.to_euclidean_division_equations. lia.
Qed.

Lemma replace_shape (c : Z) : code_point c → replacement c (replace c).
Proof.
  intros [Hlo Hhi]. unfold replace, ESCAPE_ASCII.
  destruct (Z.eqb_spec c 92) as [-> | H92]; [by apply (rep_short _ 92) |].
  destruct (Z.eqb_spec c 34) as [-> | H34]; [by apply (rep_short _ 34) |].
  destruct (Z.leb_spec 32 c), (Z.leb_spec c 126); cbn [orb andb negb];
    try (by apply rep_literal).
  - unfold ESCAPE_DCT.
    repeat match goal with
           | |- context [Z.eqb c ?k] => destruct (Z.eqb_spec c k); [lia |]
           end.
    destruct (Z.ltb_spec c 0x10000); [by apply rep_unicode |].
    destruct (surrogates_of (c - 0x10000) ltac:(lia)) as [-> ->].
    by apply rep_pair.
  - unfold ESCAPE_DCT.
    destruct (Z.eqb_spec c 92); [lia |]. destruct (Z.eqb_spec c 34); [lia |].
    destruct (Z.eqb_spec c 8) as [-> | ?]; [by apply (rep_short _ 98) |].
    destruct (Z.eqb_spec c 12) as [-> | ?]; [by apply (rep_short _ 102) |].
    destruct (Z.eqb_spec c 10) as [-> | ?]; [by apply (rep_short _ 110) |].
    destruct (Z.eqb_spec c 13) as [-> | ?]; [by apply (rep_short _ 114) |].
    destruct (Z.eqb_spec c 9) as [-> | ?]; [by apply (rep_short _ 116) |].
    destruct (Z.ltb_spec c 0x10000); [apply rep_unicode; lia | lia].
  - lia.
Qed.


Lemma u_escape_ascii (n : Z) : ascii_only (u_escape n).
Proof.
  unfold u_escape. apply Forall_cons_2; [lia |]. apply Forall_cons_2; [lia |].
  apply hex4_ascii.
Qed.

Lemma replacement_ascii (c : Z) (r : list Z) : replacement c r → ascii_only r.
Proof.
  destruct 1 as [? ? ? | esc ? Hesc | ? | ?].
  - repeat constructor; lia.
  - unfold BACKSLASH in Hesc.
    repeat match type of Hesc with
           | context [Z.eqb esc ?k] =>
               destruct (Z.eqb_spec esc k) as [-> | ?]; [repeat constructor; lia |]
           end.
    done.
  - apply u_escape_ascii.
  - apply Forall_app_2; apply u_escape_ascii.
Qed.

Lemma replacement_nonempty (c : Z) (r : list Z) : replacement c r → (1 <= length r)%nat.
Proof. destruct 1; cbn; lia. Qed.

(** What follows a replacement is never mistaken for the second half of
    a surrogate pair, unless the replaced code point is a low
    surrogate. *)
Lemma pair_surrogate_before_replacement (uni c : Z) (r rest : list Z) :
  replacement c r → low_surrogate c = false →
  pair_surrogate uni (r ++ rest) = Some (uni, r ++ rest).
Proof.
  intros Hr Hc. unfold pair_surrogate.
  destruct (high_surrogate uni); [| done].
  destruct Hr as [? H92 ? | esc Hesc ? | Hlow | Hhigh].
  - cbn [app]. destruct rest as [| c2 rest]; [done |].
    by destruct (Z.eqb_spec c 92).
  - cbn [app]. destruct (Z.eqb_spec esc 117); [done |]. by rewrite andb_false_r.
  - unfold u_escape. cbn [app Z.eqb andb Pos.eqb].
    rewrite decode_hex4 by lia. cbn. by rewrite Hc.
  - unfold u_escape. cbn [app Z.eqb andb Pos.eqb]. rewrite <- app_assoc.
    rewrite decode_hex4 by (Z.to_euclidean_division_equations; lia). cbn.
    unfold low_surrogate.
    destruct (Z.leb_spec 0xDC00 (0xd800 + (c - 0x10000) / 1024)); [| done].
    exfalso. Z.to_euclidean_division_equations. lia.
Qed.

Lemma pair_surrogate_before_quote (uni : Z) (rest : list Z) :
  pair_surrogate uni (34 :: rest) = Some (uni, 34 :: rest).
Proof.
  unfold pair_surrogate. destruct (high_surrogate uni); [| done].
  by destruct rest.
Qed.

(** Scanning one replacement gives back the code point it stands for. *)
Lemma scanstring_replacement (c : Z) (r rest : list Z) (fuel : nat) :
  replacement c r →
  pair_surrogate c rest = Some (c, rest) →
  scanstring (S fuel) (r ++ rest)
  = '(chars, rest') ← scanstring fuel rest; Some (c :: chars, rest').
Proof.
  intros Hr Hnext.
  destruct Hr as [H34 H92 Hrange | esc Hesc Hback | Hlow | Hhigh].
  - cbn [app scanstring].
    destruct (Z.eqb_spec c 34); [done |]. destruct (Z.eqb_spec c 92); [done |].
    by destruct (Z.ltb_spec c 32); [lia |].
  - cbn [app scanstring Z.eqb Pos.eqb].
    destruct (Z.eqb_spec esc 117); [done |]. by rewrite Hback.
  - unfold u_escape. cbn [app scanstring Z.eqb Pos.eqb].
    rewrite decode_hex4 by lia. cbn [mbind option_bind]. by rewrite Hnext.
  - unfold u_escape. cbn [app scanstring Z.eqb Pos.eqb]. rewrite <- app_assoc.
    rewrite decode_hex4 by (Z.to_euclidean_division_equations; lia).
    cbn [mbind option_bind app]. unfold pair_surrogate at 1.
    assert (Hh : high_surrogate (0xd800 + (c - 0x10000) / 1024) = true).
    { unfold high_surrogate. apply andb_true_intro.
      split; apply Z.leb_le; Z.to_euclidean_division_equations; lia. }
    rewrite Hh. cbn [Z.eqb Pos.eqb andb].
    rewrite decode_hex4 by (Z.to_euclidean_division_equations; lia).
    cbn [mbind option_bind].
    assert (Hl : low_surrogate (0xdc00 + (c - 0x10000) mod 1024) = true).
    { unfold low_surrogate. apply andb_true_intro.
      split; apply Z.leb_le; Z.to_euclidean_division_equations; lia. }
    rewrite Hl, combine_surrogates by lia.
    by replace (0x10000 + (c - 0x10000)) with c by lia.
Qed.

(** [py_scanstring] undoes [py_encode_basestring_ascii] on strings
    without a surrogate pair. *)
Lemma scanstring_encoded (q rest : list Z) (fuel : nat) :
  Forall code_point q → no_surrogate_pair q → (length q < fuel)%nat →
  scanstring fuel (concat (replace <$> q) ++ 34 :: rest) = Some (q, rest).
Proof.
  intros Hq. revert fuel.
  induction Hq as [| c q Hc Hq IH]; intros fuel Hpair Hfuel;
    (destruct fuel as [| fuel]; [cbn in Hfuel; lia |]).
  - reflexivity.
  - cbn [fmap list_fmap concat]. rewrite <- app_assoc.
    rewrite (scanstring_replacement c); [| by apply replace_shape |].
    + rewrite IH; [done | | cbn in Hfuel; lia].
      destruct q as [| c' q]; [done |]. by destruct Hpair.
    + destruct q as [| c' q]; [apply pair_surrogate_before_quote |].
      cbn [fmap list_fmap concat]. rewrite <- app_assoc.
      destruct Hpair as [Hpair _].
      destruct (high_surrogate c) eqn:Hhigh.
      * apply (pair_surrogate_before_replacement c c').
        -- apply replace_shape. by inversion Hq.
        -- destruct (low_surrogate c'); [by destruct Hpair | done].
      * unfold pair_surrogate. by rewrite Hhigh.
Qed.


Lemma encoded_ascii (q : list Z) :
  Forall code_point q → ascii_only (concat (replace <$> q)).
Proof.
  induction 1 as [| c q Hc _ IH]; [constructor |].
  cbn [fmap list_fmap concat]. apply Forall_app_2; [| done].
  by apply (replacement_ascii c), replace_shape.
Qed.

Lemma encoded_length (q : list Z) :
  Forall code_point q → (length q <= length (concat (replace <$> q)))%nat.
Proof.
  induction 1 as [| c q Hc _ IH]; [done |].
  cbn [fmap list_fmap concat]. rewrite length_app.
  pose proof (replacement_nonempty c _ (replace_shape c Hc)). cbn. lia.
Qed.

(** The text [json.dumps] produces for the one-key dictionary. *)
Lemma json_dumps_query (q : list Z) :
  json_dumps [(lit "query", q)] true
  = [123; 34; 113; 117; 101; 114; 121; 34; 58; 32; 34]
    ++ concat (replace <$> q) ++ [34; 125].
Proof.
  unfold json_dumps, py_encode_basestring_ascii, sort_items.
  change (lit "{") with [123]. change (lit "}") with [125].
  change (lit ", ") with [44; 32]. change (lit ": ") with [58; 32].
  cbn [foldr insert_item fmap list_fmap join fst snd].
  change (concat (replace <$> lit "query")) with [113; 117; 101; 114; 121].
  cbn [app]. by rewrite <- !app_assoc.
Qed.

Lemma json_dumps_query_ascii (q : list Z) :
  Forall code_point q → ascii_only (json_dumps [(lit "query", q)] true).
Proof.
  intros Hq. rewrite json_dumps_query.
  apply Forall_app_2; [repeat (apply Forall_cons_2; [lia |]); apply Forall_nil_2 |].
  apply Forall_app_2; [by apply encoded_ascii |].
  repeat (apply Forall_cons_2; [lia |]); apply Forall_nil_2.
Qed.


(** Parsing the one-key document, given the scan of its value. *)
Lemma parse_query_document (q body : list Z) (n : nat) :
  scanstring (length body) body = Some (q, [125]) →
  parse_value (S (S n))
    ([123; 34; 113; 117; 101; 114; 121; 34; 58; 32; 34] ++ body)
  = Some (JObject [([113; 117; 101; 114; 121], JString q)], []).
Proof.
  intros Hscan.
  transitivity ('(ms, rest) ← ('(v, t) ← ('(str, rest) ← scanstring (length body) body;
                                         Some (JString str, rest));
                               match skip_ws t with
                               | 125 :: rest => Some ([([113; 117; 101; 114; 121], v)], rest)
                               | 44 :: t =>
                                   '(ms, rest) ← parse_members n (parse_value (S n)) (skip_ws t);
                                   Some (([113; 117; 101; 114; 121], v) :: ms, rest)
                               | _ => None
                               end);
                Some (JObject ms, rest)).
  - reflexivity.
  - rewrite Hscan. reflexivity.
Qed.

Lemma json_loads_query (q : list Z) :
  Forall code_point q → no_surrogate_pair q →
  json_loads (json_dumps [(lit "query", q)] true)
  = Ok (JObject [(lit "query", JString q)]).
Proof.
  intros Hq Hpair. rewrite json_dumps_query.
  pose proof (encoded_length q Hq) as Hlen.
  assert (Hscan : scanstring (length (concat (replace <$> q) ++ [34; 125]))
                    (concat (replace <$> q) ++ [34; 125]) = Some (q, [125])).
  { apply scanstring_encoded; [done | done |]. rewrite length_app. cbn. lia. }
  unfold json_loads.
  set (body := concat (replace <$> q) ++ [34; 125]) in *.
  change (skip_ws ([123; 34; 113; 117; 101; 114; 121; 34; 58; 32; 34] ++ body))
    with ([123; 34; 113; 117; 101; 114; 121; 34; 58; 32; 34] ++ body).
  change (length ([123; 34; 113; 117; 101; 114; 121; 34; 58; 32; 34] ++ body))
    with (S (S (9 + length body))).
  by rewrite (parse_query_document q body _ Hscan).
Qed.

(** C10 (as stated, refuted): the string made of the two surrogate code
    points U+D83D U+DE00 and the one-character string U+1F600 are
    different strings with the same content, and the first does not
    come back from the round trip. *)
Lemma to_content_not_injective :
  to_content [0xD83D; 0xDE00] = to_content [0x1F600]
  ∧ [0xD83D; 0xDE00] ≠ [0x1F600]
  ∧ (content ← to_content [0xD83D; 0xDE00];
     text ← utf8_decode content;
     json_loads text)
    = Ok (JObject [(lit "query", JString [0x1F600])]).
Proof. split_and!; [reflexivity | done | reflexivity]. Qed.

(** C10 (amended): for every string in which no high surrogate is
    directly followed by a low surrogate, [to_content] returns bytes that
    decode as UTF-8 and parse as JSON to exactly the object with the one
    key [query] and the string as its value; on such strings it is
    injective; equal inputs give equal bytes. *)
Theorem to_content_round_trip (q : list Z)
    (Hq : Forall code_point q) (Hpair : no_surrogate_pair q) :
  (∃ content, to_content q = Ok content
              ∧ (utf8_decode content ≫= json_loads)
                = Ok (JObject [(lit "query", JString q)]))
  ∧ (∀ q', Forall code_point q' → no_surrogate_pair q' →
           to_content q' = to_content q → q' = q)
  ∧ (∀ q', q' = q → to_content q' = to_content q).
Proof.
  assert (Hround : ∀ s, Forall code_point s → no_surrogate_pair s →
            to_content s = Ok (json_dumps [(lit "query", s)] true)
            ∧ (utf8_decode (json_dumps [(lit "query", s)] true) ≫= json_loads)
              = Ok (JObject [(lit "query", JString s)])).
  { intros s Hs Hsp. pose proof (json_dumps_query_ascii s Hs) as Hascii. split.
    - unfold to_content. by apply utf8_encode_ascii.
    - rewrite (utf8_decode_ascii _ Hascii). cbn [mbind exc_mbind exc_bind].
      by apply json_loads_query. }
  split_and!.
  - destruct (Hround q Hq Hpair) as [Hcontent Hback]. eauto.
  - intros q' Hq' Hpair' Heq.
    destruct (Hround q Hq Hpair) as [Hcontent Hback].
    destruct (Hround q' Hq' Hpair') as [Hcontent' Hback'].
    rewrite Hcontent, Hcontent' in Heq.
    assert (Hsame : json_dumps [(lit "query", q')] true
                    = json_dumps [(lit "query", q)] true) by congruence.
    rewrite Hsame, Hback in Hback'. by injection Hback'.
  - by intros q' ->.
Qed.

Lemma to_content_round_trip_witness :
  (Forall code_point [0x1F600; 10; 233; 0xD83D; 34]
   ∧ no_surrogate_pair [0x1F600; 10; 233; 0xD83D; 34])
  ∧ ∃ content, to_content [0x1F600; 10; 233; 0xD83D; 34] = Ok content
               ∧ (utf8_decode content ≫= json_loads)
                 = Ok (JObject [(lit "query", JString [0x1F600; 10; 233; 0xD83D; 34])]).
Proof.
  assert (Hq : Forall code_point [0x1F600; 10; 233; 0xD83D; 34]).
  { repeat (apply Forall_cons_2; [unfold code_point; lia |]). apply Forall_nil_2. }
  assert (Hpair : no_surrogate_pair [0x1F600; 10; 233; 0xD83D; 34]).
  { cbn. repeat split; intros [Hhigh Hlow]; by vm_compute in Hhigh, Hlow. }
  split; [done |].
  exact (proj1 (to_content_round_trip [0x1F600; 10; 233; 0xD83D; 34] Hq Hpair)).
Defined.
End Content.

(* ===================================================================== *)
(** * Further properties                                                  *)
(* ===================================================================== *)

(** ** How far the rounded quotient can be from the exact one *)

Lemma round_half_even_above (n d z : Z) :
  0 < d → z * d <= n → z <= PyFloat.round_half_even n d.
Proof.
  intros Hd Hz. unfold PyFloat.round_half_even.
  pose proof (Z.div_mod n d ltac:(lia)). pose proof (Z.mod_pos_bound n d Hd).
  assert (z <= n / d) by nia.
  repeat match goal with |- context [if ?b then _ else _] => destruct b end; lia.
Qed.

Lemma round_half_even_below (n d z : Z) :
  0 < d → n <= z * d → PyFloat.round_half_even n d <= z.
Proof.
  intros Hd Hz. unfold PyFloat.round_half_even.
  pose proof (Z.div_mod n d ltac:(lia)). pose proof (Z.mod_pos_bound n d Hd).
  destruct (Z.ltb_spec (2 * (n mod d)) d).
  - nia.
  - assert (n / d + 1 <= z) by nia.
    repeat match goal with |- context [if ?b then _ else _] => destruct b end; lia.
Qed.

Lemma quot_log2_below_53 (a b : Z) :
  0 < a → 0 < b → a < 2 ^ 53 * b → PyFloat.quot_log2 a b <= 52.
Proof.
  intros Ha Hb Hlt. unfold PyFloat.quot_log2.
  pose proof (Z.log2_nonneg b).
  pose proof (Z.log2_spec b Hb) as [_ Hbhi].
  assert (Hla : Z.log2 a < 54 + Z.log2 b).
  { apply Z.log2_lt_pow2; [lia |].
    replace (54 + Z.log2 b) with (53 + Z.succ (Z.log2 b)) by lia.
    rewrite Z.pow_add_r by lia. nia. }
  destruct (Z.le_gt_cases (Z.log2 a - Z.log2 b) 52) as [Hsmall | Hbig].
  - destruct (PyFloat.scaled a b _) as [num den]. destruct (num <? den); lia.
  - assert (Z.log2 a - Z.log2 b = 53) as -> by lia.
    unfold PyFloat.scaled. cbn [Z.leb Z.compare].
    destruct (Z.ltb_spec a (b * 2 ^ 53)); lia.
Qed.


Lemma ceil_as_ceil_at (m ex e : Z) :
  e <= ex → PyFloat.ceil (PyFloat.mk m ex) = ceil_at (m * 2 ^ (ex - e)) e.
Proof.
  intros He. unfold PyFloat.ceil, ceil_at. cbn [PyFloat.mant PyFloat.expo].
  destruct (Z.leb_spec 0 ex), (Z.leb_spec 0 e); try lia.
  - rewrite <- Z.mul_assoc, <- Z.pow_add_r by lia. do 2 f_equal. lia.
  - replace (2 ^ (ex - e)) with (2 ^ ex * 2 ^ (- e)) by (rewrite <- Z.pow_add_r by lia; f_equal; lia).
    pose proof (Z.pow_pos_nonneg 2 (- e) ltac:(lia) ltac:(lia)).
    rewrite Z.mul_assoc, <- Z.mul_opp_l, Z.div_mul by lia. lia.
  - replace (2 ^ (- e)) with (2 ^ (- ex) * 2 ^ (ex - e))
      by (rewrite <- Z.pow_add_r by lia; f_equal; lia).
    pose proof (Z.pow_pos_nonneg 2 (- ex) ltac:(lia) ltac:(lia)).
    pose proof (Z.pow_pos_nonneg 2 (ex - e) ltac:(lia) ltac:(lia)).
    rewrite <- Z.mul_opp_l, Z.div_mul_cancel_r by lia. reflexivity.
Qed.

Lemma ceil_at_mono (m n e : Z) : m <= n → ceil_at m e <= ceil_at n e.
Proof.
  intros Hmn. unfold ceil_at. destruct (Z.leb_spec 0 e).
  - pose proof (Z.pow_pos_nonneg 2 e ltac:(lia) ltac:(lia)). nia.
  - pose proof (Z.pow_pos_nonneg 2 (- e) ltac:(lia) ltac:(lia)).
    pose proof (Z.div_le_mono (- n) (- m) (2 ^ (- e)) ltac:(lia) ltac:(lia)). lia.
Qed.

(** [math.ceil] is monotone, so it commutes with [max]. *)
Lemma ceil_max (x y : PyFloat.float) :
  PyFloat.ceil (PyFloat.max x y) = Z.max (PyFloat.ceil x) (PyFloat.ceil y).
Proof.
  destruct x as [mx ex], y as [my ey]. unfold PyFloat.max, PyFloat.lt.
  cbn [PyFloat.mant PyFloat.expo].
  set (e := Z.min ex ey).
  rewrite (ceil_as_ceil_at mx ex e), (ceil_as_ceil_at my ey e) by lia.
  destruct (Z.ltb_spec (mx * 2 ^ (ex - e)) (my * 2 ^ (ey - e))) as [Hlt | Hge].
  - rewrite (ceil_as_ceil_at my ey e) by lia.
    pose proof (ceil_at_mono _ _ e (Z.lt_le_incl _ _ Hlt)). lia.
  - rewrite (ceil_as_ceil_at mx ex e) by lia.
    pose proof (ceil_at_mono _ _ e Hge). lia.
Qed.

(** A quotient below [2^53] is rounded to a double between its floor and
    its ceiling. *)
Lemma true_divide_between (a b : Z) :
  0 <= a → 0 < b → a < 2 ^ 53 * b →
  ∃ x, PyFloat.true_divide a b = Ok x
       ∧ a / b <= PyFloat.ceil x <= CheckStopTrading.ceil_div a b.
Proof.
  intros Ha Hb Hlt. unfold CheckStopTrading.ceil_div.
  destruct (Z.eq_dec a 0) as [-> | Hne].
  { exists (PyFloat.mk 0 0). split; [| by cbn].
    unfold PyFloat.true_divide. by destruct (Z.eqb_spec b 0); [lia |]. }
  assert (Ha' : 0 < a) by lia.
  pose proof (quot_log2_below_53 a b Ha' Hb Hlt) as Hlog.
  unfold PyFloat.true_divide.
  destruct (Z.eqb_spec b 0); [lia |]. destruct (Z.eqb_spec a 0); [lia |].
  rewrite (Z.abs_eq a), (Z.abs_eq b), (Z.sgn_pos a), (Z.sgn_pos b) by lia.
  unfold PyFloat.MANT_DIG, PyFloat.MIN_EXP, PyFloat.MAX_EXP.
  set (shift := Z.max _ _).
  assert (Hshift : -1074 <= shift <= 0) by lia.
  set (k := - shift). assert (Hk : 0 <= k <= 1074) by lia.
  pose proof (Z.pow_pos_nonneg 2 k ltac:(lia) ltac:(lia)) as Hpow.
  assert (Hfloor : a / b * b <= a).
  { pose proof (Z.mul_div_le a b Hb). lia. }
  assert (Hceil : a <= - (- a / b) * b).
  { pose proof (Z.mul_div_le (- a) b Hb). lia. }
  assert (Hm : ∃ m, (let '(num, den) := PyFloat.scaled a b shift in
                     PyFloat.round_half_even num den) = m
                    ∧ a / b * 2 ^ k <= m <= - (- a / b) * 2 ^ k).
  { eexists. split; [reflexivity |]. unfold PyFloat.scaled.
    destruct (Z.leb_spec 0 shift).
    - assert (shift = 0) as Hz by lia. assert (k = 0) as Hk0 by lia.
      rewrite Hz, Hk0. cbn [Z.pow Z.pow_pos Pos.iter Z.mul Pos.mul]. rewrite !Z.mul_1_r.
      split; [apply round_half_even_above | apply round_half_even_below]; lia.
    - fold k. split; [apply round_half_even_above | apply round_half_even_below]; nia. }
  destruct Hm as (m & Hmdef & Hmlo & Hmhi).
  destruct (PyFloat.scaled a b shift) as [num den]. rewrite Hmdef.
  assert (Hmpos : 0 <= m).
  { pose proof (Z.div_pos a b Ha Hb). nia. }
  assert (Hcd : - (- a / b) <= 2 ^ 53).
  { enough (- 2 ^ 53 <= - a / b) by lia. apply Z.div_le_lower_bound; lia. }
  unfold PyFloat.scaled.
  destruct (Z.leb_spec 0 (1024 - shift)); [| lia].
  assert (Hbig : m < 1 * 2 ^ (1024 - shift)).
  { replace (1024 - shift) with (1024 + k) by lia. rewrite Z.pow_add_r by lia.
    assert (2 ^ 53 < 2 ^ 1024) by (apply Z.pow_lt_mono_r; lia). nia. }
  destruct (Z.leb_spec (1 * 2 ^ (1024 - shift)) m); [lia |].
  eexists. split; [reflexivity |].
  rewrite Z.mul_1_l. unfold PyFloat.ceil. cbn [PyFloat.mant PyFloat.expo].
  destruct (Z.leb_spec 0 shift).
  - assert (shift = 0) as Hz by lia. assert (k = 0) as Hk0 by lia.
    rewrite Hz. rewrite Hk0 in Hmlo, Hmhi. cbn in Hmlo, Hmhi |- *. lia.
  - fold k. split.
    + enough (- m / 2 ^ k <= - (a / b)) by lia.
      apply Z.div_le_upper_bound; [lia |]. nia.
    + enough (- a / b <= - m / 2 ^ k) by lia.
      apply Z.div_le_lower_bound; [lia |]. nia.
Qed.

(** X1: for products that are not negative and give quotients below
    [2^53], the number of requests the code asks for is the exact one or
    exactly one less: it is never below the exact KPI without its
    margin. *)
Theorem required_mech_requests_within_one
    (now last_ts period ratio : Z)
    (HD : 0 <= (now - last_ts) * ratio < 2 ^ 53 * 10 ^ 18)
    (HP : 0 <= period * ratio < 2 ^ 53 * 10 ^ 18) :
  ∃ required,
    CheckStopTrading.required_mech_requests now last_ts period ratio = Ok required
    ∧ CheckStopTrading.spec_required_mech_requests (now - last_ts) period ratio - 1
      <= required
      <= CheckStopTrading.spec_required_mech_requests (now - last_ts) period ratio
    ∧ 1 <= required.
Proof.
  destruct (true_divide_between ((now - last_ts) * ratio) (10 ^ 18)
              ltac:(lia) ltac:(done) ltac:(lia)) as (x & Hx & Hxlo & Hxhi).
  destruct (true_divide_between (period * ratio) (10 ^ 18)
              ltac:(lia) ltac:(done) ltac:(lia)) as (y & Hy & Hylo & Hyhi).
  unfold CheckStopTrading.required_mech_requests,
    CheckStopTrading.LIVENESS_RATIO_SCALE_FACTOR,
    CheckStopTrading.REQUIRED_MECH_REQUESTS_SAFETY_MARGIN.
  rewrite Hx, Hy. cbn [mbind exc_mbind exc_bind mret exc_mret].
  eexists. split; [reflexivity |]. rewrite ceil_max.
  unfold CheckStopTrading.spec_required_mech_requests, CheckStopTrading.ceil_div in *.
  set (A := (now - last_ts) * ratio) in *. set (B := period * ratio) in *.
  assert (Hgap : ∀ n, - (- n / 10 ^ 18) - 1 <= n / 10 ^ 18 <= - (- n / 10 ^ 18)).
  { intros n. Z.to_euclidean_division_equations. lia. }
  pose proof (Hgap A). pose proof (Hgap B).
  pose proof (Z.div_pos A (10 ^ 18) ltac:(lia) ltac:(done)).
  destruct (Z.max_spec A B) as [[Hle ->] | [Hle ->]].
  - pose proof (Z.div_le_mono (- B) (- A) (10 ^ 18) ltac:(done) ltac:(lia)). lia.
  - pose proof (Z.div_le_mono (- A) (- B) (10 ^ 18) ltac:(done) ltac:(lia)). lia.
Qed.

Lemma required_mech_requests_within_one_witness :
  (0 <= (1 - 0) * (10 ^ 18 + 1) < 2 ^ 53 * 10 ^ 18 ∧ 0 <= 0 * (10 ^ 18 + 1) < 2 ^ 53 * 10 ^ 18)
  ∧ ∃ required,
      CheckStopTrading.required_mech_requests 1 0 0 (10 ^ 18 + 1) = Ok required
      ∧ 2 <= required <= 3.
Proof.
  assert (HD : 0 <= (1 - 0) * (10 ^ 18 + 1) < 2 ^ 53 * 10 ^ 18) by (by vm_compute).
  assert (HP : 0 <= 0 * (10 ^ 18 + 1) < 2 ^ 53 * 10 ^ 18) by (by vm_compute).
  split; [done |].
  destruct (required_mech_requests_within_one 1 0 0 (10 ^ 18 + 1) HD HP)
    as (required & Hrun & Hbounds & _).
  exists required. split; [exact Hrun |].
  change (CheckStopTrading.spec_required_mech_requests (1 - 0) 0 (10 ^ 18 + 1))
    with 3 in Hbounds. lia.
Defined.

(** ** What the fetches leave untouched *)

Lemma gen_bind_inv {St A B} (m : Generator.Gen St A) (k : A → Generator.Gen St B)
    (s s' : St) (b : B) :
  (m ≫= k) s = Generator.Returned b s' →
  ∃ a s1, m s = Generator.Returned a s1 ∧ k a s1 = Generator.Returned b s'.
Proof.
  unfold mbind, Generator.gen_mbind, Generator.gen_bind.
  destruct (m s) as [a s1 | |]; [eauto | done | done].
Qed.

(** Whatever a contract call does not write is the same after waiting
    for it, however many attempts it took. *)
Lemma wait_preserves {St V A} (g : St → A) (responses : St → list (option V))
    (consume : St → St) (placeholder : V → St → St) (fuel : nat) (s s' : St) (u : unit) :
  (∀ s, g (consume s) = g s) →
  (∀ v s, g (placeholder v s) = g s) →
  Generator.wait_for_condition_with_sleep fuel
    (Generator.contract_interact responses consume placeholder) s
  = Generator.Returned u s' →
  g s' = g s.
Proof.
  intros Hconsume Hplace. revert s.
  induction fuel as [| fuel IH]; intros s; [done |].
  cbn [Generator.wait_for_condition_with_sleep]. intros Hrun.
  apply gen_bind_inv in Hrun as (ok & s1 & Hcall & Hrest).
  unfold Generator.contract_interact in Hcall.
  destruct (responses s) as [| [v |] rest]; [done | |];
    injection Hcall as <- <-.
  - injection Hrest as _ <-. by rewrite Hplace, Hconsume.
  - apply gen_bind_inv in Hrest as ([] & s2 & Hsleep & Hrest).
    injection Hsleep as <-. rewrite (IH _ Hrest). apply Hconsume.
Qed.

(** A wait that returns has stored an answer of the call. *)
Lemma wait_stores {St V} (responses : St → list (option V))
    (consume : St → St) (placeholder : V → St → St) (fuel : nat) (s s' : St) (u : unit) :
  Generator.wait_for_condition_with_sleep fuel
    (Generator.contract_interact responses consume placeholder) s
  = Generator.Returned u s' →
  ∃ v s0, s' = placeholder v s0.
Proof.
  revert s. induction fuel as [| fuel IH]; intros s; [done |].
  cbn [Generator.wait_for_condition_with_sleep]. intros Hrun.
  apply gen_bind_inv in Hrun as (ok & s1 & Hcall & Hrest).
  unfold Generator.contract_interact in Hcall.
  destruct (responses s) as [| [v |] rest]; [done | |];
    injection Hcall as <- <-.
  - injection Hrest as _ <-. eauto.
  - apply gen_bind_inv in Hrest as ([] & s2 & Hsleep & Hrest).
    injection Hsleep as <-. by apply IH in Hrest.
Qed.

Import CheckStopTrading.

Lemma wait_mech_request_count_preserves {A} (g : State → A) fuel s s' u :
  (∀ s, g (with_ledger pop_requests_count s) = g s) →
  (∀ v s, g (with_attrs (set_mech_request_count v) s) = g s) →
  Generator.wait_for_condition_with_sleep fuel _get_mech_request_count s
  = Generator.Returned u s' →
  g s' = g s.
Proof.
  intros H1 H2 Hrun.
  rewrite (wait_for_condition_ext fuel _ _ s get_mech_request_count_unfold) in Hrun.
  by eapply wait_preserves in Hrun.
Qed.

(** X2: for a service that is not staked the verdict is [False], reached
    after the staking call alone: the state it answered is stored, and no
    other contract call is made. *)
Theorem kpi_not_checked_when_not_staked
    (fuel : nat) (ctx : Context) (s : State) (k : nat) (state : StakingState)
    (rest : list (option StakingState))
    (Hcalls : staking_state_calls (ledger s) = replicate k None ++ Some state :: rest)
    (Hstate : state ≠ STAKED)
    (Hfuel : (k < fuel)%nat) :
  ∃ s', is_staking_kpi_met fuel ctx s = Generator.Returned false s'
        ∧ attrs s' = set_service_staking_state state (attrs s)
        ∧ staking_state_calls (ledger s') = rest
        ∧ requests_count_calls (ledger s') = requests_count_calls (ledger s)
        ∧ service_info_calls (ledger s') = service_info_calls (ledger s)
        ∧ ts_checkpoint_calls (ledger s') = ts_checkpoint_calls (ledger s)
        ∧ liveness_period_calls (ledger s') = liveness_period_calls (ledger s)
        ∧ liveness_ratio_calls (ledger s') = liveness_ratio_calls (ledger s)
        ∧ outbox s' = outbox s.
Proof.
  destruct (wait_fetch staking_state_calls pop_staking_state set_service_staking_state
              fuel k state rest s ltac:(done) Hcalls Hfuel) as (s1 & Hw & Ha & Hl).
  exists s1. split_and!.
  - unfold is_staking_kpi_met.
    rewrite (gen_bind_returned _ _ _ _ _ Hw), gen_bind_gets, Ha.
    cbn [service_staking_state set_service_staking_state].
    by rewrite bool_decide_eq_true_2.
  - exact Ha.
  - rewrite Hl. clear -Hcalls. revert Hcalls. generalize (ledger s) as l.
    induction k as [| k IH]; intros l Hcalls.
    + cbn. by rewrite Hcalls.
    + rewrite Nat.iter_succ_r. apply IH. cbn. by rewrite Hcalls.
  - by rewrite Hl, (iter_frame requests_count_calls pop_staking_state).
  - by rewrite Hl, (iter_frame service_info_calls pop_staking_state).
  - by rewrite Hl, (iter_frame ts_checkpoint_calls pop_staking_state).
  - by rewrite Hl, (iter_frame liveness_period_calls pop_staking_state).
  - by rewrite Hl, (iter_frame liveness_ratio_calls pop_staking_state).
  - apply (wait_preserves outbox) in Hw; done.
Qed.

Lemma kpi_not_checked_when_not_staked_witness :
  (staking_state_calls (ledger (KpiExamples.state_of KpiMoreExamples.evicted_ledger))
   = replicate 2 None ++ Some EVICTED :: [] ∧ EVICTED ≠ STAKED ∧ (2 < 3)%nat)
  ∧ Generator.returned_value
      (is_staking_kpi_met 3 (KpiExamples.context_at 1 4600)
         (KpiExamples.state_of KpiMoreExamples.evicted_ledger))
    = Some false.
Proof.
  split; [split_and!; [reflexivity | done | lia] |].
  destruct (kpi_not_checked_when_not_staked 3 (KpiExamples.context_at 1 4600)
              (KpiExamples.state_of KpiMoreExamples.evicted_ledger) 2 EVICTED []
              eq_refl ltac:(done) ltac:(lia)) as (s' & Hrun & _).
  by rewrite Hrun.
Defined.

(** What a returned KPI check leaves behind. *)
Lemma is_staking_kpi_met_returns (fuel : nat) (ctx : Context) (s s' : State) (met : bool)
    (Hrun : is_staking_kpi_met fuel ctx s = Generator.Returned met s') :
  outbox s' = outbox s
  ∧ is_done s' = is_done s
  ∧ (met = true → service_staking_state (attrs s') = STAKED).
Proof.
  unfold is_staking_kpi_met, _check_service_staked, _get_service_info,
    _get_ts_checkpoint, _get_liveness_period, _get_liveness_ratio in Hrun.
  apply gen_bind_inv in Hrun as ([] & s1 & Hw1 & Hrun).
  pose proof Hw1 as Ho1. apply (wait_preserves outbox) in Ho1; [| done | done].
  pose proof Hw1 as Hd1. apply (wait_preserves is_done) in Hd1; [| done | done].
  rewrite gen_bind_gets in Hrun.
  case_bool_decide as Hstaked.
  { injection Hrun as <- <-. split_and!; done. }
  apply gen_bind_inv in Hrun as ([] & s2 & Hw2 & Hrun).
  rewrite gen_bind_gets in Hrun.
  apply gen_bind_inv in Hrun as ([] & s3 & Hw3 & Hrun).
  rewrite gen_bind_gets in Hrun.
  apply gen_bind_inv in Hrun as (nonce & s3' & Hnonce & Hrun).
  assert (s3' = s3) as ->.
  { unfold Generator.lift_exc in Hnonce. destruct (_ ≫= _); congruence. }
  apply gen_bind_inv in Hrun as ([] & s4 & Hw4 & Hrun).
  rewrite gen_bind_gets in Hrun.
  apply gen_bind_inv in Hrun as ([] & s5 & Hw5 & Hrun).
  rewrite gen_bind_gets in Hrun.
  apply gen_bind_inv in Hrun as ([] & s6 & Hw6 & Hrun).
  rewrite gen_bind_gets in Hrun.
  apply gen_bind_inv in Hrun as (c0 & s6' & Hc0 & Hrun).
  assert (s6' = s6) as ->.
  { unfold Generator.lift_exc in Hc0. destruct (py_int _); congruence. }
  apply gen_bind_inv in Hrun as (required & s6' & Hreq & Hrun).
  assert (s6' = s6) as ->.
  { unfold Generator.lift_exc in Hreq. destruct (required_mech_requests _ _ _ _); congruence. }
  assert (s' = s6) as ->.
  { destruct (required <=? _); by injection Hrun. }
  assert (Hframe : ∀ {A} (g : State → A),
             (∀ pop s, g (with_ledger pop s) = g s) →
             (∀ v s, g (with_attrs (set_mech_request_count v) s) = g s) →
             (∀ v s, g (with_attrs (set_service_info v) s) = g s) →
             (∀ v s, g (with_attrs (set_ts_checkpoint v) s) = g s) →
             (∀ v s, g (with_attrs (set_liveness_period v) s) = g s) →
             (∀ v s, g (with_attrs (set_liveness_ratio v) s) = g s) →
             g s6 = g s1).
  { intros A g Hl H2 H3 H4 H5 H6.
    apply (wait_preserves g) in Hw6; [| apply Hl | apply H6].
    apply (wait_preserves g) in Hw5; [| apply Hl | apply H5].
    apply (wait_preserves g) in Hw4; [| apply Hl | apply H4].
    apply (wait_preserves g) in Hw3; [| apply Hl | apply H3].
    apply (wait_mech_request_count_preserves g) in Hw2; [| apply Hl | apply H2].
    congruence. }
  split_and!.
  - by rewrite (Hframe _ outbox).
  - by rewrite (Hframe _ is_done).
  - intros _. by rewrite (Hframe _ (fun s => service_staking_state (attrs s))).
Qed.

(** X3: whatever [is_staking_kpi_met] returns, it has sent nothing and
    has not finished the behaviour; and it returns [True] only with the
    service recorded as staked. *)
Theorem kpi_met_only_when_staked (fuel : nat) (ctx : Context) (s s' : State) (met : bool)
    (Hrun : is_staking_kpi_met fuel ctx s = Generator.Returned met s') :
  outbox s' = outbox s
  ∧ is_done s' = is_done s
  ∧ (met = true → service_staking_state (attrs s') = STAKED).
Proof. exact (is_staking_kpi_met_returns fuel ctx s s' met Hrun). Qed.

Lemma kpi_met_only_when_staked_witness :
  is_staking_kpi_met 3 (KpiExamples.context_at 1 4600) (KpiExamples.hourly 3601)
  = Generator.Returned true KpiMoreExamples.hourly_met
  ∧ outbox KpiMoreExamples.hourly_met = []
  ∧ service_staking_state (attrs KpiMoreExamples.hourly_met) = STAKED.
Proof.
  assert (Hrun : is_staking_kpi_met 3 (KpiExamples.context_at 1 4600)
                   (KpiExamples.hourly 3601)
                 = Generator.Returned true KpiMoreExamples.hourly_met)
    by (vm_compute; reflexivity).
  split; [exact Hrun |].
  destruct (kpi_met_only_when_staked 3 (KpiExamples.context_at 1 4600)
              (KpiExamples.hourly 3601) KpiMoreExamples.hourly_met true Hrun)
    as (Hout & _ & Hstaked).
  split; [exact Hout | exact (Hstaked eq_refl)].
Defined.

(** X4: when [async_act] returns it has sent exactly one payload, in the
    name of the agent, after the ones sent before, and has finished the
    behaviour. The payload says [False] in the first period; from the
    second period on it says [True] whenever trading is disabled, and
    otherwise says [True] only with the KPI check switched on and the
    service recorded as staked. *)
Theorem async_act_sends_one_payload (fuel : nat) (ctx : Context) (s s' : State)
    (Hrun : async_act fuel ctx s = Generator.Returned tt s') :
  ∃ stop,
    outbox s' = outbox s ++ [{| sender := agent_address ctx; stop_trading := stop |}]
    ∧ is_done s' = true
    ∧ (period_count ctx = 0 → stop = false)
    ∧ (period_count ctx ≠ 0 → disable_trading (params ctx) = true → stop = true)
    ∧ (stop = true → disable_trading (params ctx) = false →
       stop_trading_if_staking_kpi_met (params ctx) = true
       ∧ service_staking_state (attrs s') = STAKED).
Proof.
  unfold async_act in Hrun.
  apply gen_bind_inv in Hrun as (stop & s1 & Hstop & Hsend).
  exists stop.
  assert (Hfinal : outbox s' = outbox s1 ++ [{| sender := agent_address ctx;
                                                stop_trading := stop |}]
                   ∧ is_done s' = true ∧ attrs s' = attrs s1).
  { cbv zeta in Hsend. by injection Hsend as <-. }
  destruct Hfinal as (Hout & Hdone & Hattrs).
  unfold is_first_period in Hstop.
  destruct (Z.eqb_spec (period_count ctx) 0) as [Hfirst | Hlater].
  { injection Hstop as <- <-. split_and!; done. }
  cbv zeta in Hstop.
  apply gen_bind_inv in Hstop as (conditions & s2 & Hconditions & Hany).
  injection Hany as <- <-.
  destruct (stop_trading_if_staking_kpi_met (params ctx)) eqn:Hkpi.
  - apply gen_bind_inv in Hconditions as (met & s3 & Hmet & Hret).
    injection Hret as <- <-.
    destruct (is_staking_kpi_met_returns _ _ _ _ _ Hmet) as (Ho & Hd & Hstaked).
    split_and!; [by rewrite Hout, Ho | done | done | |].
    + intros _ ->. reflexivity.
    + intros Hstop Hoff. rewrite Hoff in Hstop. split; [done |].
      rewrite Hattrs. apply Hstaked. by destruct met.
  - injection Hconditions as <- <-.
    split_and!; [done | done | done | |].
    + intros _ ->. reflexivity.
    + intros Hstop Hoff. rewrite Hoff in Hstop. done.
Qed.

Lemma async_act_sends_one_payload_witness :
  async_act 3 (KpiExamples.context_at 1 4600) (KpiExamples.hourly 3601)
  = Generator.Returned tt KpiMoreExamples.hourly_acted
  ∧ outbox KpiMoreExamples.hourly_acted
    = [{| sender := "agent_0"; stop_trading := true |}].
Proof.
  assert (Hrun : async_act 3 (KpiExamples.context_at 1 4600) (KpiExamples.hourly 3601)
                 = Generator.Returned tt KpiMoreExamples.hourly_acted)
    by (vm_compute; reflexivity).
  split; [exact Hrun |].
  destruct (async_act_sends_one_payload 3 (KpiExamples.context_at 1 4600)
              (KpiExamples.hourly 3601) KpiMoreExamples.hourly_acted Hrun)
    as (stop & Hout & _ & _ & Hon & _).
  rewrite Hout, (Hon ltac:(done) eq_refl). reflexivity.
Defined.

(** ** More on the checkpoint round *)

Section CheckpointRound.
Import AbstractRound.
Variable of_value : Z → option StakingState.
Variable super : Round → option (gmap string dbval * Staking.Event).

(** What [end_block] did once it has answered with a pair. *)
Lemma end_block_inv (self : Round) data event :
  Staking.end_block of_value super self = Ok (Some (data, event)) →
  ∃ event0, super self = Some (data, event0)
    ∧ (event0 ≠ Staking.DONE → event = event0)
    ∧ (event0 = Staking.DONE →
       match event with
       | Staking.SERVICE_NOT_STAKED =>
           Staking.service_staking_state of_value data = Ok UNSTAKED
       | Staking.SERVICE_EVICTED =>
           Staking.service_staking_state of_value data = Ok EVICTED
       | Staking.NEXT_CHECKPOINT_NOT_REACHED_YET =>
           Staking.service_staking_state of_value data = Ok STAKED
           ∧ Staking.most_voted_tx_hash data = Ok VNone
       | Staking.DONE =>
           Staking.service_staking_state of_value data = Ok STAKED
           ∧ ∃ tx_hash, Staking.most_voted_tx_hash data = Ok tx_hash ∧ tx_hash ≠ VNone
       | _ => False
       end).
Proof.
  unfold Staking.end_block.
  destruct (super self) as [[data0 event0] |]; [| done].
  case_bool_decide as Hev.
  { intros [= <- <-]. exists event0. split_and!; done. }
  subst event0.
  destruct (Staking.service_staking_state of_value data0) as [st |] eqn:Hst;
    cbn; [| done].
  case_bool_decide as Hun.
  { subst st. intros [= <- <-]. exists Staking.DONE. split_and!; done. }
  case_bool_decide as Hev.
  { subst st. intros [= <- <-]. exists Staking.DONE. split_and!; done. }
  assert (st = STAKED) as -> by (by destruct st).
  destruct (Staking.most_voted_tx_hash data0) as [tx_hash |] eqn:Htx;
    cbn; [| done].
  case_bool_decide as Hnone.
  - subst tx_hash. intros [= <- <-]. exists Staking.DONE. split_and!; done.
  - intros [= <- <-]. exists Staking.DONE. split_and!; [done | done |].
    intros _. split; [done |]. by exists tx_hash.
Qed.

(** X5: a pair answered by [CallCheckpointRound.end_block] carries the
    data of the generic round untouched; its event is the generic
    round's own unless that was DONE, and after a DONE the event tells
    the staking state and the transaction hash that were read: not
    staked, evicted, staked without a hash, or staked with a hash for
    DONE itself. A round timeout is never made up here. *)
Theorem call_checkpoint_end_block_sound (self : Round)
    (data : gmap string dbval) (event : Staking.Event)
    (Hend : Staking.end_block of_value super self = Ok (Some (data, event))) :
  ∃ event0, super self = Some (data, event0)
    ∧ (event0 ≠ Staking.DONE → event = event0)
    ∧ (event0 = Staking.DONE →
       match event with
       | Staking.SERVICE_NOT_STAKED =>
           Staking.service_staking_state of_value data = Ok UNSTAKED
       | Staking.SERVICE_EVICTED =>
           Staking.service_staking_state of_value data = Ok EVICTED
       | Staking.NEXT_CHECKPOINT_NOT_REACHED_YET =>
           Staking.service_staking_state of_value data = Ok STAKED
           ∧ Staking.most_voted_tx_hash data = Ok VNone
       | Staking.DONE =>
           Staking.service_staking_state of_value data = Ok STAKED
           ∧ ∃ tx_hash, Staking.most_voted_tx_hash data = Ok tx_hash ∧ tx_hash ≠ VNone
       | _ => False
       end)
    ∧ (event = Staking.ROUND_TIMEOUT → event0 = Staking.ROUND_TIMEOUT).
Proof.
  destruct (end_block_inv self data event Hend) as (event0 & Hsuper & Hother & Hdone).
  exists event0. split_and!; [done | done | done |].
  intros ->. destruct (decide (event0 = Staking.DONE)) as [Heq | Hne].
  - by destruct (Hdone Heq).
  - by rewrite <- (Hother Hne).
Qed.

(** When the lines of [end_block] that follow the call of the generic
    round answer [None], and when they raise. *)
Lemma end_block_none_or_raise (self : Round) :
  (Staking.end_block of_value super self = Ok None ↔ super self = None)
  ∧ (∀ e, Staking.end_block of_value super self = Raise e ↔
          ∃ data, super self = Some (data, Staking.DONE)
            ∧ (Staking.service_staking_state of_value data = Raise e
               ∨ (Staking.service_staking_state of_value data = Ok STAKED
                  ∧ Staking.most_voted_tx_hash data = Raise e)))
  ∧ (∀ data, super self = Some (data, Staking.DONE) →
       data !! "service_staking_state" = None →
       of_value 0 = Some UNSTAKED →
       Staking.end_block of_value super self
       = Ok (Some (data, Staking.SERVICE_NOT_STAKED))).
Proof.
  unfold Staking.end_block. split_and!.
  - destruct (super self) as [[data event] |]; [| done].
    split; [| done].
    case_bool_decide; [done |].
    destruct (Staking.service_staking_state of_value data) as [st |]; cbn; [| done].
    repeat (case_bool_decide; [done |]).
    destruct (Staking.most_voted_tx_hash data) as [tx_hash |]; cbn; [| done].
    by case_bool_decide.
  - intros e. destruct (super self) as [[data event] |]; last first.
    { split; [done | by intros (? & ? & ?)]. }
    case_bool_decide as Hev.
    { split; [done | intros (? & ? & _); simplify_eq]. }
    subst event.
    destruct (Staking.service_staking_state of_value data) as [st | e'] eqn:Hst;
      cbn; last first.
    { split.
      - intros [= ->]. exists data. split; [done |]. by left.
      - intros (? & [= <-] & [Hr | [Hr _]]); congruence. }
    case_bool_decide as Hun.
    { split; [done | intros (? & [= <-] & [Hr | [Hr _]]); congruence]. }
    case_bool_decide as Hevicted.
    { split; [done | intros (? & [= <-] & [Hr | [Hr _]]); congruence]. }
    assert (st = STAKED) as -> by (by destruct st).
    destruct (Staking.most_voted_tx_hash data) as [tx_hash | e'] eqn:Htx; cbn.
    + split; [by case_bool_decide |].
      intros (? & [= <-] & [Hr | [_ Hr]]); congruence.
    + split.
      * intros [= ->]. exists data. split; [done |]. by right.
      * intros (? & [= <-] & [Hr | [_ Hr]]); congruence.
  - intros data -> Hmissing Hzero.
    rewrite bool_decide_eq_false_2 by (by intros Hne; apply Hne).
    unfold Staking.service_staking_state, db_get. by rewrite Hmissing, Hzero.
Qed.

(** X7: let the generic round answer only with its two configured
    events and, on DONE, with data in which the three selected keys are
    written. Then every pair that [end_block] answers has an entry in
    the transition table; the next round is the checkpoint round again
    exactly for NO_MAJORITY and a final round otherwise; the keys the
    application promises for that final round are all present in the
    data; and the round with a prepared checkpoint call is reached
    only for a staked service with a transaction hash. *)
Theorem call_checkpoint_reaches_declared_round (self : Round)
    (data : gmap string dbval) (event : Staking.Event)
    (Hevents : ∀ d e, super self = Some (d, e) →
                      e = Staking.DONE ∨ e = Staking.NO_MAJORITY)
    (Hkeys : ∀ d, super self = Some (d, Staking.DONE) →
                  ∀ key, key ∈ Staking.selection_key → is_Some (d !! key))
    (Hend : Staking.end_block of_value super self = Ok (Some (data, event))) :
  ∃ next,
    (Staking.transition_function !! Staking.CallCheckpointRound ≫= (.!! event))
    = Some next
    ∧ (next = Staking.CallCheckpointRound ↔ event = Staking.NO_MAJORITY)
    ∧ (next ∈ Staking.final_states ↔ event ≠ Staking.NO_MAJORITY)
    ∧ (∀ keys, Staking.db_post_conditions !! next = Some keys → keys ⊆ dom data)
    ∧ (next = Staking.CheckpointCallPreparedRound →
       Staking.service_staking_state of_value data = Ok STAKED
       ∧ ∃ tx_hash, data !! "most_voted_tx_hash" = Some tx_hash ∧ tx_hash ≠ VNone).
Proof.
  destruct (end_block_inv self data event Hend) as (event0 & Hsuper & Hother & Hdone).
  destruct (Hevents _ _ Hsuper) as [-> | ->].
  - specialize (Hdone eq_refl). specialize (Hkeys data Hsuper).
    assert (Hdom : ∀ key, key ∈ Staking.selection_key → key ∈ dom data).
    { intros key Hkey. apply elem_of_dom. by apply Hkeys. }
    assert (H1 : "tx_submitter" ∈ dom data)
      by (apply Hdom; unfold Staking.selection_key; repeat constructor).
    assert (H2 : "most_voted_tx_hash" ∈ dom data)
      by (apply Hdom; unfold Staking.selection_key; repeat constructor).
    assert (H3 : "service_staking_state" ∈ dom data)
      by (apply Hdom; unfold Staking.selection_key; repeat constructor).
    destruct event; try done.
    + exists Staking.CheckpointCallPreparedRound.
      split_and!; [reflexivity | done | | |].
      * by rewrite staking_final_states_elem.
      * intros keys Hpost key.
        change (Staking.db_post_conditions !! Staking.CheckpointCallPreparedRound)
          with (Some ({[ "tx_submitter"; "most_voted_tx_hash";
                         "service_staking_state" ]} : gset string)) in Hpost.
        injection Hpost as <-.
        rewrite !elem_of_union, !elem_of_singleton. by intros [[-> | ->] | ->].
      * intros _. destruct Hdone as (Hst & tx_hash & Htx & Hne). split; [done |].
        exists tx_hash. split; [| done].
        unfold Staking.most_voted_tx_hash, db_get_strict in Htx.
        by destruct (data !! "most_voted_tx_hash"); simplify_eq.
    + exists Staking.FinishedStakingRound.
      split_and!; [reflexivity | done | | | done].
      * by rewrite staking_final_states_elem.
      * intros keys Hpost key.
        change (Staking.db_post_conditions !! Staking.FinishedStakingRound)
          with (Some ({[ "service_staking_state" ]} : gset string)) in Hpost.
        injection Hpost as <-. rewrite elem_of_singleton. by intros ->.
    + exists Staking.ServiceEvictedRound.
      split_and!; [reflexivity | done | | | done].
      * by rewrite staking_final_states_elem.
      * intros keys Hpost key.
        change (Staking.db_post_conditions !! Staking.ServiceEvictedRound)
          with (Some ({[ "service_staking_state" ]} : gset string)) in Hpost.
        injection Hpost as <-. rewrite elem_of_singleton. by intros ->.
    + exists Staking.FinishedStakingRound.
      split_and!; [reflexivity | done | | | done].
      * by rewrite staking_final_states_elem.
      * intros keys Hpost key.
        change (Staking.db_post_conditions !! Staking.FinishedStakingRound)
          with (Some ({[ "service_staking_state" ]} : gset string)) in Hpost.
        injection Hpost as <-. rewrite elem_of_singleton. by intros ->.
  - assert (event = Staking.NO_MAJORITY) as -> by (by apply Hother).
    exists Staking.CallCheckpointRound.
    split_and!; [reflexivity | done | | done | done].
    rewrite staking_final_states_elem. split; intros Hne; by destruct Hne.
Qed.
End CheckpointRound.

(** X6: let the generic round return or raise.
    [CallCheckpointRound.end_block] answers [None] exactly when the
    generic round returns [None], and it ends with an exception of the
    generic round exactly when the generic round raises that exception.
    The lines of [end_block] after the call raise themselves
    exactly when the generic round returned DONE and either the staking
    state cannot be read, or the service is staked and the transaction
    hash cannot be read. A DONE whose data has no staking state is read
    with the default value 0: where 0 is the value of UNSTAKED, the round
    ends with SERVICE_NOT_STAKED. *)
Theorem call_checkpoint_end_block_failures {E : Type}
    (of_value : Z → option StakingState)
    (super : AbstractRound.Round
             → E + option (gmap string AbstractRound.dbval * Staking.Event))
    (self : AbstractRound.Round) :
  (Staking.end_block_with_super of_value super self = Staking.Answered None
   ↔ super self = inr None)
  ∧ (∀ e, Staking.end_block_with_super of_value super self = Staking.SuperRaised e
          ↔ super self = inl e)
  ∧ (∀ e, Staking.end_block_with_super of_value super self = Staking.EndBlockRaised e
          ↔ ∃ data, super self = inr (Some (data, Staking.DONE))
              ∧ (Staking.service_staking_state of_value data = Raise e
                 ∨ (Staking.service_staking_state of_value data = Ok STAKED
                    ∧ Staking.most_voted_tx_hash data = Raise e)))
  ∧ (∀ data, super self = inr (Some (data, Staking.DONE)) →
       data !! "service_staking_state" = None →
       of_value 0 = Some UNSTAKED →
       Staking.end_block_with_super of_value super self
       = Staking.Answered (Some (data, Staking.SERVICE_NOT_STAKED))).
Proof.
  unfold Staking.end_block_with_super.
  destruct (super self) as [e0 | res] eqn:Hsuper.
  { split_and!; [done | | | done].
    - intros e. split; congruence.
    - intros e. split; [done | by intros (? & ? & ?)]. }
  destruct (end_block_none_or_raise of_value (fun _ => res) self)
    as (Hnone & Hraise & Hdefault).
  destruct (Staking.end_block of_value (fun _ => res) self) as [answer | e0] eqn:Hend.
  - split_and!.
    + split.
      * intros [= ->]. f_equal. by apply Hnone.
      * intros [= ->]. assert (Ok answer = Ok None) by (by apply Hnone). congruence.
    + done.
    + intros e. split; [done |].
      intros (data & [= ->] & Hcase).
      assert (Ok answer = Raise e) by (apply Hraise; by exists data). done.
    + intros data [= ->] Hmissing Hzero.
      f_equal. specialize (Hdefault data eq_refl Hmissing Hzero). congruence.
  - split_and!.
    + split; [done |]. intros [= ->].
      assert (Raise e0 = Ok None) by (by apply Hnone). done.
    + done.
    + intros e. split.
      * intros [= <-]. destruct (proj1 (Hraise e0) eq_refl) as (data & Hres & Hcase).
        exists data. split; [by rewrite Hres | done].
      * intros (data & [= ->] & Hcase). f_equal.
        assert (Raise e0 = Raise e) by (apply Hraise; by exists data). congruence.
    + intros data [= ->] Hmissing Hzero.
      specialize (Hdefault data eq_refl Hmissing Hzero). congruence.
Qed.

Lemma call_checkpoint_end_block_sound_witness :
  Staking.end_block Examples.staking_state_of_value Examples.quorum_reached
    Examples.checkpoint_round
  = Ok (Some (Examples.unstaked_data, Staking.SERVICE_NOT_STAKED))
  ∧ ∃ event0, Examples.quorum_reached Examples.checkpoint_round
              = Some (Examples.unstaked_data, event0)
              ∧ (event0 = Staking.DONE →
                 Staking.service_staking_state Examples.staking_state_of_value
                   Examples.unstaked_data = Ok UNSTAKED).
Proof.
  assert (Hend : Staking.end_block Examples.staking_state_of_value
                   Examples.quorum_reached Examples.checkpoint_round
                 = Ok (Some (Examples.unstaked_data, Staking.SERVICE_NOT_STAKED)))
    by reflexivity.
  split; [exact Hend |].
  destruct (call_checkpoint_end_block_sound Examples.staking_state_of_value
              Examples.quorum_reached Examples.checkpoint_round
              Examples.unstaked_data Staking.SERVICE_NOT_STAKED Hend)
    as (event0 & Hsuper & _ & Hdone & _).
  exists event0. split; [exact Hsuper | exact Hdone].
Defined.

Lemma call_checkpoint_end_block_failures_witness :
  Examples.quorum_reached RoundExamples.missing_state_round
  = Some (RoundExamples.missing_state_data, Staking.DONE)
  ∧ RoundExamples.missing_state_data !! "service_staking_state" = None
  ∧ Staking.end_block_with_super (E := string) Examples.staking_state_of_value
      (fun self => inr (Examples.quorum_reached self))
      RoundExamples.missing_state_round
    = Staking.Answered (Some (RoundExamples.missing_state_data,
                              Staking.SERVICE_NOT_STAKED)).
Proof.
  split; [reflexivity |]. split; [reflexivity |].
  exact (proj2 (proj2 (proj2 (call_checkpoint_end_block_failures (E := string)
                                Examples.staking_state_of_value
                                (fun self => inr (Examples.quorum_reached self))
                                RoundExamples.missing_state_round)))
           RoundExamples.missing_state_data eq_refl eq_refl eq_refl).
Defined.

Lemma call_checkpoint_reaches_declared_round_witness :
  Staking.end_block Examples.staking_state_of_value Examples.quorum_reached
    RoundExamples.prepared_round
  = Ok (Some (RoundExamples.prepared_data, Staking.DONE))
  ∧ ∃ next,
      (Staking.transition_function !! Staking.CallCheckpointRound ≫= (.!! Staking.DONE))
      = Some next
      ∧ (∀ keys, Staking.db_post_conditions !! next = Some keys →
                 keys ⊆ dom RoundExamples.prepared_data).
Proof.
  assert (Hsuper : Examples.quorum_reached RoundExamples.prepared_round
                   = Some (RoundExamples.prepared_data, Staking.DONE))
    by reflexivity.
  assert (Hend : Staking.end_block Examples.staking_state_of_value
                   Examples.quorum_reached RoundExamples.prepared_round
                 = Ok (Some (RoundExamples.prepared_data, Staking.DONE)))
    by reflexivity.
  split; [exact Hend |].
  destruct (call_checkpoint_reaches_declared_round Examples.staking_state_of_value
              Examples.quorum_reached RoundExamples.prepared_round
              RoundExamples.prepared_data Staking.DONE) as (next & Hnext & _ & _ & Hpost & _).
  - intros d e Hd. rewrite Hsuper in Hd. injection Hd as _ <-. by left.
  - intros d Hd key Hkey. rewrite Hsuper in Hd. injection Hd as <-.
    unfold Staking.selection_key in Hkey.
    rewrite !elem_of_cons, elem_of_nil in Hkey.
    destruct Hkey as [-> | [-> | [-> | []]]]; by eexists.
  - exact Hend.
  - exists next. split; [exact Hnext | exact Hpost].
Defined.

(** ** More on the multiplexer round *)

(** The event the submitter table gives, whether or not the two round
    identifiers differ: the entry written last wins. *)
Lemma submitter_to_event_cases (dr bp s : string) :
  let event :=
    default Multiplexer.UNRECOGNIZED
      ((<[ bp := Multiplexer.BET_PLACEMENT_DONE ]>
          (<[ dr := Multiplexer.DECISION_REQUESTING_DONE ]> ∅)
        : gmap string Multiplexer.Event) !! s) in
  (s = bp ∧ event = Multiplexer.BET_PLACEMENT_DONE)
  ∨ (s ≠ bp ∧ s = dr ∧ event = Multiplexer.DECISION_REQUESTING_DONE)
  ∨ (s ≠ bp ∧ s ≠ dr ∧ event = Multiplexer.UNRECOGNIZED).
Proof.
  cbn zeta.
  destruct (decide (s = bp)) as [-> | Hbp].
  { left. by rewrite lookup_insert_eq. }
  right. rewrite lookup_insert_ne by done.
  destruct (decide (s = dr)) as [-> | Hdr].
  - left. by rewrite lookup_insert_eq.
  - right. by rewrite lookup_insert_ne, lookup_empty.
Qed.

(** X8: whenever [PostTxSettlementRound.end_block] answers, it answers
    with a pair, never with [None]: the data are the round's own, the
    event is never the round timeout, the transition table sends it to a
    final round, which promises no key, and that round is the failed one
    exactly for UNRECOGNIZED. Were the two round identifiers equal, the
    entry of the bet placement would overwrite the other one and
    DECISION_REQUESTING_DONE would never be produced. *)
Theorem post_tx_settlement_always_finishes (dr bp : string)
    (self : AbstractRound.Round)
    (result : option (gmap string AbstractRound.dbval * Multiplexer.Event))
    (Hend : Multiplexer.end_block dr bp self = Ok result) :
  ∃ event next,
    result = Some (AbstractRound.synchronized_data self, event)
    ∧ event ≠ Multiplexer.ROUND_TIMEOUT
    ∧ (dr = bp → event ≠ Multiplexer.DECISION_REQUESTING_DONE)
    ∧ (Multiplexer.transition_function !! Multiplexer.PostTxSettlementRound
         ≫= (.!! event)) = Some next
    ∧ next ∈ Multiplexer.final_states
    ∧ Multiplexer.db_post_conditions !! next = Some ∅
    ∧ (next = Multiplexer.FailedMultiplexerRound ↔ event = Multiplexer.UNRECOGNIZED).
Proof.
  unfold Multiplexer.end_block in Hend.
  destruct (Multiplexer.tx_submitter (AbstractRound.synchronized_data self))
    as [s | e]; cbn in Hend; [| done].
  injection Hend as <-.
  destruct (submitter_to_event_cases dr bp s) as [[_ ->] | [(Hbp & Hdr & ->) | (_ & _ & ->)]].
  - exists Multiplexer.BET_PLACEMENT_DONE, Multiplexer.FinishedBetPlacementTxRound.
    split_and!; try done; by rewrite multiplexer_final_states_elem.
  - exists Multiplexer.DECISION_REQUESTING_DONE, Multiplexer.FinishedDecisionRequestTxRound.
    split_and!; try done; try congruence; by rewrite multiplexer_final_states_elem.
  - exists Multiplexer.UNRECOGNIZED, Multiplexer.FailedMultiplexerRound.
    split_and!; try done; by rewrite multiplexer_final_states_elem.
Qed.

Lemma post_tx_settlement_always_finishes_witness :
  Multiplexer.end_block "decision_request_round" "bet_placement_round"
    Examples.settled_round
  = Ok (Some (AbstractRound.synchronized_data Examples.settled_round,
              Multiplexer.BET_PLACEMENT_DONE))
  ∧ ∃ event next,
      Some (AbstractRound.synchronized_data Examples.settled_round,
            Multiplexer.BET_PLACEMENT_DONE)
      = Some (AbstractRound.synchronized_data Examples.settled_round, event)
      ∧ (Multiplexer.transition_function !! Multiplexer.PostTxSettlementRound
           ≫= (.!! event)) = Some next
      ∧ next ∈ Multiplexer.final_states.
Proof.
  assert (Hend : Multiplexer.end_block "decision_request_round" "bet_placement_round"
                   Examples.settled_round
                 = Ok (Some (AbstractRound.synchronized_data Examples.settled_round,
                             Multiplexer.BET_PLACEMENT_DONE)))
    by reflexivity.
  split; [exact Hend |].
  destruct (post_tx_settlement_always_finishes "decision_request_round"
              "bet_placement_round" Examples.settled_round _ Hend)
    as (event & next & Hresult & _ & _ & Hnext & Hfinal & _).
  exists event, next. split; [exact Hresult |]. split; [exact Hnext | exact Hfinal].
Defined.

(** ** How the KPI check can fail *)

Lemma gen_bind_raised {St A B} (m : Generator.Gen St A) (k : A → Generator.Gen St B)
    (s : St) (e : PyExc) :
  (m ≫= k) s = Generator.Raised e →
  m s = Generator.Raised e
  ∨ ∃ a s1, m s = Generator.Returned a s1 ∧ k a s1 = Generator.Raised e.
Proof.
  unfold mbind, Generator.gen_mbind, Generator.gen_bind.
  destruct (m s) as [a s1 | |]; [eauto | done | intros [= ->]; by left].
Qed.

(** Waiting for a contract call never raises: a failed call is tried
    again. *)
Lemma wait_never_raises {St V} (responses : St → list (option V))
    (consume : St → St) (placeholder : V → St → St) (fuel : nat) (s : St) (e : PyExc) :
  Generator.wait_for_condition_with_sleep fuel
    (Generator.contract_interact responses consume placeholder) s
  ≠ Generator.Raised e.
Proof.
  revert s. induction fuel as [| fuel IH]; intros s; [done |].
  cbn [Generator.wait_for_condition_with_sleep]. intros Hrun.
  apply gen_bind_raised in Hrun as [Hcall | (ok & s1 & Hcall & Hrest)];
    unfold Generator.contract_interact in Hcall;
    destruct (responses s) as [| [v |] rest]; try done;
    injection Hcall as <- <-; [done |].
  apply gen_bind_raised in Hrest as [Hsleep | ([] & s2 & Hsleep & Hrest)]; [done |].
  injection Hsleep as <-. by apply IH in Hrest.
Qed.

Lemma py_getitem_raises (v : pyval) (i : nat) (e : PyExc) :
  py_getitem v i = Raise e → e = IndexError ∨ e = TypeError.
Proof.
  destruct v as [z | str | l]; cbn.
  - intros [= <-]. by right.
  - destruct (_ !! i); [done |]. intros [= <-]. by left.
  - destruct (l !! i); [done |]. intros [= <-]. by left.
Qed.

(** Dividing by the scale factor cannot raise [ZeroDivisionError]. *)
Lemma true_divide_raises (a b : Z) (e : PyExc) :
  b ≠ 0 → PyFloat.true_divide a b = Raise e → e = OverflowError.
Proof.
  intros Hb. unfold PyFloat.true_divide.
  destruct (Z.eqb_spec b 0); [done |].
  destruct (a =? 0); [done |].
  destruct (PyFloat.scaled (Z.abs a) (Z.abs b) _) as [num den].
  destruct (PyFloat.scaled _ 1 _) as [hi lo].
  destruct (lo <=? hi); [| done]. by intros [= <-].
Qed.

Lemma required_mech_requests_raises (now last_ts period ratio : Z) (e : PyExc) :
  required_mech_requests now last_ts period ratio = Raise e → e = OverflowError.
Proof.
  unfold required_mech_requests.
  destruct (PyFloat.true_divide ((now - last_ts) * ratio) _) as [x | e1] eqn:Hx; cbn.
  - destruct (PyFloat.true_divide (period * ratio) _) as [y | e2] eqn:Hy; cbn; [done |].
    intros [= <-]. by apply true_divide_raises in Hy.
  - intros [= <-]. by apply true_divide_raises in Hx.
Qed.

(** The exceptions of the KPI check: those of reading
    [service_info[2][1]], of subtracting it and of the two divisions. *)
Lemma is_staking_kpi_met_raises (fuel : nat) (ctx : Context) (s : State) (e : PyExc) :
  is_staking_kpi_met fuel ctx s = Generator.Raised e →
  e = IndexError ∨ e = TypeError ∨ e = OverflowError.
Proof.
  unfold is_staking_kpi_met, _check_service_staked, _get_service_info,
    _get_ts_checkpoint, _get_liveness_period, _get_liveness_ratio.
  intros Hrun.
  apply gen_bind_raised in Hrun as [Hr | ([] & s1 & _ & Hrun)];
    [by apply wait_never_raises in Hr |].
  rewrite gen_bind_gets in Hrun. case_bool_decide; [done |].
  apply gen_bind_raised in Hrun as [Hr | ([] & s2 & _ & Hrun)].
  { rewrite (wait_for_condition_ext fuel _ _ s1 get_mech_request_count_unfold) in Hr.
    by apply wait_never_raises in Hr. }
  rewrite gen_bind_gets in Hrun.
  apply gen_bind_raised in Hrun as [Hr | ([] & s3 & _ & Hrun)];
    [by apply wait_never_raises in Hr |].
  rewrite gen_bind_gets in Hrun.
  apply gen_bind_raised in Hrun as [Hr | (nonce & s3' & _ & Hrun)].
  { unfold Generator.lift_exc in Hr.
    destruct (py_getitem (service_info (attrs s3)) 2) as [nonces | e1] eqn:H1; cbn in Hr.
    - destruct (py_getitem nonces 1) as [n | e2] eqn:H2; [done |].
      injection Hr as <-. apply py_getitem_raises in H2 as [-> | ->]; auto.
    - injection Hr as <-. apply py_getitem_raises in H1 as [-> | ->]; auto. }
  apply gen_bind_raised in Hrun as [Hr | ([] & s4 & _ & Hrun)];
    [by apply wait_never_raises in Hr |].
  rewrite gen_bind_gets in Hrun.
  apply gen_bind_raised in Hrun as [Hr | ([] & s5 & _ & Hrun)];
    [by apply wait_never_raises in Hr |].
  rewrite gen_bind_gets in Hrun.
  apply gen_bind_raised in Hrun as [Hr | ([] & s6 & _ & Hrun)];
    [by apply wait_never_raises in Hr |].
  rewrite gen_bind_gets in Hrun.
  apply gen_bind_raised in Hrun as [Hr | (c0 & s6' & _ & Hrun)].
  { unfold Generator.lift_exc in Hr. destruct nonce; cbn in Hr; try done;
      injection Hr as <-; auto. }
  apply gen_bind_raised in Hrun as [Hr | (required & s6'' & _ & Hrun)].
  { unfold Generator.lift_exc in Hr.
    destruct (required_mech_requests _ _ _ _) as [r | e1] eqn:Hreq; [done |].
    injection Hr as <-. apply required_mech_requests_raises in Hreq. auto. }
  by destruct (required <=? _).
Qed.

(** X9: for a staked service whose request count arrived, service
    information from which [service_info[2][1]] cannot be read makes
    [is_staking_kpi_met] raise the error of that subscript, an
    [IndexError] or a [TypeError], whatever the later calls would have
    answered; outside the first period, with the KPI check switched on,
    [async_act] raises it too. *)
Theorem kpi_check_raises_on_unreadable_service_info
    (fuel : nat) (ctx : Context) (s : State) (k1 k2 k3 : nat)
    (r1 : list (option StakingState)) (r2 : list (option Z)) (r3 : list (option pyval))
    (C : Z) (info : pyval) (e : PyExc)
    (Hstaked : staking_state_calls (ledger s) = replicate k1 None ++ Some STAKED :: r1)
    (Hcount : requests_count_calls (ledger s) = replicate k2 None ++ Some C :: r2)
    (Hinfo : service_info_calls (ledger s) = replicate k3 None ++ Some info :: r3)
    (Hnonce : (py_getitem info 2 ≫= fun nonces => py_getitem nonces 1) = Raise e)
    (Hfuel : (k1 < fuel ∧ k2 < fuel ∧ k3 < fuel)%nat) :
  is_staking_kpi_met fuel ctx s = Generator.Raised e
  ∧ (e = IndexError ∨ e = TypeError)
  ∧ (period_count ctx ≠ 0 → stop_trading_if_staking_kpi_met (params ctx) = true →
     async_act fuel ctx s = Generator.Raised e).
Proof.
  destruct Hfuel as (Hk1 & Hk2 & Hk3).
  destruct (wait_fetch staking_state_calls pop_staking_state set_service_staking_state
              fuel k1 STAKED r1 s ltac:(done) Hstaked Hk1) as (s1 & Hw1 & Ha1 & Hl1).
  destruct (wait_fetch requests_count_calls pop_requests_count set_mech_request_count
              fuel k2 C r2 s1 ltac:(done)
              ltac:(frame requests_count_calls; exact Hcount) Hk2)
    as (s2 & Hw2 & Ha2 & Hl2).
  destruct (wait_fetch service_info_calls pop_service_info set_service_info
              fuel k3 info r3 s2 ltac:(done)
              ltac:(frame service_info_calls; exact Hinfo) Hk3)
    as (s3 & Hw3 & Ha3 & Hl3).
  assert (Hkpi : is_staking_kpi_met fuel ctx s = Generator.Raised e).
  { unfold is_staking_kpi_met.
    rewrite (gen_bind_returned _ _ _ _ _ Hw1), gen_bind_gets, Ha1.
    cbn [service_staking_state set_service_staking_state].
    rewrite bool_decide_eq_false_2 by (intros Hne; by apply Hne).
    erewrite gen_bind_returned; last first.
    { erewrite wait_for_condition_ext; [exact Hw2 | apply get_mech_request_count_unfold]. }
    rewrite gen_bind_gets.
    rewrite (gen_bind_returned _ _ _ _ _ Hw3), gen_bind_gets, Ha3.
    cbn [service_info set_service_info]. rewrite Hnonce. reflexivity. }
  split_and!; [done | |].
  - destruct (py_getitem info 2) as [nonces | e1] eqn:H1; cbn in Hnonce.
    + by apply py_getitem_raises in Hnonce.
    + injection Hnonce as <-. by apply py_getitem_raises in H1.
  - intros Hperiod Hon. unfold async_act, is_first_period.
    destruct (Z.eqb_spec (period_count ctx) 0); [done |]. rewrite Hon.
    unfold mbind, Generator.gen_mbind, Generator.gen_bind. by rewrite Hkpi.
Qed.

(** X10: [async_act] raises only out of the KPI check, that is outside
    the first period and with the check switched on, and then with one
    of three errors: [IndexError] or [TypeError] from reading
    [service_info[2][1]] and subtracting it, [OverflowError] from a
    quotient too large for a float. The division never raises
    [ZeroDivisionError]. *)
Theorem async_act_raises_only_in_kpi_check
    (fuel : nat) (ctx : Context) (s : State) (e : PyExc)
    (Hrun : async_act fuel ctx s = Generator.Raised e) :
  period_count ctx ≠ 0
  ∧ stop_trading_if_staking_kpi_met (params ctx) = true
  ∧ is_staking_kpi_met fuel ctx s = Generator.Raised e
  ∧ (e = IndexError ∨ e = TypeError ∨ e = OverflowError).
Proof.
  unfold async_act, is_first_period in Hrun.
  destruct (Z.eqb_spec (period_count ctx) 0) as [Hfirst | Hlater]; [done |].
  destruct (stop_trading_if_staking_kpi_met (params ctx)); [| done].
  assert (Hkpi : is_staking_kpi_met fuel ctx s = Generator.Raised e).
  { unfold mbind, Generator.gen_mbind, Generator.gen_bind in Hrun.
    destruct (is_staking_kpi_met fuel ctx s) as [met s' | |]; cbn in Hrun;
      [done | done | by injection Hrun as ->]. }
  split_and!; [done | done | done |]. by apply is_staking_kpi_met_raises in Hkpi.
Qed.

Lemma kpi_check_raises_on_unreadable_service_info_witness :
  is_staking_kpi_met 1 (KpiExamples.context_at 1 4600)
    (KpiExamples.state_of KpiMoreExamples.short_info_ledger)
  = Generator.Raised IndexError.
Proof.
  exact (proj1 (kpi_check_raises_on_unreadable_service_info 1
                  (KpiExamples.context_at 1 4600)
                  (KpiExamples.state_of KpiMoreExamples.short_info_ledger)
                  0 0 0 [] [] [] 5 (PSeq [PStr "multisig"; PStr "owner"]) IndexError
                  eq_refl eq_refl eq_refl eq_refl
                  (conj (le_n 1) (conj (le_n 1) (le_n 1))))).
Defined.

Lemma async_act_raises_only_in_kpi_check_witness :
  async_act 1 (KpiExamples.context_at 1 4600)
    (KpiExamples.state_of KpiMoreExamples.short_info_ledger)
  = Generator.Raised IndexError
  ∧ is_staking_kpi_met 1 (KpiExamples.context_at 1 4600)
      (KpiExamples.state_of KpiMoreExamples.short_info_ledger)
    = Generator.Raised IndexError.
Proof.
  assert (Hrun : async_act 1 (KpiExamples.context_at 1 4600)
                   (KpiExamples.state_of KpiMoreExamples.short_info_ledger)
                 = Generator.Raised IndexError) by reflexivity.
  split; [exact Hrun |].
  exact (proj1 (proj2 (proj2 (async_act_raises_only_in_kpi_check 1
                                (KpiExamples.context_at 1 4600)
                                (KpiExamples.state_of KpiMoreExamples.short_info_ledger)
                                IndexError Hrun)))).
Defined.

(** ** What a purchase leaves behind *)

Section PurchaseInvariants.
Import OrderSubscription.
Variable N : Nevermined.
Variable Round : SubscriptionRound.
Variable ctx : Context.

Ltac run_call :=
  unfold Generator.contract_interact, Generator.gets, Generator.modify,
    mbind, Generator.gen_mbind, Generator.gen_bind, mret, Generator.gen_mret,
    Generator.gen_ret.

(** A call that was never answered leaves the procedure suspended. *)
Lemma should_purchase_pending (s : State N) :
  use_nevermined ctx = true →
  balance_of_calls N s = [] →
  _should_purchase N ctx s = Generator.Suspended.
Proof.
  intros Hon Hcall. unfold _should_purchase, _get_balance. rewrite Hon.
  run_call. cbn. by rewrite Hcall.
Qed.

Lemma prepare_approval_tx_pending (s : State N) p :
  build_approval_tx_calls N s = [] →
  _prepare_approval_tx N p s = Generator.Suspended.
Proof. intros Hcall. unfold _prepare_approval_tx. run_call. cbn. by rewrite Hcall. Qed.

Lemma get_purchase_params_pending (s : State N) :
  resolve_did_calls N s = [] →
  _get_purchase_params N ctx s = Generator.Suspended.
Proof.
  intros Hcall. unfold _get_purchase_params, _resolve_did. run_call. cbn.
  by rewrite Hcall.
Qed.

Lemma prepare_order_tx_pending (s : State N) p :
  build_order_tx_calls N s = [] →
  _prepare_order_tx N p s = Generator.Suspended.
Proof. intros Hcall. unfold _prepare_order_tx. run_call. cbn. by rewrite Hcall. Qed.

Lemma gen_bind_suspended {St A B} (m : Generator.Gen St A)
    (k : A → Generator.Gen St B) (s : St) :
  m s = Generator.Suspended → (m ≫= k) s = Generator.Suspended.
Proof.
  intros Hm. unfold mbind, Generator.gen_mbind, Generator.gen_bind. by rewrite Hm.
Qed.

(** The conclusions of a run that ended before the last step. *)
Ltac early :=
  split_and!;
  first [ by left
        | right; left; reflexivity
        | right; cbn;
          match goal with H : ?q = _ :: _ |- context [?q] => by rewrite H end
        | intros Hno Herr; congruence
        | done
        | by right
        | idtac ].

(** What a returned purchase leaves behind. *)
Lemma get_payload_content_returns (fuel : nat) (s s' : State N) (payload : string)
    (Hrun : get_payload_content N Round ctx fuel s = Generator.Returned payload s') :
  let approval_batch :=
    {| to := payment_token ctx; data := HexBytes N (approval_tx N s') |} in
  let order_batch :=
    {| to := order_address ctx; data := HexBytes N (order_tx N s') |} in
  (multisend_batches N s' = multisend_batches N s
   ∨ multisend_batches N s' = multisend_batches N s ++ [approval_batch]
   ∨ multisend_batches N s' = multisend_batches N s ++ [approval_batch; order_batch])
  ∧ (balance_of_calls N s' = balance_of_calls N s
     ∨ balance_of_calls N s' = tail (balance_of_calls N s))
  ∧ (build_approval_tx_calls N s' = build_approval_tx_calls N s
     ∨ build_approval_tx_calls N s' = tail (build_approval_tx_calls N s))
  ∧ (resolve_did_calls N s' = resolve_did_calls N s
     ∨ resolve_did_calls N s' = tail (resolve_did_calls N s))
  ∧ (build_order_tx_calls N s' = build_order_tx_calls N s
     ∨ build_order_tx_calls N s' = tail (build_order_tx_calls N s))
  ∧ (payload ≠ NO_TX_PAYLOAD Round → payload ≠ ERROR_PAYLOAD Round →
     payload = tx_hex N s'
     ∧ multisend_batches N s'
       = multisend_batches N s ++ [approval_batch; order_batch]
     ∧ agreement_id N s'
       = get_agreement_id N (zero_x_transformer N (generated_id ctx))
           (safe_contract_address ctx))
  ∧ (agreement_id N s' = agreement_id N s
     ∨ agreement_id N s'
       = get_agreement_id N (zero_x_transformer N (generated_id ctx))
           (safe_contract_address ctx))
  ∧ (resolve_did_calls N s' = resolve_did_calls N s →
     agreement_id N s' = agreement_id N s).
Proof.
  intros approval_batch order_batch. subst approval_batch order_batch.
  unfold get_payload_content in Hrun.
  destruct (use_nevermined ctx) eqn:Hon; last first.
  { rewrite (gen_bind_returned _ _ _ _ _ (should_purchase_off N ctx s Hon)) in Hrun.
    injection Hrun as <- <-. early. }
  destruct (balance_of_calls N s) as [| [b |] rb] eqn:Hb.
  { by rewrite (gen_bind_suspended _ _ _ (should_purchase_pending s Hon Hb)) in Hrun. }
  2:{ rewrite (gen_bind_returned _ _ _ _ _ (should_purchase_failed N ctx s rb Hon Hb))
      in Hrun.
      injection Hrun as <- <-. early. }
  rewrite (gen_bind_returned _ _ _ _ _ (should_purchase_balance N ctx s b rb Hon Hb))
    in Hrun.
  set (s_balance := set_balance N b (pop_balance_of N s)) in *.
  assert (Hbal : balance_of_calls N s_balance = tail (balance_of_calls N s))
    by reflexivity.
  destruct (b <=? 0); cbn [negb] in Hrun; last first.
  { injection Hrun as <- <-. early. }
  destruct (build_approval_tx_calls N s) as [| [approval |] ra] eqn:Ha.
  { by rewrite (gen_bind_suspended _ _ _
                  (prepare_approval_tx_pending s_balance _ Ha)) in Hrun. }
  2:{ rewrite (gen_bind_returned _ _ _ _ _
                 (prepare_approval_tx_failed N s_balance _ ra Ha)) in Hrun.
      injection Hrun as <- <-. early. }
  rewrite (gen_bind_returned _ _ _ _ _
             (prepare_approval_tx_built N s_balance _ approval ra Ha)) in Hrun.
  cbn [negb ap_token _get_approval_params] in Hrun.
  set (s_approval :=
         append_batch N {| to := payment_token ctx; data := HexBytes N approval |}
           (set_approval_tx N approval (pop_build_approval_tx N s_balance))) in *.
  destruct (resolve_did_calls N s) as [| [did_doc |] rd] eqn:Hd.
  { by rewrite (gen_bind_suspended _ _ _
                  (get_purchase_params_pending s_approval Hd)) in Hrun. }
  2:{ rewrite (gen_bind_returned _ _ _ _ _
                 (get_purchase_params_unresolved N ctx s_approval rd Hd)) in Hrun.
      injection Hrun as <- <-. early. }
  destruct (get_purchase_params_resolved N ctx s_approval did_doc rd Hd)
    as (p & Hparams & Hto).
  rewrite (gen_bind_returned _ _ _ _ _ Hparams) in Hrun.
  set (s_params :=
         set_agreement_id N
           (get_agreement_id N (zero_x_transformer N (generated_id ctx))
              (safe_contract_address ctx))
           (pop_resolve_did N s_approval)) in *.
  destruct (build_order_tx_calls N s) as [| [order |] ro] eqn:Ho.
  { by rewrite (gen_bind_suspended _ _ _ (prepare_order_tx_pending s_params p Ho))
      in Hrun. }
  2:{ rewrite (gen_bind_returned _ _ _ _ _
                 (prepare_order_tx_failed N s_params p ro Ho)) in Hrun.
      injection Hrun as <- <-. early.
      intros Heq. cbn in Heq. rewrite Hd in Heq.
      apply (f_equal length) in Heq. cbn in Heq. lia. }
  rewrite (gen_bind_returned _ _ _ _ _
             (prepare_order_tx_built N s_params p order ro Ho)) in Hrun.
  cbn [negb] in Hrun. rewrite Hto in Hrun.
  set (s_order :=
         append_batch N {| to := order_address ctx; data := HexBytes N order |}
           (set_order_tx N order (pop_build_order_tx N s_params))) in *.
  apply gen_bind_inv in Hrun as ([] & s1 & Hw1 & Hrun).
  apply gen_bind_inv in Hrun as ([] & s2 & Hw2 & Hrun).
  injection Hrun as <- <-.
  assert (Hframe : ∀ {A} (g : State N → A),
             (∀ s, g (pop_build_multisend_data N s) = g s) →
             (∀ v s, g (set_multisend_data N v s) = g s) →
             (∀ s, g (pop_build_multisend_safe_tx_hash N s) = g s) →
             (∀ v s, g (set_tx_hex N v s) = g s) →
             g s2 = g s_order).
  { intros A g H1 H2 H3 H4.
    unfold _build_multisend_data, _build_multisend_safe_tx_hash in Hw1, Hw2.
    apply (wait_preserves g) in Hw2; [| apply H3 | apply H4].
    apply (wait_preserves g) in Hw1; [| apply H1 | apply H2].
    congruence. }
  rewrite (Hframe _ (multisend_batches N)), (Hframe _ (approval_tx N)),
    (Hframe _ (order_tx N)), (Hframe _ (agreement_id N)),
    (Hframe _ (balance_of_calls N)), (Hframe _ (build_approval_tx_calls N)),
    (Hframe _ (resolve_did_calls N)), (Hframe _ (build_order_tx_calls N)) by done.
  assert (Hbatches : multisend_batches N s_order
                     = multisend_batches N s
                         ++ [{| to := payment_token ctx; data := HexBytes N approval |};
                             {| to := order_address ctx; data := HexBytes N order |}]).
  { cbn. by rewrite <- app_assoc. }
  split_and!.
  - right. right. exact Hbatches.
  - right. cbn. by rewrite Hb.
  - right. cbn. by rewrite Ha.
  - right. cbn. by rewrite Hd.
  - right. cbn. by rewrite Ho.
  - intros _ _. split_and!; [reflexivity | exact Hbatches | reflexivity].
  - by right.
  - intros Heq. cbn in Heq. rewrite Hd in Heq.
      apply (f_equal length) in Heq. cbn in Heq. lia.
Qed.

(** X11: whenever [get_payload_content] returns, the multisend batches
    it found are still there, followed by nothing, by the approval
    batch, or by the approval batch and the order batch, each holding
    the transaction that was built for it; the balance, the approval,
    the document and the order were each asked for at most once; and a
    returned value that is neither of the two sentinels is the
    transaction hash built after both batches were added, with the
    agreement identifier of this purchase recorded. *)
Theorem purchase_appends_its_batches (fuel : nat) (s s' : State N) (payload : string)
    (Hrun : get_payload_content N Round ctx fuel s = Generator.Returned payload s') :
  let approval_batch :=
    {| to := payment_token ctx; data := HexBytes N (approval_tx N s') |} in
  let order_batch :=
    {| to := order_address ctx; data := HexBytes N (order_tx N s') |} in
  (multisend_batches N s' = multisend_batches N s
   ∨ multisend_batches N s' = multisend_batches N s ++ [approval_batch]
   ∨ multisend_batches N s' = multisend_batches N s ++ [approval_batch; order_batch])
  ∧ (balance_of_calls N s' = balance_of_calls N s
     ∨ balance_of_calls N s' = tail (balance_of_calls N s))
  ∧ (build_approval_tx_calls N s' = build_approval_tx_calls N s
     ∨ build_approval_tx_calls N s' = tail (build_approval_tx_calls N s))
  ∧ (resolve_did_calls N s' = resolve_did_calls N s
     ∨ resolve_did_calls N s' = tail (resolve_did_calls N s))
  ∧ (build_order_tx_calls N s' = build_order_tx_calls N s
     ∨ build_order_tx_calls N s' = tail (build_order_tx_calls N s))
  ∧ (payload ≠ NO_TX_PAYLOAD Round → payload ≠ ERROR_PAYLOAD Round →
     payload = tx_hex N s'
     ∧ multisend_batches N s'
       = multisend_batches N s ++ [approval_batch; order_batch]
     ∧ agreement_id N s'
       = get_agreement_id N (zero_x_transformer N (generated_id ctx))
           (safe_contract_address ctx)).
Proof.
  intros approval_batch order_batch.
  destruct (get_payload_content_returns fuel s s' payload Hrun)
    as (Hbatches & Hbalance & Happroval & Hdid & Horder & Hhash & _).
  split_and!; assumption.
Qed.
End PurchaseInvariants.

Lemma purchase_appends_its_batches_witness :
  OrderSubscription.get_payload_content PurchaseExamples.nevermined
    PurchaseExamples.round PurchaseExamples.context 2
    PurchaseMoreExamples.purchase_succeeds
  = Generator.Returned "hash" PurchaseMoreExamples.purchase_done
  ∧ OrderSubscription.multisend_batches _ PurchaseMoreExamples.purchase_done
    = [ {| OrderSubscription.to := "token"; OrderSubscription.data := [] |};
        {| OrderSubscription.to := "order"; OrderSubscription.data := [] |} ].
Proof.
  assert (Hrun : OrderSubscription.get_payload_content PurchaseExamples.nevermined
                   PurchaseExamples.round PurchaseExamples.context 2
                   PurchaseMoreExamples.purchase_succeeds
                 = Generator.Returned "hash" PurchaseMoreExamples.purchase_done)
    by (vm_compute; reflexivity).
  split; [exact Hrun |].
  destruct (purchase_appends_its_batches PurchaseExamples.nevermined
              PurchaseExamples.round PurchaseExamples.context 2
              PurchaseMoreExamples.purchase_succeeds
              PurchaseMoreExamples.purchase_done "hash" Hrun)
    as (_ & _ & _ & _ & _ & Hfull).
  destruct (Hfull ltac:(done) ltac:(done)) as (_ & Hbatches & _).
  exact Hbatches.
Defined.

(** ** More on the request content *)

(** X12: [to_content] raises for no string, surrogates included: its
    bytes are the ASCII text of the one-key JSON object, opening with the
    key and closing with a quote and a brace, and at least thirteen
    bytes longer than the query has characters. *)
Theorem to_content_total_ascii (q : list Z) (Hq : Forall Requests.code_point q) :
  ∃ content,
    Requests.to_content q = Ok content
    ∧ ascii_only content
    ∧ content = [123; 34; 113; 117; 101; 114; 121; 34; 58; 32; 34]
                ++ concat (Requests.replace <$> q) ++ [34; 125]
    ∧ (length q + 13 <= length content)%nat.
Proof.
  exists (Requests.json_dumps [(Requests.lit "query", q)] true).
  pose proof (json_dumps_query_ascii q Hq) as Hascii.
  split_and!.
  - unfold Requests.to_content. by apply utf8_encode_ascii.
  - done.
  - apply json_dumps_query.
  - rewrite json_dumps_query, !length_app. cbn [length].
    pose proof (encoded_length q Hq). lia.
Qed.

Lemma to_content_total_ascii_witness :
  Forall Requests.code_point [0xD83D; 0xDE00]
  ∧ ∃ content, Requests.to_content [0xD83D; 0xDE00] = Ok content ∧ ascii_only content.
Proof.
  assert (Hq : Forall Requests.code_point [0xD83D; 0xDE00]).
  { repeat (apply Forall_cons_2; [unfold Requests.code_point; lia |]). apply Forall_nil_2. }
  split; [exact Hq |].
  destruct (to_content_total_ascii [0xD83D; 0xDE00] Hq) as (content & Hok & Hascii & _).
  exists content. split; [exact Hok | exact Hascii].
Defined.

(** ** Lists for a GraphQL query *)

Section GraphqlList.
Import Requests Querying.
Variable isprintable : Z → bool.

Lemma replace_char_app (old new : Z) (s t : list Z) :
  replace_char old new (s ++ t) = replace_char old new s ++ replace_char old new t.
Proof. unfold replace_char. apply fmap_app. Qed.

Lemma replace_char_join (old new : Z) (sep : list Z) (parts : list (list Z)) :
  replace_char old new (join sep parts)
  = join (replace_char old new sep) (replace_char old new <$> parts).
Proof.
  induction parts as [| p ps IH]; [done |].
  destruct ps as [| p' ps]; [done |].
  change (join sep (p :: p' :: ps)) with (p ++ sep ++ join sep (p' :: ps)).
  rewrite !replace_char_app, IH. reflexivity.
Qed.

Lemma replace_char_plain (s : list Z) :
  Forall plain s → replace_char 39 34 s = s.
Proof.
  induction 1 as [| c s (_ & _ & Hc & _) _ IH]; [done |].
  unfold replace_char in *. cbn [fmap list_fmap]. rewrite IH.
  by destruct (Z.eqb_spec c 39).
Qed.

Lemma repr_chars_plain (s : list Z) :
  Forall plain s → concat (repr_char isprintable 39 <$> s) = s.
Proof.
  induction 1 as [| c s (Hrange & H34 & H39 & H92) _ IH]; [done |].
  cbn [fmap list_fmap concat]. rewrite IH. unfold repr_char.
  destruct (Z.eqb_spec c 39); [done |]. destruct (Z.eqb_spec c 92); [done |].
  destruct (Z.eqb_spec c 9); [lia |]. destruct (Z.eqb_spec c 10); [lia |].
  destruct (Z.eqb_spec c 13); [lia |]. destruct (Z.ltb_spec c 32); [lia |].
  destruct (Z.eqb_spec c 127); [lia |]. destruct (Z.ltb_spec c 127); [| lia].
  reflexivity.
Qed.

Lemma repr_quote_plain (s : list Z) : Forall plain s → repr_quote s = 39.
Proof.
  intros Hs. unfold repr_quote.
  assert (existsb (Z.eqb 39) s = false) as ->; [| done].
  induction Hs as [| c s (_ & _ & Hc & _) _ IH]; [done |].
  cbn [existsb]. rewrite IH. by destruct (Z.eqb_spec 39 c).
Qed.

Lemma repr_str_plain (s : list Z) :
  Forall plain s → replace_char 39 34 (repr_str isprintable s) = 34 :: s ++ [34].
Proof.
  intros Hs. unfold repr_str. rewrite (repr_quote_plain s Hs), (repr_chars_plain s Hs).
  change (39 :: s ++ [39]) with ([39] ++ s ++ [39]).
  by rewrite !replace_char_app, (replace_char_plain s Hs).
Qed.

(** X13: for strings of printable ASCII characters without quotes and
    backslashes, such as addresses and language codes,
    [to_graphql_list] gives the strings between double quotes,
    separated by a comma and a space, between square brackets. *)
Theorem to_graphql_list_plain (li : list (list Z)) (Hli : Forall (Forall plain) li) :
  to_graphql_list isprintable li
  = [91] ++ join [44; 32] ((fun s => 34 :: s ++ [34]) <$> li) ++ [93].
Proof.
  unfold to_graphql_list, repr_list.
  rewrite !replace_char_app, replace_char_join.
  change (replace_char 39 34 [91]) with [91].
  change (replace_char 39 34 [93]) with [93].
  change (replace_char 39 34 [44; 32]) with [44; 32].
  do 3 f_equal. rewrite <- list_fmap_compose.
  apply Forall_fmap_ext_1. eapply Forall_impl; [exact Hli |].
  intros s Hs. by apply repr_str_plain.
Qed.

(** X14: whatever the strings, the text [to_graphql_list] gives holds
    no single quote: the quotes [repr] chose, and the single quotes
    inside the strings, are all double quotes in the end. So the
    string that is one single quote and the string that is one double
    quote give the same text. *)
Theorem to_graphql_list_has_no_single_quote :
  (∀ li, Forall (fun c => c ≠ 39) (to_graphql_list isprintable li))
  ∧ to_graphql_list isprintable [[39]] = to_graphql_list isprintable [[34]]
  ∧ to_graphql_list isprintable [[39]] = [91; 34; 34; 34; 93].
Proof.
  split; [| split; reflexivity].
  intros li. unfold to_graphql_list, replace_char.
  apply Forall_fmap, Forall_forall. intros c _. cbn.
  by destruct (Z.eqb_spec c 39).
Qed.
End GraphqlList.

Lemma to_graphql_list_plain_witness :
  Forall (Forall plain) [Requests.lit "0x89c5"; Requests.lit "en_US"]
  ∧ Querying.to_graphql_list (fun _ => true) [Requests.lit "0x89c5"; Requests.lit "en_US"]
    = [91; 34; 48; 120; 56; 57; 99; 53; 34; 44; 32; 34; 101; 110; 95; 85; 83; 34; 93].
Proof.
  assert (Hli : Forall (Forall plain) [Requests.lit "0x89c5"; Requests.lit "en_US"]).
  { change (Forall (Forall plain) [[48; 120; 56; 57; 99; 53]; [101; 110; 95; 85; 83]]).
    repeat (first [apply Forall_nil_2 | apply Forall_cons_2]); unfold plain; lia. }
  split; [exact Hli |].
  exact (to_graphql_list_plain (fun _ => true) _ Hli).
Defined.

(** ** The query of the questions *)

(** The text that substitution in the [questions] template gives. *)
Lemma substitute_questions (creators slot_count opening_threshold languages : Template.value) :
  Template.substitute Omen.questions
    [ (Requests.lit "creators", creators);
      (Requests.lit "slot_count", slot_count);
      (Requests.lit "opening_threshold", opening_threshold);
      (Requests.lit "languages", languages) ]
  = Template.Substituted
      (QuestionsText.query (Template.py_str creators) (Template.py_str slot_count)
         (Template.py_str opening_threshold) (Template.py_str languages)).
Proof.
  unfold Template.substitute.
  let text := eval vm_compute in Omen.questions in
  change Omen.questions with text.
  cbv - [Template.py_str app].
  generalize (Template.py_str creators) (Template.py_str slot_count)
    (Template.py_str opening_threshold) (Template.py_str languages).
  intros c n o l. by vm_compute.
Qed.

(** X15: whatever the four values, substituting them in the [questions]
    template raises neither [KeyError] nor [ValueError]: the result is
    the text of the template with each placeholder replaced by the
    string of its value, and a value is not scanned for placeholders
    again. The template is its text around the four placeholders. *)
Theorem questions_substitute (creators slot_count opening_threshold languages : Template.value) :
  Template.substitute Omen.questions
    [ (Requests.lit "creators", creators);
      (Requests.lit "slot_count", slot_count);
      (Requests.lit "opening_threshold", opening_threshold);
      (Requests.lit "languages", languages) ]
  = Template.Substituted
      (QuestionsText.query (Template.py_str creators) (Template.py_str slot_count)
         (Template.py_str opening_threshold) (Template.py_str languages))
  ∧ Omen.questions
    = QuestionsText.query (Requests.lit "${creators}") (Requests.lit "${slot_count}")
        (Requests.lit "${opening_threshold}") (Requests.lit "${languages}").
Proof. split; [apply substitute_questions | by vm_compute]. Qed.

(** ** Fetching the questions *)

Lemma ascii_code_points (l : list Z) : ascii_only l → Forall Requests.code_point l.
Proof.
  intros Hl. eapply Forall_impl; [exact Hl |]. unfold Requests.code_point. cbn. lia.
Qed.

Lemma lit_ascii_range (s : string) : Forall (fun c => 0 <= c < 256) (Requests.lit s).
Proof.
  unfold Requests.lit. apply Forall_fmap, Forall_forall. intros a _. cbn.
  pose proof (Ascii.N_ascii_bounded a). lia.
Qed.

Lemma lit_code_points (s : string) : Forall Requests.code_point (Requests.lit s).
Proof.
  eapply Forall_impl; [apply lit_ascii_range |]. unfold Requests.code_point. cbn. lia.
Qed.

Lemma join_Forall (P : Z → Prop) (sep : list Z) (parts : list (list Z)) :
  Forall P sep → Forall (Forall P) parts → Forall P (Requests.join sep parts).
Proof.
  intros Hsep. induction 1 as [| p ps Hp Hps IH]; [constructor |].
  destruct ps as [| p' ps]; [done |].
  change (Requests.join sep (p :: p' :: ps))
    with (p ++ sep ++ Requests.join sep (p' :: ps)).
  by repeat apply Forall_app_2.
Qed.

Section FetchBets.
Import Requests Querying.
Variable isprintable : Z → bool.
Variable Api : ApiSpecs.
Variable ctx : Context.

Lemma hex_digits_code_points (ds : list Z) :
  Forall (fun d => 0 <= d < 16) ds → Forall code_point (hex_digit <$> ds).
Proof.
  intros Hds. apply Forall_fmap. eapply Forall_impl; [exact Hds |].
  intros d Hd. cbn. pose proof (hex_digit_range d Hd). unfold code_point. lia.
Qed.

Lemma repr_char_code_points (quote ch : Z) :
  code_point ch → Forall code_point (repr_char isprintable quote ch).
Proof.
  intros Hch.
  assert (H92 : code_point 92) by (unfold code_point; lia).
  assert (Hhex2 : Forall code_point (hex2 ch)).
  { apply (hex_digits_code_points [ch / 16 mod 16; ch mod 16]).
    repeat constructor; apply Z.mod_pos_bound; lia. }
  assert (Hhex4 : Forall code_point (hex4 ch)) by apply ascii_code_points, hex4_ascii.
  assert (Hhex8 : Forall code_point (hex8 ch)).
  { apply (hex_digits_code_points
             [ch / 268435456 mod 16; ch / 16777216 mod 16; ch / 1048576 mod 16;
              ch / 65536 mod 16; ch / 4096 mod 16; ch / 256 mod 16;
              ch / 16 mod 16; ch mod 16]).
    repeat constructor; apply Z.mod_pos_bound; lia. }
  unfold repr_char.
  repeat match goal with
         | |- context [if ?b then _ else _] => destruct b
         end;
    repeat (apply Forall_cons_2; [first [done | unfold code_point; lia] |]);
    first [done | apply Forall_nil_2].
Qed.

Lemma repr_str_code_points (s : list Z) :
  Forall code_point s → Forall code_point (repr_str isprintable s).
Proof.
  intros Hs. unfold repr_str.
  assert (Hquote : code_point (repr_quote s)).
  { unfold repr_quote, code_point. repeat case_match; lia. }
  apply Forall_cons_2; [done |].
  apply Forall_app_2; [| apply Forall_cons_2; [done | apply Forall_nil_2]].
  apply Forall_concat, Forall_fmap. eapply Forall_impl; [exact Hs |].
  intros ch Hch. by apply repr_char_code_points.
Qed.

Lemma to_graphql_list_code_points (li : list (list Z)) :
  Forall (Forall code_point) li → Forall code_point (to_graphql_list isprintable li).
Proof.
  intros Hli. unfold to_graphql_list, replace_char, repr_list.
  apply Forall_fmap.
  assert (Hrepr : Forall code_point
                    ([91] ++ join [44; 32] (repr_str isprintable <$> li) ++ [93])).
  { apply Forall_app_2; [repeat constructor; unfold code_point; lia |].
    apply Forall_app_2; [| repeat constructor; unfold code_point; lia].
    apply join_Forall; [repeat constructor; unfold code_point; lia |].
    apply Forall_fmap. eapply Forall_impl; [exact Hli |].
    intros s Hs. by apply repr_str_code_points. }
  eapply Forall_impl; [exact Hrepr |].
  intros c Hc. cbn. destruct (c =? 39); [unfold code_point; lia | done].
Qed.

Lemma questions_query_code_points (creators : list (list Z)) :
  Forall (Forall code_point) creators →
  Forall (Forall code_point) (languages ctx) →
  Forall code_point (questions_query isprintable ctx creators).
Proof.
  intros Hcreators Hlanguages. unfold questions_query, QuestionsText.query.
  assert (Hlines : ∀ lines : list string,
             Forall code_point (join [10] (lit <$> lines))).
  { intros lines. apply join_Forall; [repeat constructor; unfold code_point; lia |].
    apply Forall_fmap, Forall_forall. intros line _. apply lit_code_points. }
  assert (Hcomma : Forall code_point [44; 10])
    by (repeat constructor; unfold code_point; lia).
  assert (H0 : Forall code_point QuestionsText.before_creators) by apply Hlines.
  assert (H1 : Forall code_point QuestionsText.before_slot_count)
    by (apply Forall_app_2; [exact Hcomma | apply lit_code_points]).
  assert (H2 : Forall code_point QuestionsText.before_opening_threshold)
    by (apply Forall_app_2; [exact Hcomma | apply lit_code_points]).
  assert (H3 : Forall code_point QuestionsText.before_languages)
    by (apply Forall_app_2; [exact Hcomma | apply lit_code_points]).
  assert (H4 : Forall code_point QuestionsText.after_languages)
    by (apply Forall_app_2; [exact Hcomma | apply Hlines]).
  apply Forall_app_2; [exact H0 |].
  apply Forall_app_2; [by apply to_graphql_list_code_points |].
  apply Forall_app_2; [exact H1 |].
  apply Forall_app_2; [apply lit_code_points |].
  apply Forall_app_2; [exact H2 |].
  apply Forall_app_2; [apply lit_code_points |].
  apply Forall_app_2; [exact H3 |].
  apply Forall_app_2; [by apply to_graphql_list_code_points | exact H4].
Qed.

(** The query that [_fetch_bets] sends: the substitution cannot fail. *)
Lemma fetch_bets_query (creators : list (list Z)) :
  Template.substitute Omen.questions (questions_mapping isprintable ctx creators)
  = Template.Substituted (questions_query isprintable ctx creators).
Proof. apply substitute_questions. Qed.

Lemma q_bind_returned {St A B} (m : Gen St A) (k : A → Gen St B) (s s' : St) (a : A) :
  m s = Returned a s' → (m ≫= k) s = k a s'.
Proof. intros Hm. unfold mbind, gen_mbind, gen_bind. by rewrite Hm. Qed.

Lemma current_subgraph_run (s : State Api) (spec : Spec Api) :
  subgraphs Api s !! _current_market Api s = Some spec →
  current_subgraph Api s = Returned spec s.
Proof. intros Hspec. unfold current_subgraph. by rewrite Hspec. Qed.

Lemma on_current_subgraph_run (method : Spec Api → Spec Api) (s : State Api)
    (spec : Spec Api) :
  subgraphs Api s !! _current_market Api s = Some spec →
  on_current_subgraph Api method s
  = Returned tt (set_subgraph Api (_current_market Api s) (method spec) s).
Proof.
  intros Hspec. unfold on_current_subgraph.
  by rewrite (q_bind_returned _ _ _ _ _ (current_subgraph_run s spec Hspec)).
Qed.

(** [_handle_response] on a failed response. *)
Lemma handle_response_failed (res_context : string) (sleep_on_fail : bool)
    (s : State Api) (spec : Spec Api) :
  subgraphs Api s !! _current_market Api s = Some spec →
  let spec' := increment_retries Api spec in
  let s2 := set_subgraph Api (_current_market Api s) spec' (set_call_failed Api true s) in
  let s3 := if is_retries_exceeded Api spec' then set_fetch_status Api FAIL s2 else s2 in
  _handle_response Api None res_context sleep_on_fail s
  = Returned None
      (if sleep_on_fail then add_sleep Api (suggested_sleep_time Api spec') s3 else s3).
Proof.
  intros Hspec spec' s2 s3. unfold _handle_response.
  rewrite (q_bind_returned _ _ _ _ _ (current_subgraph_run s spec Hspec)).
  erewrite q_bind_returned by reflexivity.
  erewrite q_bind_returned by (by apply on_current_subgraph_run).
  fold spec'. change (_current_market Api (set_call_failed Api true s))
    with (_current_market Api s). fold s2.
  assert (Hspec2 : ∀ s', subgraphs Api s' = subgraphs Api s2 →
                         _current_market Api s' = _current_market Api s →
                         subgraphs Api s' !! _current_market Api s' = Some spec').
  { intros s' -> ->. apply lookup_insert_eq. }
  rewrite (q_bind_returned _ _ _ _ _
             (current_subgraph_run s2 spec' (Hspec2 s2 eq_refl eq_refl))).
  assert (Hstep : ∀ k : unit → Gen (State Api) (option (Result Api)),
            ((if is_retries_exceeded Api spec'
              then modify (set_fetch_status Api FAIL) else mret ()) ≫= k) s2
            = k () s3).
  { intros k. subst s3. by destruct (is_retries_exceeded Api spec'). }
  rewrite Hstep.
  assert (Hspec3 : subgraphs Api s3 !! _current_market Api s3 = Some spec').
  { apply Hspec2; subst s3; by destruct (is_retries_exceeded Api spec'). }
  destruct sleep_on_fail; [| reflexivity].
  erewrite q_bind_returned; [reflexivity |].
  by rewrite (q_bind_returned _ _ _ _ _ (current_subgraph_run s3 spec' Hspec3)).
Qed.

(** [_handle_response] on a result. *)
Lemma handle_response_succeeded (res : Result Api) (res_context : string)
    (sleep_on_fail : bool) (s : State Api) (spec : Spec Api) :
  subgraphs Api s !! _current_market Api s = Some spec →
  _handle_response Api (Some res) res_context sleep_on_fail s
  = Returned (Some res)
      (set_fetch_status Api SUCCESS
         (set_subgraph Api (_current_market Api s) (reset_retries Api spec)
            (set_call_failed Api false s))).
Proof.
  intros Hspec. unfold _handle_response.
  erewrite q_bind_returned by reflexivity.
  erewrite q_bind_returned by (by apply on_current_subgraph_run).
  reflexivity.
Qed.

(** [_fetch_bets], step by step. *)
Lemma fetch_bets_unfold (s : State Api) :
  _fetch_bets isprintable Api ctx s
  = match to_content (questions_query isprintable ctx (_current_creators Api s)) with
    | Raise e => Raised (Builtin e)
    | Ok content =>
        match subgraphs Api s !! _current_market Api s with
        | None => Raised (AttributeError (_current_market Api s))
        | Some spec =>
            match http_responses Api s with
            | [] => Suspended
            | response :: rest =>
                let s1 :=
                  exchange Api (get_spec Api spec, content) rest
                    (set_fetch_status Api IN_PROGRESS s) in
                match process_response Api spec response with
                | Some res =>
                    Returned (Some res)
                      (set_fetch_status Api SUCCESS
                         (set_subgraph Api (_current_market Api s)
                            (reset_retries Api spec)
                            (set_call_failed Api false s1)))
                | None =>
                    let spec' := increment_retries Api spec in
                    let s2 :=
                      set_subgraph Api (_current_market Api s) spec'
                        (set_call_failed Api true s1) in
                    let s3 :=
                      if is_retries_exceeded Api spec'
                      then set_fetch_status Api FAIL s2 else s2 in
                    Returned None (add_sleep Api (suggested_sleep_time Api spec') s3)
                end
            end
        end
    end.
Proof.
  unfold _fetch_bets.
  erewrite q_bind_returned by reflexivity.
  erewrite q_bind_returned by reflexivity.
  change (_current_creators Api (set_fetch_status Api IN_PROGRESS s))
    with (_current_creators Api s).
  rewrite fetch_bets_query.
  erewrite q_bind_returned by reflexivity.
  destruct (to_content _) as [content | e]; [| reflexivity].
  erewrite q_bind_returned by reflexivity.
  set (s0 := set_fetch_status Api IN_PROGRESS s).
  destruct (subgraphs Api s !! _current_market Api s) as [spec |] eqn:Hspec;
    last first.
  { unfold mbind, gen_mbind, gen_bind, current_subgraph. cbn. by rewrite Hspec. }
  rewrite (q_bind_returned _ _ _ _ _ (current_subgraph_run s0 spec Hspec)).
  destruct (http_responses Api s) as [| response rest] eqn:Hresponses.
  { unfold mbind, gen_mbind, gen_bind, get_http_response. cbn. by rewrite Hresponses. }
  erewrite q_bind_returned; last first.
  { unfold get_http_response. cbn. rewrite Hresponses. reflexivity. }
  set (s1 := exchange Api (get_spec Api spec, content) rest s0).
  assert (Hspec1 : subgraphs Api s1 !! _current_market Api s1 = Some spec)
    by exact Hspec.
  rewrite (q_bind_returned _ _ _ _ _ (current_subgraph_run s1 spec Hspec1)).
  cbn zeta.
  destruct (process_response Api spec response) as [res |].
  - by rewrite (q_bind_returned _ _ _ _ _
                  (handle_response_succeeded res _ true s1 spec Hspec1)).
  - by rewrite (q_bind_returned _ _ _ _ _
                  (handle_response_failed _ true s1 spec Hspec1)).
Qed.
End FetchBets.

Section QueryingBehaviour.
Import Requests Querying.
Variable isprintable : Z → bool.
Variable Api : ApiSpecs.
Variable ctx : Context.

(** X16: for creators and languages made of code points, what
    [_fetch_bets] does is settled by the context and the outside world.
    Without a subgraph under the name of the current market it raises
    [AttributeError]; with one, it is suspended until a response
    arrives; and with a response it returns what the subgraph makes of
    it, having sent one request with the subgraph's specification and
    the ASCII content of the query. After a result the status is
    SUCCESS, the retries are reset and nothing was slept; after a
    failure the retries are incremented, the suggested time is slept
    once, [_call_failed] is set and the status is FAIL when the retries
    are exceeded and IN_PROGRESS otherwise. The iterator and the
    current market are not touched. In no case does the template or
    the encoding raise. *)
Theorem fetch_bets_outcomes (s : State Api)
    (Hcreators : Forall (Forall code_point) (_current_creators Api s))
    (Hlanguages : Forall (Forall code_point) (languages ctx)) :
  let market := _current_market Api s in
  let content :=
    json_dumps [(lit "query", questions_query isprintable ctx (_current_creators Api s))]
      true in
  ascii_only content
  ∧ match subgraphs Api s !! market with
    | None => _fetch_bets isprintable Api ctx s = Raised (AttributeError market)
    | Some spec =>
        match http_responses Api s with
        | [] => _fetch_bets isprintable Api ctx s = Suspended
        | response :: rest =>
            ∃ s', _fetch_bets isprintable Api ctx s
                  = Returned (process_response Api spec response) s'
              ∧ http_requests Api s' = http_requests Api s ++ [(get_spec Api spec, content)]
              ∧ http_responses Api s' = rest
              ∧ _creators_iterator Api s' = _creators_iterator Api s
              ∧ _current_market Api s' = market
              ∧ _current_creators Api s' = _current_creators Api s
              ∧ match process_response Api spec response with
                | Some _ =>
                    _fetch_status Api s' = SUCCESS
                    ∧ _call_failed Api s' = false
                    ∧ subgraphs Api s' = <[ market := reset_retries Api spec ]> (subgraphs Api s)
                    ∧ slept Api s' = slept Api s
                | None =>
                    let spec' := increment_retries Api spec in
                    _fetch_status Api s'
                    = (if is_retries_exceeded Api spec' then FAIL else IN_PROGRESS)
                    ∧ _call_failed Api s' = true
                    ∧ subgraphs Api s' = <[ market := spec' ]> (subgraphs Api s)
                    ∧ slept Api s' = slept Api s ++ [suggested_sleep_time Api spec']
                end
        end
    end.
Proof.
  intros market content.
  pose proof (questions_query_code_points isprintable ctx _ Hcreators Hlanguages)
    as Hquery.
  pose proof (json_dumps_query_ascii _ Hquery) as Hascii.
  split; [exact Hascii |].
  rewrite (fetch_bets_unfold isprintable Api ctx s).
  unfold to_content. fold content. rewrite (utf8_encode_ascii content Hascii).
  fold market.
  destruct (subgraphs Api s !! market) as [spec |]; [| done].
  destruct (http_responses Api s) as [| response rest]; [done |].
  cbn zeta.
  destruct (process_response Api spec response) as [res |].
  - eexists. split; [reflexivity |]. split_and!; reflexivity.
  - eexists. split; [reflexivity |].
    split_and!; try (by destruct (is_retries_exceeded Api (increment_retries Api spec))).
Qed.

(** X17: what [_prepare_bets_fetching] does after a [_fetch_bets] that
    returned. After a result it moves on to the next entry of the
    iterator, or answers [False] when there is none. After a failure
    with retries left it answers [True] and changes nothing: the same
    market is fetched again. After a failure that exceeded the retries
    it answers [False], and the markets still in the iterator are not
    visited. *)
Theorem prepare_after_fetch (s s' : State Api) (bets : option (Result Api))
    (Hrun : _fetch_bets isprintable Api ctx s = Returned bets s') :
  ∃ spec, subgraphs Api s' !! _current_market Api s' = Some spec
    ∧ _creators_iterator Api s' = _creators_iterator Api s
    ∧ match bets with
      | Some _ =>
          _prepare_bets_fetching Api s'
          = match _creators_iterator Api s with
            | [] => (false, s')
            | res :: rest =>
                (true, set_fetch_status Api IN_PROGRESS (advance Api res rest s'))
            end
      | None =>
          _prepare_bets_fetching Api s'
          = (negb (is_retries_exceeded Api spec), s')
      end.
Proof.
  rewrite (fetch_bets_unfold isprintable Api ctx s) in Hrun.
  destruct (to_content _) as [content | e]; [| done].
  destruct (subgraphs Api s !! _current_market Api s) as [spec |]; [| done].
  destruct (http_responses Api s) as [| response rest]; [done |].
  cbn zeta in Hrun.
  destruct (process_response Api spec response) as [res |];
    injection Hrun as <- <-.
  - exists (reset_retries Api spec). split; [apply lookup_insert_eq |].
    split; [reflexivity |].
    unfold _prepare_bets_fetching. cbn [_fetch_status set_fetch_status].
    rewrite bool_decide_eq_true_2 by done. cbn [orb].
    cbn [_creators_iterator set_fetch_status set_subgraph set_call_failed exchange].
    destruct (_creators_iterator Api s) as [| next rest']; reflexivity.
  - exists (increment_retries Api spec).
    destruct (is_retries_exceeded Api (increment_retries Api spec)).
    + split; [apply lookup_insert_eq |]. split; reflexivity.
    + split; [apply lookup_insert_eq |]. split; reflexivity.
Qed.

(** X18: [_prepare_bets_fetching] answers [True] exactly when it
    leaves the status IN_PROGRESS, and when it answers [False] it has
    changed nothing. With the status FAIL it answers [False]; with the
    status IN_PROGRESS it answers [True] without reading the iterator.
    It takes at most one entry from the iterator, and calling it again
    straight away gives the same answer and takes no further entry. It
    touches neither the subgraphs nor the outside world. *)
Theorem prepare_bets_fetching_outcomes (s : State Api) :
  let ready := (_prepare_bets_fetching Api s).1 in
  let s' := (_prepare_bets_fetching Api s).2 in
  (ready = true ↔ _fetch_status Api s' = IN_PROGRESS)
  ∧ (ready = false → s' = s)
  ∧ (_fetch_status Api s = FAIL → ready = false)
  ∧ (_fetch_status Api s = IN_PROGRESS → ready = true ∧ s' = s)
  ∧ (_creators_iterator Api s' = _creators_iterator Api s
     ∨ ∃ res, _creators_iterator Api s = res :: _creators_iterator Api s'
              ∧ _current_market Api s' = res.1
              ∧ _current_creators Api s' = res.2)
  ∧ _prepare_bets_fetching Api s' = (ready, s')
  ∧ subgraphs Api s' = subgraphs Api s
  ∧ http_responses Api s' = http_responses Api s
  ∧ http_requests Api s' = http_requests Api s
  ∧ slept Api s' = slept Api s
  ∧ _call_failed Api s' = _call_failed Api s.
Proof.
  destruct s as [failed status iterator market creators graphs responses requests sleeps].
  unfold _prepare_bets_fetching, mark_in_progress.
  destruct status; cbn; [destruct iterator as [| res rest]; cbn | | |
                         destruct iterator as [| res rest]; cbn];
    split_and!; try done; try (by left); try (by split);
    right; by exists res.
Qed.
End QueryingBehaviour.

Lemma fetch_bets_outcomes_witness :
  Forall (Forall Requests.code_point)
    (Querying._current_creators QueryExamples.api QueryExamples.prepared)
  ∧ Forall (Forall Requests.code_point) (Querying.languages QueryExamples.context)
  ∧ ∃ s', Querying._fetch_bets (fun _ => true) QueryExamples.api QueryExamples.context
            QueryExamples.prepared
          = Querying.Returned None s'
          ∧ Querying._fetch_status QueryExamples.api s' = Querying.IN_PROGRESS.
Proof.
  assert (Hcreators : Forall (Forall Requests.code_point)
                        (Querying._current_creators QueryExamples.api
                           QueryExamples.prepared)).
  { change (Forall (Forall Requests.code_point) [[48; 120; 56; 57; 99; 53]]).
    repeat (first [apply Forall_nil_2 | apply Forall_cons_2]);
      unfold Requests.code_point; lia. }
  assert (Hlanguages : Forall (Forall Requests.code_point)
                         (Querying.languages QueryExamples.context)).
  { change (Forall (Forall Requests.code_point) [[101; 110; 95; 85; 83]]).
    repeat (first [apply Forall_nil_2 | apply Forall_cons_2]);
      unfold Requests.code_point; lia. }
  split; [exact Hcreators |]. split; [exact Hlanguages |].
  destruct (proj2 (fetch_bets_outcomes (fun _ => true) QueryExamples.api
                     QueryExamples.context QueryExamples.prepared
                     Hcreators Hlanguages))
    as (s' & Hrun & _ & _ & _ & _ & _ & Hstatus & _).
  exists s'. split; [exact Hrun | exact Hstatus].
Defined.

Lemma prepare_after_fetch_witness :
  Querying._fetch_bets (fun _ => true) QueryExamples.api QueryExamples.context
    QueryExamples.prepared
  = Querying.Returned None QueryExamples.fetched
  ∧ Querying._prepare_bets_fetching QueryExamples.api QueryExamples.fetched
    = (true, QueryExamples.fetched).
Proof.
  assert (Hrun : Querying._fetch_bets (fun _ => true) QueryExamples.api
                   QueryExamples.context QueryExamples.prepared
                 = Querying.Returned None QueryExamples.fetched)
    by (vm_compute; reflexivity).
  split; [exact Hrun |].
  destruct (prepare_after_fetch (fun _ => true) QueryExamples.api QueryExamples.context
              QueryExamples.prepared QueryExamples.fetched None Hrun)
    as (spec & Hspec & _ & Hnext).
  assert (spec = 1%nat) as -> by (vm_compute in Hspec; congruence).
  exact Hnext.
Defined.

(** ** Quotients too large for a float *)

Lemma quot_log2_lower (a b : Z) :
  0 < a → 0 < b → 0 <= Z.log2 a - Z.log2 b →
  0 <= PyFloat.quot_log2 a b → b * 2 ^ PyFloat.quot_log2 a b <= a.
Proof.
  intros Ha Hb He0. unfold PyFloat.quot_log2, PyFloat.scaled.
  destruct (Z.leb_spec 0 (Z.log2 a - Z.log2 b)); [| lia].
  destruct (Z.ltb_spec a (b * 2 ^ (Z.log2 a - Z.log2 b))) as [Hlt | Hge];
    intros Hql; [| lia].
  pose proof (Z.log2_spec a Ha) as [Halo _].
  pose proof (Z.log2_spec b Hb) as [_ Hbhi].
  pose proof (Z.log2_nonneg b).
  assert (Hsplit : 2 ^ Z.log2 a
                   = 2 ^ Z.succ (Z.log2 b) * 2 ^ (Z.log2 a - Z.log2 b - 1)).
  { rewrite <- Z.pow_add_r by lia. f_equal. lia. }
  pose proof (Z.pow_pos_nonneg 2 (Z.log2 a - Z.log2 b - 1) ltac:(lia) ltac:(lia)).
  nia.
Qed.

Lemma quot_log2_above_1024 (a b : Z) :
  0 < b → 2 ^ 1024 * b <= a → 1024 <= PyFloat.quot_log2 a b.
Proof.
  intros Hb Hbig.
  assert (Ha : 0 < a) by nia.
  pose proof (Z.log2_spec b Hb) as [Hblo _].
  pose proof (Z.log2_nonneg b).
  assert (Hla : 1024 + Z.log2 b <= Z.log2 a).
  { apply Z.log2_le_pow2; [lia |]. rewrite Z.pow_add_r by lia. nia. }
  unfold PyFloat.quot_log2, PyFloat.scaled.
  destruct (Z.leb_spec 0 (Z.log2 a - Z.log2 b)); [| lia].
  destruct (Z.ltb_spec a (b * 2 ^ (Z.log2 a - Z.log2 b))) as [Hlt | Hge]; [| lia].
  destruct (Z.eq_dec (Z.log2 a - Z.log2 b) 1024) as [Heq | Hne]; [| lia].
  rewrite Heq in Hlt. lia.
Qed.

(** A quotient of at least [2^1024] does not fit a double. *)
Lemma true_divide_overflow (a b : Z) :
  0 < b → 2 ^ 1024 * b <= a → PyFloat.true_divide a b = Raise OverflowError.
Proof.
  intros Hb Hbig.
  assert (Ha : 0 < a) by nia.
  pose proof (quot_log2_above_1024 a b Hb Hbig) as Hql.
  assert (Hlogs : 0 <= Z.log2 a - Z.log2 b).
  { pose proof (Z.log2_le_mono b a ltac:(nia)). lia. }
  pose proof (quot_log2_lower a b Ha Hb Hlogs ltac:(lia)) as Hlow.
  unfold PyFloat.true_divide.
  destruct (Z.eqb_spec b 0); [lia |]. destruct (Z.eqb_spec a 0); [lia |].
  rewrite (Z.abs_eq a), (Z.abs_eq b) by lia.
  unfold PyFloat.MANT_DIG, PyFloat.MIN_EXP, PyFloat.MAX_EXP.
  set (ql := PyFloat.quot_log2 a b) in *.
  rewrite Z.max_l by lia.
  unfold PyFloat.scaled at 1.
  destruct (Z.leb_spec 0 (ql - (53 - 1))); [| lia].
  set (shift := ql - (53 - 1)) in *.
  pose proof (Z.pow_pos_nonneg 2 shift ltac:(lia) ltac:(lia)) as Hpow.
  unfold PyFloat.scaled.
  destruct (Z.leb_spec 0 (1024 - shift)) as [Hfits | Hwide].
  - assert (Hm : 2 ^ (1024 - shift) <= PyFloat.round_half_even a (b * 2 ^ shift)).
    { apply round_half_even_above; [nia |].
      replace (2 ^ (1024 - shift) * (b * 2 ^ shift)) with (2 ^ 1024 * b); [done |].
      replace (2 ^ 1024) with (2 ^ (1024 - shift) * 2 ^ shift)
        by (rewrite <- Z.pow_add_r by lia; f_equal; lia).
      ring. }
    destruct (Z.leb_spec (1 * 2 ^ (1024 - shift))
                (PyFloat.round_half_even a (b * 2 ^ shift))); [done | lia].
  - assert (Hm : 1 <= PyFloat.round_half_even a (b * 2 ^ shift)).
    { apply round_half_even_above; [nia |].
      assert (2 ^ shift <= 2 ^ ql) by (apply Z.pow_le_mono_r; lia).
      nia. }
    pose proof (Z.pow_pos_nonneg 2 (- (1024 - shift)) ltac:(lia) ltac:(lia)).
    destruct (Z.leb_spec 1 (PyFloat.round_half_even a (b * 2 ^ shift)
                            * 2 ^ (- (1024 - shift)))); [done | nia].
Qed.

(** X19: when one of the two products is at least [2^1024 * 10^18],
    whatever the other one is, the required number of requests is not
    computed: the division raises [OverflowError]. *)
Theorem required_mech_requests_overflow (now last_ts period ratio : Z)
    (Hbig : 2 ^ 1024 * 10 ^ 18 <= (now - last_ts) * ratio
            ∨ 2 ^ 1024 * 10 ^ 18 <= period * ratio) :
  CheckStopTrading.required_mech_requests now last_ts period ratio
  = Raise OverflowError.
Proof.
  unfold CheckStopTrading.required_mech_requests,
    CheckStopTrading.LIVENESS_RATIO_SCALE_FACTOR.
  destruct Hbig as [Hbig | Hbig].
  - by rewrite (true_divide_overflow _ (10 ^ 18) ltac:(done) Hbig).
  - destruct (PyFloat.true_divide ((now - last_ts) * ratio) (10 ^ 18))
      as [x | e] eqn:Hx; cbn.
    + by rewrite (true_divide_overflow _ (10 ^ 18) ltac:(done) Hbig).
    + apply true_divide_raises in Hx; [| done]. by rewrite Hx.
Qed.

Lemma required_mech_requests_overflow_witness :
  2 ^ 1024 * 10 ^ 18 <= (1 - 0) * (2 ^ 1024 * 10 ^ 18)
  ∧ CheckStopTrading.required_mech_requests 1 0 0 (2 ^ 1024 * 10 ^ 18)
    = Raise OverflowError.
Proof.
  assert (Hbig : 2 ^ 1024 * 10 ^ 18 <= (1 - 0) * (2 ^ 1024 * 10 ^ 18)) by lia.
  split; [exact Hbig |].
  exact (required_mech_requests_overflow 1 0 0 (2 ^ 1024 * 10 ^ 18) (or_introl Hbig)).
Defined.

(** ** The parameters of a purchase *)

Section PurchaseParams.
Import OrderSubscription.
Variable N : Nevermined.
Variable ctx : Context.

(** X20: for a resolved document, [_get_purchase_params] returns
    parameters in which the receivers and the amounts are the two
    sides of the document's price, in the same order; the index is
    the lock condition's; the consumer is the safe; and the three
    condition identifiers are the lock, the transfer and the escrow
    seeds, in that order. The agreement identifier among the parameters
    is the generated seed, while the attribute [agreement_id], which
    the payload carries, is the identifier derived from that seed and
    the safe: the seeds are computed from the derived one. *)
Theorem purchase_params_of_resolved_document (s : State N) (did_doc : DidDoc N)
    (rest : list (option (DidDoc N)))
    (Hcall : resolve_did_calls N s = Some did_doc :: rest) :
  ∃ p s', _get_purchase_params N ctx s = Generator.Returned (Some p) s'
    ∧ zip (pp_receivers p) (pp_amounts p) = get_price N did_doc
    ∧ length (pp_receivers p) = length (pp_amounts p)
    ∧ pp_index p = 0
    ∧ pp_consumer p = safe_contract_address ctx
    ∧ pp_agreement_id p = zero_x_transformer N (generated_id ctx)
    ∧ agreement_id N s' = get_agreement_id N (pp_agreement_id p) (safe_contract_address ctx)
    ∧ (∃ lock_id transfer_id escrow_id,
         get_lock_payment_seed N (agreement_id N s') did_doc
           (lock_payment_condition_address ctx) (escrow_payment_condition_address ctx)
           (payment_token ctx) (pp_amounts p) (pp_receivers p)
         = (pp_condition_ids p !!! 0%nat, lock_id)
         ∧ get_transfer_nft_condition_seed N (agreement_id N s') did_doc
             (safe_contract_address ctx) (purchase_amount ctx)
             (transfer_nft_condition_address ctx) lock_id (token_address ctx)
           = (pp_condition_ids p !!! 1%nat, transfer_id)
         ∧ get_escrow_payment_seed N (agreement_id N s') did_doc
             (pp_amounts p) (pp_receivers p) (safe_contract_address ctx)
             (escrow_payment_condition_address ctx) (payment_token ctx)
             lock_id transfer_id
           = (pp_condition_ids p !!! 2%nat, escrow_id)
         ∧ length (pp_condition_ids p) = 3%nat)
    ∧ multisend_batches N s' = multisend_batches N s
    ∧ resolve_did_calls N s' = rest.
Proof.
  unfold _get_purchase_params, _resolve_did, _get_condition_ids.
  unfold Generator.contract_interact, Generator.gets, Generator.modify,
    mbind, Generator.gen_mbind, Generator.gen_bind, mret, Generator.gen_mret,
    Generator.gen_ret.
  rewrite Hcall. cbn [agreement_id set_agreement_id update pop_resolve_did world].
  destruct (get_lock_payment_seed N _ _ _ _ _ _ _) as [lock_seed lock_id] eqn:Hlock.
  destruct (get_transfer_nft_condition_seed N _ _ _ _ _ _ _)
    as [nft_seed nft_id] eqn:Hnft.
  destruct (get_escrow_payment_seed N _ _ _ _ _ _ _ _ _)
    as [escrow_seed escrow_id] eqn:Hescrow.
  destruct (get_timeouts_and_timelocks N did_doc) as [timeouts timelocks].
  eexists _, _. split; [reflexivity |].
  cbn [pp_receivers pp_amounts pp_index pp_consumer pp_agreement_id pp_condition_ids
         agreement_id multisend_batches resolve_did_calls set_agreement_id update
         pop_resolve_did world].
  split_and!; try reflexivity.
  - apply zip_fst_snd.
  - by rewrite !length_fmap.
  - exists lock_id, nft_id, escrow_id. split_and!; try done.
  - by rewrite Hcall.
Qed.
End PurchaseParams.

Lemma purchase_params_of_resolved_document_witness :
  OrderSubscription.resolve_did_calls _ PurchaseMoreExamples.purchase_succeeds
  = Some [("receiver", 10)] :: []
  ∧ ∃ p s', OrderSubscription._get_purchase_params PurchaseExamples.nevermined
              PurchaseExamples.context PurchaseMoreExamples.purchase_succeeds
            = Generator.Returned (Some p) s'
            ∧ zip (OrderSubscription.pp_receivers p) (OrderSubscription.pp_amounts p)
              = [("receiver", 10)].
Proof.
  split; [reflexivity |].
  destruct (purchase_params_of_resolved_document PurchaseExamples.nevermined
              PurchaseExamples.context PurchaseMoreExamples.purchase_succeeds
              [("receiver", 10)] [] eq_refl)
    as (p & s' & Hrun & Hzip & _).
  exists p, s'. split; [exact Hrun | exact Hzip].
Defined.

(** ** The payload of a purchase *)

Section SubscriptionPayloads.
Import OrderSubscription.
Variable N : Nevermined.
Variable Round : SubscriptionRound.
Variable auto_round_id : string.
Variable ctx : Context.
Variable agent_address : string.

(** X21: when [async_act] of the subscription behaviour returns, it has
    sent exactly one payload, after the ones sent before, and is done.
    The payload names the agent and the subscription round, its hash is
    what [get_payload_content] returned, and its agreement identifier
    is the attribute as the run left it: the identifier derived for
    this purchase whenever the hash is neither of the two sentinels,
    and the identifier the behaviour already had whenever no document
    was asked for. *)
Theorem subscription_act_sends_one_payload (fuel : nat)
    (b b' : SubscriptionAct.Behaviour N)
    (Hrun : SubscriptionAct.async_act N Round auto_round_id ctx agent_address fuel b
            = Generator.Returned tt b') :
  ∃ payload_data,
    get_payload_content N Round ctx fuel (SubscriptionAct.inner N b)
    = Generator.Returned payload_data (SubscriptionAct.inner N b')
    ∧ SubscriptionAct.outbox N b'
      = SubscriptionAct.outbox N b
          ++ [ {| SubscriptionAct.sender := agent_address;
                  SubscriptionAct.tx_submitter := auto_round_id;
                  SubscriptionAct.tx_hash := payload_data;
                  SubscriptionAct.payload_agreement_id :=
                    agreement_id N (SubscriptionAct.inner N b') |} ]
    ∧ SubscriptionAct.is_done N b' = true
    ∧ (payload_data ≠ NO_TX_PAYLOAD Round → payload_data ≠ ERROR_PAYLOAD Round →
       agreement_id N (SubscriptionAct.inner N b')
       = get_agreement_id N (zero_x_transformer N (generated_id ctx))
           (safe_contract_address ctx))
    ∧ (resolve_did_calls N (SubscriptionAct.inner N b')
       = resolve_did_calls N (SubscriptionAct.inner N b) →
       agreement_id N (SubscriptionAct.inner N b')
       = agreement_id N (SubscriptionAct.inner N b)).
Proof.
  unfold SubscriptionAct.async_act in Hrun.
  apply gen_bind_inv in Hrun as (payload_data & b1 & Hcontent & Hrest).
  unfold SubscriptionAct.on_inner in Hcontent.
  destruct (get_payload_content N Round ctx fuel (SubscriptionAct.inner N b))
    as [payload_data' s1 | |] eqn:Hpayload; [| done | done].
  injection Hcontent as -> <-.
  cbv zeta in Hrest. rewrite gen_bind_gets in Hrest.
  injection Hrest as <-. cbn.
  exists payload_data.
  destruct (get_payload_content_returns N Round ctx fuel _ _ _ Hpayload)
    as (_ & _ & _ & _ & _ & Hhash & _ & Hsame).
  split_and!; [done | done | done | | done].
  intros Hno Herr. by destruct (Hhash Hno Herr) as (_ & _ & Hid).
Qed.
End SubscriptionPayloads.

Lemma subscription_act_sends_one_payload_witness :
  SubscriptionAct.async_act PurchaseExamples.nevermined PurchaseExamples.round
    "subscription_round" PurchaseExamples.context "agent_0" 2
    {| SubscriptionAct.inner := PurchaseMoreExamples.purchase_succeeds;
       SubscriptionAct.outbox := []; SubscriptionAct.is_done := false |}
  = Generator.Returned tt PurchaseMoreExamples.purchase_acted
  ∧ SubscriptionAct.outbox _ PurchaseMoreExamples.purchase_acted
    = [ {| SubscriptionAct.sender := "agent_0";
           SubscriptionAct.tx_submitter := "subscription_round";
           SubscriptionAct.tx_hash := "hash";
           SubscriptionAct.payload_agreement_id := "0xidsafe" |} ].
Proof.
  assert (Hrun : SubscriptionAct.async_act PurchaseExamples.nevermined
                   PurchaseExamples.round "subscription_round"
                   PurchaseExamples.context "agent_0" 2
                   {| SubscriptionAct.inner := PurchaseMoreExamples.purchase_succeeds;
                      SubscriptionAct.outbox := []; SubscriptionAct.is_done := false |}
                 = Generator.Returned tt PurchaseMoreExamples.purchase_acted)
    by (vm_compute; reflexivity).
  split; [exact Hrun |].
  destruct (subscription_act_sends_one_payload PurchaseExamples.nevermined
              PurchaseExamples.round "subscription_round" PurchaseExamples.context
              "agent_0" 2 _ PurchaseMoreExamples.purchase_acted Hrun)
    as (payload_data & Hcontent & Hout & _).
  assert (payload_data = "hash") as -> by (vm_compute in Hcontent; congruence).
  exact Hout.
Defined.

(** ** Handling a response *)

Section HandleResponse.
Import Querying.
Variable Api : ApiSpecs.

(** X22: with a subgraph under the name of the current market,
    [_handle_response] returns the response it was given. A result
    sets the status to SUCCESS, clears [_call_failed], resets the
    retries of that subgraph and sleeps nothing. A failure sets
    [_call_failed], increments the retries of that subgraph, sets the
    status to FAIL only when they are exceeded, and sleeps the
    suggested time exactly when [sleep_on_fail] is set. The other
    subgraphs, the iterator and the requests are not touched. Without
    such a subgraph it raises [AttributeError] for a failure and for a
    result alike. *)
Theorem handle_response_outcomes (res : option (Result Api)) (res_context : string)
    (sleep_on_fail : bool) (s : State Api) :
  let market := _current_market Api s in
  match subgraphs Api s !! market with
  | None =>
      _handle_response Api res res_context sleep_on_fail s
      = Raised (AttributeError market)
  | Some spec =>
      ∃ s', _handle_response Api res res_context sleep_on_fail s = Returned res s'
        ∧ _call_failed Api s' = bool_decide (res = None)
        ∧ (∀ name, name ≠ market → subgraphs Api s' !! name = subgraphs Api s !! name)
        ∧ _creators_iterator Api s' = _creators_iterator Api s
        ∧ _current_market Api s' = market
        ∧ http_requests Api s' = http_requests Api s
        ∧ http_responses Api s' = http_responses Api s
        ∧ match res with
          | Some _ =>
              _fetch_status Api s' = SUCCESS
              ∧ subgraphs Api s' !! market = Some (reset_retries Api spec)
              ∧ slept Api s' = slept Api s
          | None =>
              let spec' := increment_retries Api spec in
              _fetch_status Api s'
              = (if is_retries_exceeded Api spec' then FAIL else _fetch_status Api s)
              ∧ subgraphs Api s' !! market = Some spec'
              ∧ slept Api s'
                = slept Api s
                    ++ (if sleep_on_fail then [suggested_sleep_time Api spec'] else [])
          end
  end.
Proof.
  intros market. subst market.
  destruct (subgraphs Api s !! _current_market Api s) as [spec |] eqn:Hspec.
  - destruct res as [res |].
    + rewrite (handle_response_succeeded Api res res_context sleep_on_fail s spec Hspec).
      eexists. split; [reflexivity |].
      split_and!; try reflexivity.
      * intros name Hname. cbn. by rewrite lookup_insert_ne.
      * cbn. apply lookup_insert_eq.
    + rewrite (handle_response_failed Api res_context sleep_on_fail s spec Hspec).
      eexists. split; [reflexivity |]. cbv zeta.
      destruct sleep_on_fail, (is_retries_exceeded Api (increment_retries Api spec));
        cbn; rewrite ?app_nil_r, ?lookup_insert_eq;
        split_and!; try done; intros name Hname; by rewrite lookup_insert_ne.
  - destruct res as [res |];
      unfold _handle_response, on_current_subgraph, current_subgraph,
        mbind, gen_mbind, gen_bind, modify; cbn; by rewrite Hspec.
Qed.
End HandleResponse.
